(** * digcname: CNAME lookup, classification and fingerprint matching

    A shallow embedding of the Go programs of the repository.  The
    repository holds several iterations of one command-line tool, each a
    complete [package main]:

    - [src/main.go], first program (module [MainGo]): lookup with
      NXDOMAIN detection on a failed [dig] run, results are plain
      strings; the second program in that file (module [FixedFileGo])
      has the lookup of [PatternGo] and the scan of [MainGo] and reads
      a fixed file;
    - [src/unnamed/part_002]   (module [StatusGo]): results are records
      with [Status] and [Detail] fields;
    - [src/unnamed/part_000]   (module [PatternGo]): pattern matching on
      the raw CNAME answer;
    - [src/unnamed/part_001]   (module [WildcardGo]): wildcard
      normalisation, pattern matching and the filtered report file.

    Go strings are byte strings and are modelled by [string]; Go maps by
    [gmap]; a Go [(value, error)] result by a pair whose second component
    is [None] for [nil]; the external [dig] process by a state-passing
    oracle. *)

From Stdlib Require Import String Ascii List Bool Arith NArith Lia Permutation.
From stdpp Require Import base option list gmap strings fin_maps.

Local Open Scope string_scope.
Local Open Scope list_scope.

(** ** The parts of Go's [strings] package the programs use *)

Module GoStrings.

(** [s[n:]] for [n <= len(s)]. *)
Fixpoint sliceFrom (n : nat) (s : string) : string :=
  match n, s with
  | O, _ => s
  | S n', String _ s' => sliceFrom n' s'
  | S _, EmptyString => EmptyString
  end.

(** [strings.HasPrefix(s, prefix)]. *)
Fixpoint HasPrefix (s prefix : string) {struct prefix} : bool :=
  match prefix, s with
  | EmptyString, _ => true
  | String p prefix', String c s' =>
      if Ascii.eqb c p then HasPrefix s' prefix' else false
  | String _ _, EmptyString => false
  end.

(** [strings.Contains(s, substr)]: [substr] occurs at some byte offset
    of [s]; the empty string occurs in every string. *)
Fixpoint Contains (s substr : string) : bool :=
  if HasPrefix s substr then true
  else match s with
       | EmptyString => false
       | String _ s' => Contains s' substr
       end.

(** The six ASCII bytes of Go's [asciiSpace] table:
    tab, line feed, vertical tab, form feed, carriage return, space. *)
Definition asciiSpace (c : ascii) : bool :=
  let n := N_of_ascii c in
  ((9 <=? n) && (n <=? 13) || (n =? 32))%N.

(** [unicode.IsSpace] beyond ASCII, on the UTF-8 encoding: U+0085,
    U+00A0 (two bytes) and U+1680, U+2000..U+200A, U+2028, U+2029,
    U+202F, U+205F, U+3000 (three bytes). *)
Definition space2 (b1 b2 : ascii) : bool :=
  let n1 := N_of_ascii b1 in
  let n2 := N_of_ascii b2 in
  ((n1 =? 194) && ((n2 =? 133) || (n2 =? 160)))%N.

Definition space3 (b1 b2 b3 : ascii) : bool :=
  let n1 := N_of_ascii b1 in
  let n2 := N_of_ascii b2 in
  let n3 := N_of_ascii b3 in
  ((n1 =? 225) && (n2 =? 154) && (n3 =? 128)
   || (n1 =? 226) && (n2 =? 128)
      && ((128 <=? n3) && (n3 <=? 138) || (n3 =? 168) || (n3 =? 169) || (n3 =? 175))
   || (n1 =? 226) && (n2 =? 129) && (n3 =? 159)
   || (n1 =? 227) && (n2 =? 128) && (n3 =? 128))%N.

(** The scan of [strings.TrimLeftFunc]: drop runes from the front while
    they are white space.  [is1], [is2] and [is3] recognise the one-,
    two- and three-byte encodings; a byte sequence that is not the
    encoding of a white-space rune (also an invalid one) stops the
    scan. *)
Section DropRunes.
Variable is1 : ascii -> bool.
Variable is2 : ascii -> ascii -> bool.
Variable is3 : ascii -> ascii -> ascii -> bool.

Fixpoint dropRunes (s : string) : string :=
  match s with
  | EmptyString => EmptyString
  | String b1 s1 =>
      if is1 b1 then dropRunes s1
      else match s1 with
           | String b2 s2 =>
               if is2 b1 b2 then dropRunes s2
               else match s2 with
                    | String b3 s3 =>
                        if is3 b1 b2 b3 then dropRunes s3 else s
                    | EmptyString => s
                    end
           | EmptyString => s
           end
  end.

End DropRunes.

(** [strings.TrimLeftFunc(s, unicode.IsSpace)]. *)
Definition trimLeftSpace (s : string) : string :=
  dropRunes asciiSpace space2 space3 s.

(** The same scan on the reversed string, for the right end: the last
    rune of [s] is a white-space rune exactly when [s] ends with its
    encoding, whose bytes the reversed string shows last byte first. *)
Definition trimLeftSpaceRev (r : string) : string :=
  dropRunes asciiSpace (fun b1 b2 => space2 b2 b1) (fun b1 b2 b3 => space3 b3 b2 b1) r.

Fixpoint rev (s : string) : string :=
  match s with
  | EmptyString => EmptyString
  | String c s' => rev s' ++ String c EmptyString
  end.

(** [strings.TrimRightFunc(s, unicode.IsSpace)]. *)
Definition trimRightSpace (s : string) : string :=
  rev (trimLeftSpaceRev (rev s)).

(** [strings.TrimSpace(s)]: all leading and trailing white space
    removed, as defined by Unicode. *)
Definition TrimSpace (s : string) : string :=
  trimRightSpace (trimLeftSpace s).

End GoStrings.

Import GoStrings.

(** ** The external [dig] process

    [exec.Command("dig", "+short", "CNAME", subdomain)] followed by
    [cmd.Run()] is the only effect of a lookup.  What the process wrote
    and whether [Run] returned an error is a [CmdResult]; [RunErr] holds
    the text of the error ([%v]) when [err != nil].  The network is a
    state-passing oracle: the same name may be answered differently by
    two successive runs. *)

Record CmdResult := mkCmdResult {
  Stdout : string;
  Stderr : string;
  RunErr : option string
}.

Definition Resolver (World : Type) : Type := World -> string -> CmdResult * World.

(** [err != nil] after [err := cmd.Run()]. *)
Definition processFailed (run : CmdResult) : bool :=
  match RunErr run with
  | Some _ => true
  | None => false
  end.

(** [fmt.Errorf("error executing dig command for %s: %v", subdomain, err)] *)
Definition digError (subdomain err : string) : string :=
  "error executing dig command for " ++ subdomain ++ ": " ++ err.

(** The four outcome tags of the specification's data model. *)
Inductive DnsOutcomeTag := CnameFound | NoCname | NxDomain | QueryError.

(** ** Files, arguments and the end of the process

    [os.Open] followed by the [bufio.Scanner] loop is the only way the
    programs read a file.  What a file gives is a [FileRead]: [os.Open]
    failed with an error, or it succeeded and the scanner delivered
    [tokens] (the values of [scanner.Text()] for the calls of
    [scanner.Scan()] that returned true, in order) before it stopped,
    with [scanner.Err()] being [scanErr]. *)

Inductive FileRead :=
| OpenError (err : string)
| Opened (tokens : list string) (scanErr : option string).

Definition FileSystem : Type := string -> FileRead.

(** The [for scanner.Scan()] loop of [readLinesFromFile] (called
    [readSubdomainsFromFile] in [src/main.go] and [src/unnamed/part_002],
    with the same body), [lines] being the slice built so far. *)
Fixpoint forScan (tokens : list string) (lines : list string) : list string :=
  match tokens with
  | [] => lines
  | text :: rest =>
      let line := TrimSpace text in
      if String.eqb line "" then forScan rest lines
      else forScan rest (lines ++ [line])
  end.

(** [readLinesFromFile], the same function in the four files; a [nil]
    slice is the empty list. *)
Definition readLinesFromFile (fs : FileSystem) (filename : string) : list string * option string :=
  match fs filename with
  | OpenError err => ([], Some ("error opening file " ++ filename ++ ": " ++ err)%string)
  | Opened tokens scanErr =>
      let lines := forScan tokens [] in
      match scanErr with
      | Some err => ([], Some ("error reading file " ++ filename ++ ": " ++ err)%string)
      | None => (lines, None)
      end
  end.

(** How [main] ends: [log.Fatalf] with the formatted message, a run-time
    panic (the index [os.Args[0]] out of range), or the normal end with
    what was printed, one element per [Printf] call (what reaches a
    result file is kept apart, see [WildcardGo.main]). *)
Inductive Exit :=
| Fatal (message : string)
| Panicked
| Finished (output : list string).

(** Go leaves the iteration order of a map unspecified: a [RangeOrder]
    lists the entries of a map in the order a [range] loop visits them. *)
Definition RangeOrder (V : Type) : Type := gmap string V -> list (string * V).

Definition validRange {V : Type} (order : RangeOrder V) : Prop :=
  forall results, order results ≡ₚ map_to_list results.

(** ** The result file and its buffered writer

    [os.Create] gives an error or an empty file.  A file is what has
    reached it so far and how its next [Write] calls end: [None] for a
    call that writes everything, [Some (n, err)] for a call that fails
    with [err] after [n] bytes; after the list every call succeeds. *)

Record OsFile := mkOsFile {
  fileBytes : string;
  fileFaults : list (option (nat * string))
}.

Inductive Creation :=
| CreateError (err : string)
| Created (faults : list (option (nat * string))).

(** [s[:n]] for any [n] (the whole of [s] when [n] exceeds its length). *)
Fixpoint sliceTo (n : nat) (s : string) : string :=
  match n, s with
  | S n', String c s' => String c (sliceTo n' s')
  | _, _ => EmptyString
  end.

(** The method [Write] of [os.File]. *)
Definition fileWrite (f : OsFile) (p : string) : (nat * option string) * OsFile :=
  match fileFaults f with
  | Some (n, err) :: later =>
      let n := Nat.min n (String.length p) in
      ((n, Some err), mkOsFile (fileBytes f ++ sliceTo n p) later)
  | None :: later => ((String.length p, None), mkOsFile (fileBytes f ++ p) later)
  | [] => ((String.length p, None), mkOsFile (fileBytes f ++ p) [])
  end.

(** [bufio.Writer] with the default buffer of 4096 bytes: the bytes
    buffered ([b.buf[0:b.n]]), the sticky error [b.err] and the file
    behind it. *)
Record Writer := mkWriter {
  wbuf : string;
  werr : option string;
  wfile : OsFile
}.

Definition defaultBufSize : nat := 4096.

(** [bufio.NewWriter(file)] *)
Definition NewWriter (file : OsFile) : Writer := mkWriter "" None file.

(** [b.Available()] *)
Definition Available (b : Writer) : nat := defaultBufSize - String.length (wbuf b).

(** [b.Flush()]: the error and the writer afterwards. *)
Definition Flush (b : Writer) : option string * Writer :=
  match werr b with
  | Some err => (Some err, b)
  | None =>
      if Nat.eqb (String.length (wbuf b)) 0 then (None, b)
      else
        let '((n, err), file) := fileWrite (wfile b) (wbuf b) in
        let err :=
          match err with
          | None => if Nat.ltb n (String.length (wbuf b)) then Some "short write" else None
          | Some e => Some e
          end in
        match err with
        | Some e => (Some e, mkWriter (sliceFrom n (wbuf b)) (Some e) file)
        | None => (None, mkWriter "" None file)
        end
  end.

(** The loop [for len(p) > b.Available() && b.err == nil] of
    [b.Write(p)], run for at most [rounds] rounds: the writer and what
    is left of [p]. *)
Fixpoint writeLoop (rounds : nat) (b : Writer) (p : string) : Writer * string :=
  match rounds with
  | O => (b, p)
  | S rounds' =>
      if Nat.ltb (Available b) (String.length p)
         && match werr b with None => true | Some _ => false end
      then
        if Nat.eqb (String.length (wbuf b)) 0 then
          let '((n, err), file) := fileWrite (wfile b) p in
          writeLoop rounds' (mkWriter (wbuf b) err file) (sliceFrom n p)
        else
          let n := Nat.min (Available b) (String.length p) in
          let (_, b') := Flush (mkWriter (wbuf b ++ sliceTo n p) (werr b) (wfile b)) in
          writeLoop rounds' b' (sliceFrom n p)
      else (b, p)
  end.

(** [b.Write(p)]: the error and the writer afterwards.  The loop ends
    within two rounds ([writeLoop_ends]). *)
Definition Write (b : Writer) (p : string) : option string * Writer :=
  let (b', p') := writeLoop 2 b p in
  match werr b' with
  | Some err => (Some err, b')
  | None =>
      let n := Nat.min (Available b') (String.length p') in
      (None, mkWriter (wbuf b' ++ sliceTo n p') None (wfile b'))
  end.

(** [fmt.Fprintf(writer, ...)] with the formatted [text]: one [Write]. *)
Definition Fprintf (writer : Writer) (text : string) : option string * Writer :=
  Write writer text.

(** The number of line feeds in a text. *)
Fixpoint lineFeeds (s : string) : nat :=
  match s with
  | EmptyString => 0
  | String c s' => (if Ascii.eqb c "010" then 1 else 0) + lineFeeds s'
  end.




(** The condition of the loop of [b.Write(p)]. *)
Definition writeMore (b : Writer) (p : string) : bool :=
  Nat.ltb (Available b) (String.length p)
  && match werr b with None => true | Some _ => false end.

(** The texts of a list one after the other. *)
Fixpoint joinAll (texts : list string) : string :=
  match texts with
  | [] => EmptyString
  | text :: rest => (text ++ joinAll rest)%string
  end.

(** ** src/main.go *)

Module MainGo.

(** The body of [getCNAMERecord] once [cmd.Run()] has returned. *)
Definition getCNAMERecordOf (subdomain : string) (run : CmdResult) : string * option string :=
  match RunErr run with
  | Some err =>
      if Contains (Stderr run) "status: NXDOMAIN" then ("NXDOMAIN", None)
      else ("", Some (digError subdomain err))
  | None =>
      let cname := TrimSpace (Stdout run) in
      if String.eqb cname "" then ("No CNAME record", None)
      else (cname, None)
  end.

(** How a caller reads the outcome off the returned pair: the program has
    no tag type, the two negative outcomes are the strings the function
    returns for them. *)
Definition outcomeTag (r : string * option string) : DnsOutcomeTag :=
  match r with
  | (_, Some _) => QueryError
  | (cname, None) =>
      if String.eqb cname "NXDOMAIN" then NxDomain
      else if String.eqb cname "No CNAME record" then NoCname
      else CnameFound
  end.

Section Scan.
Context {World : Type}.
Variable dig : Resolver World.

Definition getCNAMERecord (w : World) (subdomain : string) : (string * option string) * World :=
  let (run, w') := dig w subdomain in (getCNAMERecordOf subdomain run, w').

(** The [for _, subdomain := range subdomains] loop of
    [checkCNAMERecords], with the map built so far. *)
Fixpoint rangeSubdomains (subdomains : list string) (results : gmap string string) (w : World)
  : (option (gmap string string) * option string) * World :=
  match subdomains with
  | [] => ((Some results, None), w)
  | subdomain :: rest =>
      match getCNAMERecord w subdomain with
      | ((_, Some err), w') => ((None, Some err), w')
      | ((cname, None), w') => rangeSubdomains rest (<[subdomain := cname]> results) w'
      end
  end.

(** [checkCNAMERecords]: [None] in the first component is the [nil] map. *)
Definition checkCNAMERecords (subdomains : list string) (w : World)
  : (option (gmap string string) * option string) * World :=
  rangeSubdomains subdomains ∅ w.

End Scan.

(** The [for subdomain, cname := range results] loop of [main]. *)
Fixpoint rangePrint (entries : list (string * string)) (printed : list string) : list string :=
  match entries with
  | [] => printed
  | (subdomain, cname) :: rest =>
      rangePrint rest
        (printed ++ [("Subdomain: " ++ subdomain ++ ", CNAME: " ++ cname ++ String "010" "")%string])
  end.

Section Program.
Context {World : Type}.
Variable fs : FileSystem.
Variable dig : Resolver World.
Variable order : RangeOrder string.

(** [main], with [args] for [os.Args]. *)
Definition main (args : list string) (w : World) : Exit :=
  match args with
  | [] => Panicked
  | [program] => Fatal ("Usage: " ++ program ++ " <subdomains-file>")%string
  | _ :: filename :: _ =>
      match readLinesFromFile fs filename with
      | (_, Some err) => Fatal ("Failed to read subdomains from file: " ++ err)%string
      | (subdomains, None) =>
          match checkCNAMERecords dig subdomains w with
          | ((_, Some err), _) => Fatal ("Failed to check CNAME records: " ++ err)%string
          | ((Some results, None), _) => Finished (rangePrint (order results) [])
          | ((None, None), _) => Finished []
          end
      end
  end.

End Program.
End MainGo.

(** ** src/main.go, second program (from line 101 on) *)

Module FixedFileGo.

(** The body of [getCNAMERecord] once [cmd.Run()] has returned; only the
    standard output of the process is captured. *)
Definition getCNAMERecordOf (subdomain : string) (run : CmdResult) : string * option string :=
  match RunErr run with
  | Some err => ("", Some (digError subdomain err))
  | None =>
      let cname := TrimSpace (Stdout run) in
      if String.eqb cname "" then ("No CNAME record", None)
      else (cname, None)
  end.

(** The [for subdomain, cname := range results] loop of [main]. *)
Fixpoint rangePrint (entries : list (string * string)) (printed : list string) : list string :=
  match entries with
  | [] => printed
  | (subdomain, cname) :: rest =>
      rangePrint rest
        (printed ++ [("Subdomain: " ++ subdomain ++ ", CNAME: " ++ cname ++ String "010" "")%string])
  end.

Section Program.
Context {World : Type}.
Variable fs : FileSystem.
Variable dig : Resolver World.
Variable order : RangeOrder string.

Definition getCNAMERecord (w : World) (subdomain : string) : (string * option string) * World :=
  let (run, w') := dig w subdomain in (getCNAMERecordOf subdomain run, w').

Fixpoint rangeSubdomains (subdomains : list string) (results : gmap string string) (w : World)
  : (option (gmap string string) * option string) * World :=
  match subdomains with
  | [] => ((Some results, None), w)
  | subdomain :: rest =>
      match getCNAMERecord w subdomain with
      | ((_, Some err), w') => ((None, Some err), w')
      | ((cname, None), w') => rangeSubdomains rest (<[subdomain := cname]> results) w'
      end
  end.

Definition checkCNAMERecords (subdomains : list string) (w : World)
  : (option (gmap string string) * option string) * World :=
  rangeSubdomains subdomains ∅ w.

(** [main]: the program takes no argument and reads [subdomains.txt]. *)
Definition main (w : World) : Exit :=
  match readLinesFromFile fs "subdomains.txt" with
  | (_, Some err) => Fatal ("Failed to read subdomains from file: " ++ err)%string
  | (subdomains, None) =>
      match checkCNAMERecords subdomains w with
      | ((_, Some err), _) => Fatal ("Failed to check CNAME records: " ++ err)%string
      | ((Some results, None), _) => Finished (rangePrint (order results) [])
      | ((None, None), _) => Finished []
      end
  end.

End Program.
End FixedFileGo.

(** ** src/unnamed/part_002 *)

Module StatusGo.

Record RecordT := mkRecord {
  CNAME : string;
  Status : string;
  Detail : string
}.

(** [Record{}] *)
Definition zeroRecord : RecordT := mkRecord "" "" "".

(** The body of [getCNAMERecord] once [cmd.Run()] has returned. *)
Definition getCNAMERecordOf (subdomain : string) (run : CmdResult) : RecordT * option string :=
  match RunErr run with
  | Some err => (zeroRecord, Some (digError subdomain err))
  | None =>
      let output := TrimSpace (Stdout run) in
      let stderrOutput := Stderr run in
      if Contains stderrOutput "status: NXDOMAIN" then
        (mkRecord "" "NXDOMAIN" "Status: NXDOMAIN", None)
      else if String.eqb output "" then
        (mkRecord "" "NO CNAME" "Status: noerror", None)
      else
        (mkRecord output "CNAME FOUND" "Status: noerror", None)
  end.

(** The outcome tag is the [Status] field, or the error. *)
Definition outcomeTag (r : RecordT * option string) : option DnsOutcomeTag :=
  match r with
  | (_, Some _) => Some QueryError
  | (record, None) =>
      if String.eqb (Status record) "NXDOMAIN" then Some NxDomain
      else if String.eqb (Status record) "NO CNAME" then Some NoCname
      else if String.eqb (Status record) "CNAME FOUND" then Some CnameFound
      else None
  end.

Section Scan.
Context {World : Type}.
Variable dig : Resolver World.

Definition getCNAMERecord (w : World) (subdomain : string) : (RecordT * option string) * World :=
  let (run, w') := dig w subdomain in (getCNAMERecordOf subdomain run, w').

Fixpoint rangeSubdomains (subdomains : list string) (results : gmap string RecordT) (w : World)
  : (option (gmap string RecordT) * option string) * World :=
  match subdomains with
  | [] => ((Some results, None), w)
  | subdomain :: rest =>
      match getCNAMERecord w subdomain with
      | ((_, Some err), w') => ((None, Some err), w')
      | ((record, None), w') => rangeSubdomains rest (<[subdomain := record]> results) w'
      end
  end.

Definition checkCNAMERecords (subdomains : list string) (w : World)
  : (option (gmap string RecordT) * option string) * World :=
  rangeSubdomains subdomains ∅ w.

End Scan.

(** The [for subdomain, record := range results] loop of [main]. *)
Fixpoint rangePrint (entries : list (string * RecordT)) (printed : list string) : list string :=
  match entries with
  | [] => printed
  | (subdomain, record) :: rest =>
      rangePrint rest
        (printed ++ [("Subdomain: " ++ subdomain ++ ", CNAME: " ++ CNAME record
                       ++ ", STATUS: " ++ Status record ++ ", Detail: " ++ Detail record
                       ++ String "010" "")%string])
  end.

Section Program.
Context {World : Type}.
Variable fs : FileSystem.
Variable dig : Resolver World.
Variable order : RangeOrder RecordT.

Definition main (args : list string) (w : World) : Exit :=
  match args with
  | [] => Panicked
  | [program] => Fatal ("Usage: " ++ program ++ " <subdomains-file>")%string
  | _ :: filename :: _ =>
      match readLinesFromFile fs filename with
      | (_, Some err) => Fatal ("Failed to read subdomains from file: " ++ err)%string
      | (subdomains, None) =>
          match checkCNAMERecords dig subdomains w with
          | ((_, Some err), _) => Fatal ("Failed to check CNAME records: " ++ err)%string
          | ((Some results, None), _) => Finished (rangePrint (order results) [])
          | ((None, None), _) => Finished []
          end
      end
  end.

End Program.
End StatusGo.

(** ** src/unnamed/part_000 *)

Module PatternGo.

Record RecordT := mkRecord {
  CNAME : string;
  IsVulnerable : bool
}.

(** The body of [getCNAMERecord] once [cmd.Run()] has returned; only the
    standard output of the process is captured. *)
Definition getCNAMERecordOf (subdomain : string) (run : CmdResult) : string * option string :=
  match RunErr run with
  | Some err => ("", Some (digError subdomain err))
  | None =>
      let cname := TrimSpace (Stdout run) in
      if String.eqb cname "" then ("No CNAME record", None)
      else (cname, None)
  end.

(** The [for _, pattern := range patterns] loop of [matchesAnyPattern]. *)
Fixpoint rangePatterns (cname : string) (patterns : list string) : bool :=
  match patterns with
  | [] => false
  | pattern :: rest =>
      if Contains cname pattern then true else rangePatterns cname rest
  end.

Definition matchesAnyPattern (cname : string) (patterns : list string) : bool :=
  if String.eqb cname "No CNAME record" then false
  else rangePatterns cname patterns.

Section Scan.
Context {World : Type}.
Variable dig : Resolver World.

Definition getCNAMERecord (w : World) (subdomain : string) : (string * option string) * World :=
  let (run, w') := dig w subdomain in (getCNAMERecordOf subdomain run, w').

Fixpoint rangeSubdomains (subdomains patterns : list string) (results : gmap string RecordT) (w : World)
  : (option (gmap string RecordT) * option string) * World :=
  match subdomains with
  | [] => ((Some results, None), w)
  | subdomain :: rest =>
      match getCNAMERecord w subdomain with
      | ((_, Some err), w') => ((None, Some err), w')
      | ((cname, None), w') =>
          let isVulnerable := matchesAnyPattern cname patterns in
          rangeSubdomains rest patterns
            (<[subdomain := mkRecord cname isVulnerable]> results) w'
      end
  end.

Definition checkCNAMERecords (subdomains patterns : list string) (w : World)
  : (option (gmap string RecordT) * option string) * World :=
  rangeSubdomains subdomains patterns ∅ w.

End Scan.

(** The [for subdomain, record := range results] loop of [main]. *)
Fixpoint rangePrint (entries : list (string * RecordT)) (printed : list string) : list string :=
  match entries with
  | [] => printed
  | (subdomain, record) :: rest =>
      let status := if IsVulnerable record then "Yes" else "No" in
      rangePrint rest
        (printed ++ [("Subdomain: " ++ subdomain ++ ", CNAME: " ++ CNAME record
                       ++ ", Vulnerable: " ++ status ++ String "010" "")%string])
  end.

Section Program.
Context {World : Type}.
Variable fs : FileSystem.
Variable dig : Resolver World.
Variable order : RangeOrder RecordT.

Definition main (args : list string) (w : World) : Exit :=
  match args with
  | [] => Panicked
  | [program] | [program; _] =>
      Fatal ("Usage: " ++ program ++ " <subdomains-file> <patterns-file>")%string
  | _ :: subdomainsFile :: patternsFile :: _ =>
      match readLinesFromFile fs subdomainsFile with
      | (_, Some err) => Fatal ("Failed to read subdomains from file: " ++ err)%string
      | (subdomains, None) =>
          match readLinesFromFile fs patternsFile with
          | (_, Some err) => Fatal ("Failed to read patterns from file: " ++ err)%string
          | (patterns, None) =>
              match checkCNAMERecords dig subdomains patterns w with
              | ((_, Some err), _) => Fatal ("Failed to check CNAME records: " ++ err)%string
              | ((Some results, None), _) => Finished (rangePrint (order results) [])
              | ((None, None), _) => Finished []
              end
          end
      end
  end.

End Program.
End PatternGo.

(** ** src/unnamed/part_001 *)

Module WildcardGo.

Record RecordT := mkRecord {
  CNAME : string;
  IsVulnerable : bool
}.

(** The body of [getCNAMERecord] once [cmd.Run()] has returned. *)
Definition getCNAMERecordOf (subdomain : string) (run : CmdResult) : string * option string :=
  match RunErr run with
  | Some err => ("", Some (digError subdomain err))
  | None =>
      let cname := TrimSpace (Stdout run) in
      if String.eqb cname "" then ("No CNAME record", None)
      else (cname, None)
  end.

Definition extractWildcardDomain (cname : string) : string :=
  if String.eqb cname "No CNAME record" then ""
  else
    let cname := TrimSpace cname in
    if HasPrefix cname "*." then sliceFrom 2 cname else cname.

(** The [for _, pattern := range patterns] loop of [matchesAnyPattern]. *)
Fixpoint rangePatterns (domain : string) (patterns : list string) : bool :=
  match patterns with
  | [] => false
  | pattern :: rest =>
      if Contains domain pattern then true else rangePatterns domain rest
  end.

Definition matchesAnyPattern (domain : string) (patterns : list string) : bool :=
  if String.eqb domain "" then false
  else rangePatterns domain patterns.

(** The state of a stored record: this program keeps no tag, a record
    whose [CNAME] is the no-record text stands for a name without CNAME,
    every other record for a CNAME that was found.  A failed lookup
    leaves no record. *)
Definition recordState (record : RecordT) : DnsOutcomeTag :=
  if String.eqb (CNAME record) "No CNAME record" then NoCname else CnameFound.

Section Scan.
Context {World : Type}.
Variable dig : Resolver World.

Definition getCNAMERecord (w : World) (subdomain : string) : (string * option string) * World :=
  let (run, w') := dig w subdomain in (getCNAMERecordOf subdomain run, w').

Fixpoint rangeSubdomains (subdomains patterns : list string) (results : gmap string RecordT) (w : World)
  : (option (gmap string RecordT) * option string) * World :=
  match subdomains with
  | [] => ((Some results, None), w)
  | subdomain :: rest =>
      match getCNAMERecord w subdomain with
      | ((_, Some err), w') => ((None, Some err), w')
      | ((cname, None), w') =>
          let wildcardDomain := extractWildcardDomain cname in
          let isVulnerable := matchesAnyPattern wildcardDomain patterns in
          rangeSubdomains rest patterns
            (<[subdomain := mkRecord cname isVulnerable]> results) w'
      end
  end.

Definition checkCNAMERecords (subdomains patterns : list string) (w : World)
  : (option (gmap string RecordT) * option string) * World :=
  rangeSubdomains subdomains patterns ∅ w.

End Scan.

(** [fmt.Fprintf(writer, "Subdomain: %s, CNAME: %s, Vulnerable: Yes\n",
    subdomain, record.CNAME)] *)
Definition reportLine (subdomain : string) (record : RecordT) : string :=
  "Subdomain: " ++ subdomain ++ ", CNAME: " ++ CNAME record
    ++ ", Vulnerable: Yes" ++ String "010" "".

(** The [for subdomain, record := range results] loop of [main]:
    [entries] are the map's entries in the order the iteration visits
    them.  The loop ends with the error of the first [Fprintf] that
    fails ([log.Fatalf] follows), or with [None] after the last entry. *)
Fixpoint rangeResults (entries : list (string * RecordT)) (writer : Writer)
  : option string * Writer :=
  match entries with
  | [] => (None, writer)
  | (subdomain, record) :: rest =>
      if IsVulnerable record then
        match Fprintf writer (reportLine subdomain record) with
        | (Some err, writer') => (Some err, writer')
        | (None, writer') => rangeResults rest writer'
        end
      else rangeResults rest writer
  end.

(** Go leaves the iteration order of a map unspecified: [order] is any
    function that lists every entry of a map once. *)
Definition MapOrder : Type := gmap string RecordT -> list (string * RecordT).

Definition validOrder (order : MapOrder) : Prop :=
  forall results, order results ≡ₚ map_to_list results.

Section Program.
Context {World : Type}.
Variable fs : FileSystem.
(** [os.Create(resultFile)] *)
Variable create : string -> Creation.
Variable dig : Resolver World.
Variable order : MapOrder.

(** [main]: how the process ends and, when the result file was created,
    the bytes that have reached it.  Nothing is printed.  The error of
    [writer.Flush()] is discarded, as in the source. *)
Definition main (args : list string) (w : World) : Exit * option string :=
  match args with
  | [] => (Panicked, None)
  | [program] | [program; _] | [program; _; _] =>
      (Fatal ("Usage: " ++ program ++ " <subdomains-file> <patterns-file> <result-file>")%string,
       None)
  | _ :: subdomainsFile :: patternsFile :: resultFile :: _ =>
      match readLinesFromFile fs subdomainsFile with
      | (_, Some err) => (Fatal ("Failed to read subdomains from file: " ++ err)%string, None)
      | (subdomains, None) =>
          match readLinesFromFile fs patternsFile with
          | (_, Some err) => (Fatal ("Failed to read patterns from file: " ++ err)%string, None)
          | (patterns, None) =>
              match checkCNAMERecords dig subdomains patterns w with
              | ((_, Some err), _) =>
                  (Fatal ("Failed to check CNAME records: " ++ err)%string, None)
              | ((results, None), _) =>
                  match create resultFile with
                  | CreateError err =>
                      (Fatal ("Failed to create result file: " ++ err)%string, None)
                  | Created faults =>
                      let writer := NewWriter (mkOsFile "" faults) in
                      let entries :=
                        match results with
                        | Some results => order results
                        | None => []
                        end in
                      match rangeResults entries writer with
                      | (Some err, writer') =>
                          (Fatal ("Failed to write to result file: " ++ err)%string,
                           Some (fileBytes (wfile writer')))
                      | (None, writer') =>
                          let (_, writer'') := Flush writer' in
                          (Finished [], Some (fileBytes (wfile writer'')))
                      end
                  end
              end
          end
      end
  end.

End Program.
End WildcardGo.

(** ** The common shape of the scan loops

    The three [checkCNAMERecords] loops that store a value per subdomain
    differ only in the value they store for an answer; [scanLoop] is that
    loop with the lookup and the stored value left open. *)

Section ScanLoop.
Context {World V : Type}.
Variable query : World -> string -> (string * option string) * World.
Variable store : string -> V.

Fixpoint scanLoop (subdomains : list string) (results : gmap string V) (w : World)
  : (option (gmap string V) * option string) * World :=
  match subdomains with
  | [] => ((Some results, None), w)
  | subdomain :: rest =>
      match query w subdomain with
      | ((_, Some err), w') => ((None, Some err), w')
      | ((cname, None), w') => scanLoop rest (<[subdomain := store cname]> results) w'
      end
  end.

End ScanLoop.

(** The same loop for a lookup that returns any kind of answer (a
    record in [src/unnamed/part_002]). *)
Section ScanLoopG.
Context {World A V : Type}.
Variable query : World -> string -> (A * option string) * World.
Variable store : A -> V.

Fixpoint scanLoopG (subdomains : list string) (results : gmap string V) (w : World)
  : (option (gmap string V) * option string) * World :=
  match subdomains with
  | [] => ((Some results, None), w)
  | subdomain :: rest =>
      match query w subdomain with
      | ((_, Some err), w') => ((None, Some err), w')
      | ((answer, None), w') => scanLoopG rest (<[subdomain := store answer]> results) w'
      end
  end.

End ScanLoopG.

(** Two statements about a scan function [check] (a [checkCNAMERecords]
    with its resolver and fingerprints fixed).  [keysAreInput]: the keys
    of a returned map are exactly the names of the input list.
    [scansCompose]: the scan of two lists joined is the scan of the
    first followed, from the state the first left, by the scan of the
    second, the entries of the second laid over those of the first; an
    error of either is the error of the whole. *)
Definition keysAreInput {World R : Type}
    (check : list string -> World -> (option (gmap string R) * option string) * World) : Prop :=
  forall subdomains w results wEnd,
    check subdomains w = ((Some results, None), wEnd) ->
    forall name, is_Some (results !! name) <-> In name subdomains.

Definition scansCompose {World R : Type}
    (check : list string -> World -> (option (gmap string R) * option string) * World) : Prop :=
  forall l1 l2 w,
    check (l1 ++ l2) w =
    match check l1 w with
    | ((Some m1, None), w1) =>
        match check l2 w1 with
        | ((Some m2, None), w2) => ((Some (m2 ∪ m1), None), w2)
        | ((_, err), w2) => ((None, err), w2)
        end
    | ((_, err), w1) => ((None, err), w1)
    end.

(** [orderIrrelevant]: two successful scans of lists that hold the same
    names, in whatever order and however often, from whatever states,
    return the same map. *)
Definition orderIrrelevant {World R : Type}
    (check : list string -> World -> (option (gmap string R) * option string) * World) : Prop :=
  forall l l' w w' results results' wEnd wEnd',
    (forall name, In name l <-> In name l') ->
    check l w = ((Some results, None), wEnd) ->
    check l' w' = ((Some results', None), wEnd') ->
    results = results'.

(** A resolver that also keeps the list of the names it was asked for,
    oldest first. *)
Definition logged {World : Type} (dig : Resolver World) : Resolver (World * list string) :=
  fun state subdomain =>
    let (run, w') := dig (fst state) subdomain in
    (run, (w', snd state ++ [subdomain])).

(** [sub] is a literal substring of [s]: some bytes, then [sub] byte for
    byte, then some bytes. *)
Definition IsSubstring (sub s : string) : Prop :=
  exists l r : string, s = (l ++ sub ++ r)%string.


(** ** Resolvers used in the examples *)

Definition lineFeed : string := String "010" "".

Definition answered (target : string) : CmdResult :=
  mkCmdResult (target ++ lineFeed) "" None.

Definition exitStatus9 : CmdResult :=
  mkCmdResult "" ";; communications error: timed out" (Some "exit status 9").

(** A resolver that answers every lookup with the same run. *)
Definition oneAnswer (run : CmdResult) : Resolver unit := fun w _ => (run, w).

(** A zone that changes between two lookups: the [n]-th query (counted
    by the state) of [shop.example.com] is answered with an S3 bucket
    first and with the company's own host afterwards; [down.example.com]
    cannot be resolved; every other name has no CNAME. *)
Definition movingZone : Resolver nat :=
  fun n subdomain =>
    (if String.eqb subdomain "shop.example.com" then
       if Nat.eqb n 0 then answered "shop.s3.amazonaws.com."
       else answered "www.example.com."
     else if String.eqb subdomain "down.example.com" then exitStatus9
     else mkCmdResult "" "" None,
     S n).

(** A resolver whose state changes with every lookup (it logs the names
    asked for) while its answers depend on the name only. *)
Definition loggingZone : Resolver (list string) :=
  fun asked subdomain =>
    (if String.eqb subdomain "shop.example.com" then answered "shop.s3.amazonaws.com."
     else if String.eqb subdomain "down.example.com" then exitStatus9
     else mkCmdResult "" "" None,
     subdomain :: asked).

(** Files: a list of subdomains with blank lines and white space, a
    list of fingerprints, a file that fails while it is read and names
    that cannot be opened. *)
Definition demoFiles : FileSystem :=
  fun name =>
    if String.eqb name "subdomains.txt" then
      Opened ["shop.example.com"; "   "; " www.example.com  "; ""; "shop.example.com"] None
    else if String.eqb name "patterns.txt" then
      Opened ["amazonaws.com"; ""; " herokuapp.com"] None
    else if String.eqb name "broken.txt" then
      Opened ["a.example.com"] (Some "read broken.txt: input/output error")
    else OpenError ("open " ++ name ++ ": no such file or directory").

(** A zone in which [dig] prints two targets for [shop.example.com],
    one per line, and nothing for any other name. *)
Definition twoLineZone : Resolver unit :=
  fun w subdomain =>
    (if String.eqb subdomain "shop.example.com" then
       mkCmdResult ("one.s3.amazonaws.com." ++ lineFeed ++ "two.s3.amazonaws.com." ++ lineFeed)
         "" None
     else mkCmdResult "" "" None,
     w).

(** A zone in which every name has a CNAME of more than 4096 bytes, the
    size of the buffer of the writer: [count] letters before
    [.s3.amazonaws.com.]. *)
Fixpoint letters (count : nat) : string :=
  match count with
  | O => EmptyString
  | S count' => String "a" (letters count')
  end.

Definition longZone : Resolver unit :=
  fun w _ => (answered (letters 4096 ++ ".s3.amazonaws.com."), w).

(** A subdomains file with two names and a patterns file with one
    fingerprint. *)
Definition pairFiles : FileSystem :=
  fun name =>
    if String.eqb name "pair.txt" then Opened ["shop.example.com"; "www.example.com"] None
    else if String.eqb name "patterns.txt" then Opened ["amazonaws.com"] None
    else OpenError ("open " ++ name ++ ": no such file or directory").

(** A disk on which every file can be created and written, one on which
    the first write to a new file fails at once, and one on which no
    file can be created. *)
Definition goodDisk : string -> Creation := fun _ => Created [].

Definition fullDisk : string -> Creation :=
  fun _ => Created [Some (0, "write report.txt: no space left on device")].

Definition readOnlyDisk : string -> Creation :=
  fun name => CreateError ("open " ++ name ++ ": read-only file system").

(** Two iteration orders of a map: the one of [map_to_list] and its
    reverse. *)
Definition forwardOrder : WildcardGo.MapOrder := fun results => map_to_list results.

Definition backwardOrder : WildcardGo.MapOrder := fun results => List.rev (map_to_list results).

(** Single runs of [dig]. *)

(** The process exits with an error and reports a name that does not
    exist on its standard error. *)
Definition failedWithNxdomain : CmdResult :=
  mkCmdResult "" ";; ->>HEADER<<- opcode: QUERY, status: NXDOMAIN, id: 4711"
    (Some "exit status 1").

(** The process succeeds and reports the same on its standard error. *)
Definition succeededWithNxdomain : CmdResult :=
  mkCmdResult "" ";; ->>HEADER<<- opcode: QUERY, status: NXDOMAIN, id: 4711" None.

(** The process succeeds, prints a target and still has the marker on
    its standard error. *)
Definition answeredWithNxdomain : CmdResult :=
  mkCmdResult ("target.example.net." ++ lineFeed)
    ";; ->>HEADER<<- opcode: QUERY, status: NXDOMAIN, id: 4711" None.

(** The process succeeds and the answer it prints is the text NXDOMAIN. *)
Definition answeredNxdomainText : CmdResult :=
  mkCmdResult ("NXDOMAIN" ++ lineFeed) "" None.

(** * Properties *)

(** ** Strings *)

Lemma HasPrefix_app (p r : string) : HasPrefix (p ++ r) p = true.
Proof.
  induction p as [|c p IH]; simpl; [reflexivity|].
  rewrite Ascii.eqb_refl. exact IH.
Qed.

Lemma HasPrefix_inv (s p : string) :
  HasPrefix s p = true -> exists r, s = (p ++ r)%string.
Proof.
  revert s; induction p as [|c p IH]; intros s H; simpl in *.
  - exists s; reflexivity.
  - destruct s as [|d s]; [discriminate|].
    destruct (Ascii.eqb_spec d c) as [->|]; [|discriminate].
    destruct (IH _ H) as [r ->]. exists r; reflexivity.
Qed.

Lemma HasPrefix_spec (s p : string) :
  HasPrefix s p = true <-> exists r, s = (p ++ r)%string.
Proof.
  split; [apply HasPrefix_inv|]. intros [r ->]. apply HasPrefix_app.
Qed.

Lemma Contains_spec (s sub : string) :
  Contains s sub = true <-> IsSubstring sub s.
Proof.
  unfold IsSubstring. induction s as [|c s IH]; simpl.
  - destruct (HasPrefix "" sub) eqn:E.
    + split; [|reflexivity]. intros _.
      apply HasPrefix_inv in E as [r E]. exists "", r. exact E.
    + split; [discriminate|]. intros (l & r & H).
      destruct l; [|discriminate].
      change ("" = sub ++ r)%string in H.
      pose proof (HasPrefix_app sub r) as E'. rewrite <- H in E'. congruence.
  - destruct (HasPrefix (String c s) sub) eqn:E.
    + split; [|reflexivity]. intros _.
      apply HasPrefix_inv in E as [r E]. exists "", r. exact E.
    + rewrite IH. split.
      * intros (l & r & ->). exists (String c l), r. reflexivity.
      * intros (l & r & H). destruct l as [|d l].
        -- change (String c s = sub ++ r)%string in H.
           pose proof (HasPrefix_app sub r) as E'. rewrite <- H in E'. congruence.
        -- change (String c s = String d (l ++ sub ++ r))%string in H.
           injection H as _ ->. exists l, r. reflexivity.
Qed.

Lemma sliceFrom_2_app (rest : string) : sliceFrom 2 ("*." ++ rest) = rest.
Proof. reflexivity. Qed.

Lemma append_dot_inv (rest body : string) :
  ("*." ++ rest)%string = (body ++ ".")%string -> body <> "*" ->
  exists body', rest = (body' ++ ".")%string.
Proof.
  intros H Hb.
  destruct body as [|c [|d body]].
  - discriminate H.
  - change (String "*" (String "." rest) = String c ".") in H.
    injection H as <- <-. congruence.
  - change (String "*" (String "." rest) = String c (String d (body ++ "."))) in H.
    injection H as _ _ ->. exists body. reflexivity.
Qed.

(** ** Trimming *)

Lemma append_nil_r (s : string) : (s ++ "")%string = s.
Proof. induction s as [|c s IH]; [reflexivity|]. change (String c (s ++ "") = String c s). congruence. Qed.

Lemma append_assoc (s t u : string) : ((s ++ t) ++ u)%string = (s ++ (t ++ u))%string.
Proof.
  induction s as [|c s IH]; [reflexivity|].
  change (String c ((s ++ t) ++ u) = String c (s ++ (t ++ u))). congruence.
Qed.

Lemma length_append (s t : string) :
  String.length (s ++ t) = String.length s + String.length t.
Proof.
  induction s as [|c s IH]; [reflexivity|].
  change (S (String.length (s ++ t)) = S (String.length s + String.length t)). congruence.
Qed.

Lemma rev_append (s t : string) : rev (s ++ t) = (rev t ++ rev s)%string.
Proof.
  induction s as [|c s IH].
  - change (rev t = rev t ++ "")%string. symmetry. apply append_nil_r.
  - change (rev (s ++ t) ++ String c "" = rev t ++ (rev s ++ String c ""))%string.
    rewrite IH. apply append_assoc.
Qed.

Lemma rev_involutive (s : string) : rev (rev s) = s.
Proof.
  induction s as [|c s IH]; [reflexivity|].
  change (rev (rev s ++ String c "") = String c s).
  rewrite rev_append, IH. reflexivity.
Qed.

Section DropRunesFacts.
Variable is1 : ascii -> bool.
Variable is2 : ascii -> ascii -> bool.
Variable is3 : ascii -> ascii -> ascii -> bool.

Lemma dropRunes_eq (s : string) :
  dropRunes is1 is2 is3 s =
  match s with
  | EmptyString => EmptyString
  | String b1 s1 =>
      if is1 b1 then dropRunes is1 is2 is3 s1
      else match s1 with
           | String b2 s2 =>
               if is2 b1 b2 then dropRunes is1 is2 is3 s2
               else match s2 with
                    | String b3 s3 =>
                        if is3 b1 b2 b3 then dropRunes is1 is2 is3 s3 else s
                    | EmptyString => s
                    end
           | EmptyString => s
           end
  end.
Proof. destruct s; reflexivity. Qed.

(** What the scan returns is what is left of its argument after a
    dropped front part, and the scan would drop nothing more from it. *)
Lemma dropRunes_spec (s : string) :
  (exists front, s = (front ++ dropRunes is1 is2 is3 s)%string) /\
  dropRunes is1 is2 is3 (dropRunes is1 is2 is3 s) = dropRunes is1 is2 is3 s.
Proof.
  remember (String.length s) as n eqn:Hn. revert s Hn.
  induction n as [n IH] using lt_wf_ind. intros s Hn.
  destruct s as [|b1 s1]; [split; [exists ""|]; reflexivity|].
  simpl in Hn. rewrite (dropRunes_eq (String b1 s1)).
  destruct (is1 b1) eqn:E1.
  { destruct (IH (String.length s1) ltac:(lia) s1 eq_refl) as [[front Hf] Hi].
    split; [|exact Hi]. exists (String b1 front).
    change (String b1 s1 = String b1 (front ++ dropRunes is1 is2 is3 s1)). congruence. }
  destruct s1 as [|b2 s2].
  { split; [exists ""; reflexivity|]. simpl. rewrite E1. reflexivity. }
  simpl in Hn. destruct (is2 b1 b2) eqn:E2.
  { destruct (IH (String.length s2) ltac:(lia) s2 eq_refl) as [[front Hf] Hi].
    split; [|exact Hi]. exists (String b1 (String b2 front)).
    change (String b1 (String b2 s2)
            = String b1 (String b2 (front ++ dropRunes is1 is2 is3 s2))). congruence. }
  destruct s2 as [|b3 s3].
  { split; [exists ""; reflexivity|]. simpl. rewrite E1, E2. reflexivity. }
  simpl in Hn. destruct (is3 b1 b2 b3) eqn:E3.
  { destruct (IH (String.length s3) ltac:(lia) s3 eq_refl) as [[front Hf] Hi].
    split; [|exact Hi]. exists (String b1 (String b2 (String b3 front))).
    change (String b1 (String b2 (String b3 s3))
            = String b1 (String b2 (String b3 (front ++ dropRunes is1 is2 is3 s3)))).
    congruence. }
  split; [exists ""; reflexivity|]. simpl. rewrite E1, E2, E3. reflexivity.
Qed.

Lemma dropRunes_length (s : string) :
  String.length (dropRunes is1 is2 is3 s) <= String.length s.
Proof.
  destruct (dropRunes_spec s) as [[front Hf] _].
  rewrite Hf at 2. rewrite length_append. lia.
Qed.

(** A string from which the scan drops nothing has no front part from
    which it drops something. *)
Lemma dropRunes_front (front rest : string) :
  dropRunes is1 is2 is3 (front ++ rest) = (front ++ rest)%string ->
  dropRunes is1 is2 is3 front = front.
Proof.
  intros H.
  assert (forall t u : string, dropRunes is1 is2 is3 t = u ->
            String.length u <= String.length t) as Hlen
    by (intros t u <-; apply dropRunes_length).
  destruct front as [|b1 [|b2 [|b3 f]]]; [reflexivity| | |].
  - change (dropRunes is1 is2 is3 (String b1 rest) = String b1 rest) in H.
    rewrite dropRunes_eq in H. rewrite dropRunes_eq.
    destruct (is1 b1); [|reflexivity].
    apply Hlen in H. simpl in H. lia.
  - change (dropRunes is1 is2 is3 (String b1 (String b2 rest)) = String b1 (String b2 rest)) in H.
    rewrite dropRunes_eq in H. rewrite dropRunes_eq.
    destruct (is1 b1); [apply Hlen in H; simpl in H; lia|].
    destruct (is2 b1 b2); [|reflexivity]. apply Hlen in H. simpl in H. lia.
  - change (dropRunes is1 is2 is3 (String b1 (String b2 (String b3 (f ++ rest))))
            = String b1 (String b2 (String b3 (f ++ rest)))) in H.
    rewrite dropRunes_eq in H. rewrite dropRunes_eq.
    destruct (is1 b1); [apply Hlen in H; simpl in H; lia|].
    destruct (is2 b1 b2); [apply Hlen in H; simpl in H; lia|].
    destruct (is3 b1 b2 b3); [|reflexivity].
    apply Hlen in H. simpl in H. rewrite length_append in H. lia.
Qed.

End DropRunesFacts.

(** [TrimSpace] leaves nothing to trim. *)
Lemma TrimSpace_idempotent (s : string) : TrimSpace (TrimSpace s) = TrimSpace s.
Proof.
  unfold TrimSpace, trimRightSpace, trimLeftSpace, trimLeftSpaceRev.
  set (dl := dropRunes asciiSpace space2 space3).
  set (dr := dropRunes asciiSpace (fun b1 b2 => space2 b2 b1)
               (fun b1 b2 b3 => space3 b3 b2 b1)).
  set (t := dl s).
  assert (dl (rev (dr (rev t))) = rev (dr (rev t))) as Hleft.
  { destruct (dropRunes_spec asciiSpace (fun b1 b2 => space2 b2 b1)
                (fun b1 b2 b3 => space3 b3 b2 b1) (rev t)) as [[front Hf] _].
    fold dr in Hf.
    apply (dropRunes_front asciiSpace space2 space3 _ (rev front)).
    rewrite <- rev_append, <- Hf, rev_involutive.
    apply (dropRunes_spec asciiSpace space2 space3 s). }
  rewrite Hleft, rev_involutive. f_equal.
  apply (dropRunes_spec asciiSpace (fun b1 b2 => space2 b2 b1)
           (fun b1 b2 b3 => space3 b3 b2 b1) (rev t)).
Qed.

(** ** The fingerprint matchers *)

Lemma WildcardGo_rangePatterns_existsb (domain : string) (patterns : list string) :
  WildcardGo.rangePatterns domain patterns = existsb (Contains domain) patterns.
Proof.
  induction patterns as [|p ps IH]; simpl; [reflexivity|].
  rewrite IH. destruct (Contains domain p); reflexivity.
Qed.

Lemma PatternGo_rangePatterns_existsb (cname : string) (patterns : list string) :
  PatternGo.rangePatterns cname patterns = existsb (Contains cname) patterns.
Proof.
  induction patterns as [|p ps IH]; simpl; [reflexivity|].
  rewrite IH. destruct (Contains cname p); reflexivity.
Qed.

Lemma existsb_Contains_spec (domain : string) (patterns : list string) :
  existsb (Contains domain) patterns = true <->
  exists pattern, In pattern patterns /\ IsSubstring pattern domain.
Proof.
  rewrite existsb_exists. split; intros (p & Hin & Hp); exists p; split; trivial;
    apply Contains_spec; exact Hp.
Qed.

Lemma existsb_Permutation {A} (f : A -> bool) (l l' : list A) :
  Permutation l l' -> existsb f l = existsb f l'.
Proof.
  induction 1 as [|x l l' _ IH|x y l|l l' l'' _ IH1 _ IH2]; simpl.
  - reflexivity.
  - rewrite IH. reflexivity.
  - destruct (f x), (f y); reflexivity.
  - rewrite IH1. exact IH2.
Qed.

Lemma WildcardGo_matches_spec (domain : string) (patterns : list string) :
  domain <> "" ->
  (WildcardGo.matchesAnyPattern domain patterns = true <->
   exists pattern, In pattern patterns /\ IsSubstring pattern domain).
Proof.
  intros Hne. unfold WildcardGo.matchesAnyPattern.
  destruct (String.eqb_spec domain "") as [E|_]; [contradiction|].
  rewrite WildcardGo_rangePatterns_existsb. apply existsb_Contains_spec.
Qed.

Lemma WildcardGo_matches_empty (patterns : list string) :
  WildcardGo.matchesAnyPattern "" patterns = false.
Proof. reflexivity. Qed.

Lemma WildcardGo_matches_Permutation (domain : string) (patterns patterns' : list string) :
  Permutation patterns patterns' ->
  WildcardGo.matchesAnyPattern domain patterns = WildcardGo.matchesAnyPattern domain patterns'.
Proof.
  intros HP. unfold WildcardGo.matchesAnyPattern.
  destruct (String.eqb domain ""); [reflexivity|].
  rewrite !WildcardGo_rangePatterns_existsb. apply existsb_Permutation, HP.
Qed.

Lemma PatternGo_matches_spec (cname : string) (patterns : list string) :
  cname <> "No CNAME record" ->
  (PatternGo.matchesAnyPattern cname patterns = true <->
   exists pattern, In pattern patterns /\ IsSubstring pattern cname).
Proof.
  intros Hne. unfold PatternGo.matchesAnyPattern.
  destruct (String.eqb_spec cname "No CNAME record") as [E|_]; [contradiction|].
  rewrite PatternGo_rangePatterns_existsb. apply existsb_Contains_spec.
Qed.

Lemma PatternGo_matches_sentinel (patterns : list string) :
  PatternGo.matchesAnyPattern "No CNAME record" patterns = false.
Proof. reflexivity. Qed.

Lemma PatternGo_matches_Permutation (cname : string) (patterns patterns' : list string) :
  Permutation patterns patterns' ->
  PatternGo.matchesAnyPattern cname patterns = PatternGo.matchesAnyPattern cname patterns'.
Proof.
  intros HP. unfold PatternGo.matchesAnyPattern.
  destruct (String.eqb cname "No CNAME record"); [reflexivity|].
  rewrite !PatternGo_rangePatterns_existsb. apply existsb_Permutation, HP.
Qed.

(** ** The normaliser *)

Lemma extractWildcardDomain_unfold (cname : string) :
  cname <> "No CNAME record" ->
  WildcardGo.extractWildcardDomain cname =
    if HasPrefix (TrimSpace cname) "*." then sliceFrom 2 (TrimSpace cname)
    else TrimSpace cname.
Proof.
  intros Hne. unfold WildcardGo.extractWildcardDomain.
  destruct (String.eqb_spec cname "No CNAME record"); [contradiction|reflexivity].
Qed.

(** ** The scan loop *)

Section ScanLoopFacts.
Context {World V : Type}.
Variable query : World -> string -> (string * option string) * World.
Variable store : string -> V.

Lemma scanLoop_app (l1 l2 : list string) (m : gmap string V) (w : World) :
  scanLoop query store (l1 ++ l2) m w =
  match scanLoop query store l1 m w with
  | ((Some m', _), w') => scanLoop query store l2 m' w'
  | ((None, err), w') => ((None, err), w')
  end.
Proof.
  revert m w. induction l1 as [|s l1 IH]; intros m w; simpl; [reflexivity|].
  destruct (query w s) as [[cname [err|]] w']; [reflexivity|]. apply IH.
Qed.

Lemma scanLoop_shape (l : list string) (m : gmap string V) (w : World) :
  (exists m', fst (scanLoop query store l m w) = (Some m', None)) \/
  (exists err, fst (scanLoop query store l m w) = (None, Some err)).
Proof.
  revert m w. induction l as [|s l IH]; intros m w; simpl.
  - left. exists m. reflexivity.
  - destruct (query w s) as [[cname [err|]] w']; [|apply IH].
    right. exists err. reflexivity.
Qed.

Lemma scanLoop_keeps (sub : string) (l : list string) (m m' : gmap string V) (w w' : World) :
  ~ In sub l ->
  scanLoop query store l m w = ((Some m', None), w') ->
  m' !! sub = m !! sub.
Proof.
  revert m w. induction l as [|s l IH]; intros m w Hnin H; simpl in H.
  - congruence.
  - destruct (query w s) as [[cname [err|]] w1]; [discriminate|].
    rewrite (IH _ _ (fun Hin => Hnin (or_intror Hin)) H).
    apply lookup_insert_ne. intros ->. apply Hnin. left. reflexivity.
Qed.

Lemma scanLoop_last (pre post : list string) (sub : string)
    (m results : gmap string V) (w wEnd : World) :
  ~ In sub post ->
  scanLoop query store (pre ++ sub :: post) m w = ((Some results, None), wEnd) ->
  exists mPre wPre cname wPost,
    scanLoop query store pre m w = ((Some mPre, None), wPre) /\
    query wPre sub = ((cname, None), wPost) /\
    results !! sub = Some (store cname).
Proof.
  intros Hnin H. rewrite scanLoop_app in H.
  destruct (scanLoop_shape pre m w) as [[mPre E]|[err E]];
    destruct (scanLoop query store pre m w) as [[o e] wPre]; simpl in E;
    injection E as -> ->; [|discriminate].
  simpl in H. destruct (query wPre sub) as [[cname [err|]] wPost] eqn:Q; [discriminate|].
  exists mPre, wPre, cname, wPost.
  split; [reflexivity|]. split; [exact Q|].
  rewrite (scanLoop_keeps sub post _ results wPost wEnd Hnin H). apply lookup_insert_eq.
Qed.

(** Starting from a map [m] gives what starting from the empty map
    gives, laid over [m]. *)
Lemma scanLoop_from (l : list string) (m : gmap string V) (w : World) :
  scanLoop query store l m w =
  match scanLoop query store l ∅ w with
  | ((Some r, err), w') => ((Some (r ∪ m), err), w')
  | ((None, err), w') => ((None, err), w')
  end.
Proof.
  revert m w. induction l as [|s l IH]; intros m w; simpl.
  - rewrite (left_id_L ∅ (∪)). reflexivity.
  - destruct (query w s) as [[a [err|]] w1]; [reflexivity|].
    rewrite (IH (<[s := store a]> m)), (IH (<[s := store a]> ∅)).
    destruct (scanLoop query store l ∅ w1) as [[[r|] e] w2]; [|reflexivity].
    rewrite insert_empty, <- (assoc_L (∪)), <- insert_union_singleton_l. reflexivity.
Qed.

(** When the lookups before [sub], the lookup of [sub] and the lookups
    after it succeed, the scan of the whole list returns a map, and the
    map holds for [sub] the value of that lookup of [sub]. *)
Lemma scanLoop_last_returned (pre post : list string) (sub cname : string)
    (mPre mPost : gmap string V) (w wPre wPost wEnd : World) :
  ~ In sub post ->
  scanLoop query store pre ∅ w = ((Some mPre, None), wPre) ->
  query wPre sub = ((cname, None), wPost) ->
  scanLoop query store post ∅ wPost = ((Some mPost, None), wEnd) ->
  scanLoop query store (pre ++ sub :: post) ∅ w
    = ((Some (mPost ∪ <[sub := store cname]> mPre), None), wEnd) /\
  (mPost ∪ <[sub := store cname]> mPre) !! sub = Some (store cname).
Proof.
  intros Hnin Hpre Hq Hpost. split.
  - rewrite scanLoop_app, Hpre. simpl. rewrite Hq, scanLoop_from, Hpost. reflexivity.
  - rewrite lookup_union_r.
    + apply lookup_insert_eq.
    + rewrite (scanLoop_keeps sub post ∅ mPost wPost wEnd Hnin Hpost). apply lookup_empty.
Qed.

Lemma scanLoop_abort (pre post : list string) (sub cname err : string)
    (m mPre : gmap string V) (w wPre wPost : World) :
  scanLoop query store pre m w = ((Some mPre, None), wPre) ->
  query wPre sub = ((cname, Some err), wPost) ->
  scanLoop query store (pre ++ sub :: post) m w = ((None, Some err), wPost).
Proof.
  intros Hpre Hq. rewrite scanLoop_app, Hpre. simpl. rewrite Hq. reflexivity.
Qed.

Lemma scanLoop_values (l : list string) (m results : gmap string V) (w wEnd : World) :
  scanLoop query store l m w = ((Some results, None), wEnd) ->
  forall sub v, results !! sub = Some v ->
    m !! sub = Some v \/ exists cname, v = store cname.
Proof.
  revert m w. induction l as [|s l IH]; intros m w H sub v Hv; simpl in H.
  - left. congruence.
  - destruct (query w s) as [[cname [err|]] w1]; [discriminate|].
    destruct (IH _ _ H sub v Hv) as [Hm|Hs]; [|right; exact Hs].
    destruct (decide (s = sub)) as [->|Hne].
    + rewrite lookup_insert_eq in Hm. right. exists cname. congruence.
    + rewrite lookup_insert_ne in Hm by exact Hne. left. exact Hm.
Qed.

Lemma scanLoop_deterministic (l : list string) (m : gmap string V) (w1 w2 : World) :
  (forall u1 u2 host, fst (query u1 host) = fst (query u2 host)) ->
  fst (scanLoop query store l m w1) = fst (scanLoop query store l m w2).
Proof.
  intros Hq. revert m w1 w2. induction l as [|s l IH]; intros m w1 w2; simpl; [reflexivity|].
  specialize (Hq w1 w2 s).
  destruct (query w1 s) as [[c1 e1] u1], (query w2 s) as [[c2 e2] u2]. simpl in Hq.
  injection Hq as -> ->. destruct e2; [reflexivity|]. apply IH.
Qed.

Lemma scanLoop_cases (l : list string) (m : gmap string V) (w : World) :
  (exists results wEnd, scanLoop query store l m w = ((Some results, None), wEnd)) \/
  (exists pre sub post mPre wPre cname err wPost,
     l = pre ++ sub :: post /\
     scanLoop query store pre m w = ((Some mPre, None), wPre) /\
     query wPre sub = ((cname, Some err), wPost) /\
     scanLoop query store l m w = ((None, Some err), wPost)).
Proof.
  revert m w. induction l as [|s l IH]; intros m w.
  - left. exists m, w. reflexivity.
  - simpl. destruct (query w s) as [[cname [err|]] w1] eqn:Q.
    + right. exists [], s, l, m, w, cname, err, w1. simpl. auto.
    + destruct (IH (<[s := store cname]> m) w1)
        as [Hok|(pre & sub & post & mPre & wPre & c & err & wPost & -> & Hpre & Hq & Hall)].
      * left. exact Hok.
      * right. exists (s :: pre), sub, post, mPre, wPre, c, err, wPost.
        simpl. rewrite Q. auto.
Qed.

End ScanLoopFacts.

Lemma MainGo_scan {World} (dig : Resolver World) (l : list string) (m : gmap string string) (w : World) :
  MainGo.rangeSubdomains dig l m w = scanLoop (MainGo.getCNAMERecord dig) (fun cname => cname) l m w.
Proof.
  revert m w. induction l as [|s l IH]; intros m w; simpl; [reflexivity|].
  destruct (MainGo.getCNAMERecord dig w s) as [[cname [err|]] w']; [reflexivity|]. apply IH.
Qed.

Lemma PatternGo_scan {World} (dig : Resolver World) (l patterns : list string)
    (m : gmap string PatternGo.RecordT) (w : World) :
  PatternGo.rangeSubdomains dig l patterns m w =
  scanLoop (PatternGo.getCNAMERecord dig)
    (fun cname => PatternGo.mkRecord cname (PatternGo.matchesAnyPattern cname patterns)) l m w.
Proof.
  revert m w. induction l as [|s l IH]; intros m w; simpl; [reflexivity|].
  destruct (PatternGo.getCNAMERecord dig w s) as [[cname [err|]] w']; [reflexivity|]. apply IH.
Qed.

Lemma WildcardGo_scan {World} (dig : Resolver World) (l patterns : list string)
    (m : gmap string WildcardGo.RecordT) (w : World) :
  WildcardGo.rangeSubdomains dig l patterns m w =
  scanLoop (WildcardGo.getCNAMERecord dig)
    (fun cname => WildcardGo.mkRecord cname
       (WildcardGo.matchesAnyPattern (WildcardGo.extractWildcardDomain cname) patterns)) l m w.
Proof.
  revert m w. induction l as [|s l IH]; intros m w; simpl; [reflexivity|].
  destruct (WildcardGo.getCNAMERecord dig w s) as [[cname [err|]] w']; [reflexivity|]. apply IH.
Qed.

(** ** The classifiers *)

Lemma processFailed_true (run : CmdResult) :
  processFailed run = true <-> RunErr run <> None.
Proof. unfold processFailed. destruct (RunErr run); split; congruence. Qed.

Lemma Contains_false (s sub : string) :
  Contains s sub = false <-> ~ IsSubstring sub s.
Proof.
  rewrite <- Contains_spec. destruct (Contains s sub); split; congruence.
Qed.

Lemma MainGo_nxdomain_iff (subdomain : string) (run : CmdResult) :
  MainGo.outcomeTag (MainGo.getCNAMERecordOf subdomain run) = NxDomain <->
  (processFailed run = true /\ IsSubstring "status: NXDOMAIN" (Stderr run)) \/
  (processFailed run = false /\ TrimSpace (Stdout run) = "NXDOMAIN").
Proof.
  unfold MainGo.getCNAMERecordOf, processFailed.
  destruct (RunErr run) as [err|].
  - destruct (Contains (Stderr run) "status: NXDOMAIN") eqn:E; simpl.
    + apply Contains_spec in E. split; [intros _; left; split; [reflexivity|exact E]|reflexivity].
    + apply Contains_false in E. split; [discriminate|].
      intros [[_ H]|[H _]]; [contradiction|discriminate].
  - destruct (String.eqb_spec (TrimSpace (Stdout run)) "") as [E|E]; simpl.
    + split; [discriminate|]. intros [[H _]|[_ H]]; [discriminate|congruence].
    + destruct (String.eqb_spec (TrimSpace (Stdout run)) "NXDOMAIN") as [E'|E'].
      * split; [intros _; right; split; [reflexivity|exact E']|reflexivity].
      * split.
        -- destruct (String.eqb (TrimSpace (Stdout run)) "No CNAME record"); discriminate.
        -- intros [[H _]|[_ H]]; [discriminate|contradiction].
Qed.

Lemma MainGo_queryError_iff (subdomain : string) (run : CmdResult) :
  MainGo.outcomeTag (MainGo.getCNAMERecordOf subdomain run) = QueryError <->
  processFailed run = true /\ ~ IsSubstring "status: NXDOMAIN" (Stderr run).
Proof.
  unfold MainGo.getCNAMERecordOf, processFailed.
  destruct (RunErr run) as [err|].
  - destruct (Contains (Stderr run) "status: NXDOMAIN") eqn:E; simpl.
    + apply Contains_spec in E. split; [discriminate|]. intros [_ H]. contradiction.
    + apply Contains_false in E. split; [intros _; split; [reflexivity|exact E]|reflexivity].
  - split; [|intros [H _]; discriminate].
    destruct (String.eqb (TrimSpace (Stdout run)) ""); simpl; [discriminate|].
    destruct (String.eqb (TrimSpace (Stdout run)) "NXDOMAIN"); [discriminate|].
    destruct (String.eqb (TrimSpace (Stdout run)) "No CNAME record"); discriminate.
Qed.

Lemma StatusGo_tag_cases (subdomain : string) (run : CmdResult) :
  let tag := StatusGo.outcomeTag (StatusGo.getCNAMERecordOf subdomain run) in
  (processFailed run = true /\ tag = Some QueryError) \/
  (processFailed run = false /\ IsSubstring "status: NXDOMAIN" (Stderr run) /\ tag = Some NxDomain) \/
  (processFailed run = false /\ ~ IsSubstring "status: NXDOMAIN" (Stderr run) /\
   TrimSpace (Stdout run) = "" /\ tag = Some NoCname) \/
  (processFailed run = false /\ ~ IsSubstring "status: NXDOMAIN" (Stderr run) /\
   TrimSpace (Stdout run) <> "" /\ tag = Some CnameFound).
Proof.
  unfold StatusGo.getCNAMERecordOf, processFailed.
  destruct (RunErr run) as [err|]; simpl; [left; split; reflexivity|right].
  destruct (Contains (Stderr run) "status: NXDOMAIN") eqn:E.
  - apply Contains_spec in E. left. repeat split; assumption.
  - apply Contains_false in E. right.
    destruct (String.eqb_spec (TrimSpace (Stdout run)) "") as [E'|E'];
      [left|right]; repeat split; assumption.
Qed.

Lemma MainGo_outcomeTag_NxDomain (r : string * option string) :
  MainGo.outcomeTag r = NxDomain <-> r = ("NXDOMAIN", None).
Proof.
  destruct r as [cname [err|]]; simpl; [split; discriminate|].
  destruct (String.eqb_spec cname "NXDOMAIN") as [->|Hne].
  - split; reflexivity.
  - split; [|congruence].
    destruct (String.eqb cname "No CNAME record"); discriminate.
Qed.

(** C1 (amended).  Every result of a classifier carries exactly one of
    the four outcome tags.  In [src/main.go] the result reads as
    NxDomain exactly when the process failed and its standard error
    contains the literal text "status: NXDOMAIN", or when the process
    succeeded and its trimmed standard output is itself the text
    NXDOMAIN.  In [src/unnamed/part_002] the result is NxDomain exactly
    when the process did not fail and its standard error contains the
    marker; a failed process is always a query error there. *)
Theorem C1_nxdomain_classification (subdomain : string) (run : CmdResult) :
  (MainGo.outcomeTag (MainGo.getCNAMERecordOf subdomain run) = NxDomain <->
     (processFailed run = true /\ IsSubstring "status: NXDOMAIN" (Stderr run)) \/
     (processFailed run = false /\ TrimSpace (Stdout run) = "NXDOMAIN"))
  /\ (MainGo.outcomeTag (MainGo.getCNAMERecordOf subdomain run) = QueryError <->
        processFailed run = true /\ ~ IsSubstring "status: NXDOMAIN" (Stderr run))
  /\ (exists tag, StatusGo.outcomeTag (StatusGo.getCNAMERecordOf subdomain run) = Some tag)
  /\ (StatusGo.outcomeTag (StatusGo.getCNAMERecordOf subdomain run) = Some NxDomain <->
        processFailed run = false /\ IsSubstring "status: NXDOMAIN" (Stderr run))
  /\ (StatusGo.outcomeTag (StatusGo.getCNAMERecordOf subdomain run) = Some QueryError <->
        processFailed run = true).
Proof.
  split; [apply MainGo_nxdomain_iff|].
  split; [apply MainGo_queryError_iff|].
  pose proof (StatusGo_tag_cases subdomain run) as H. cbv zeta in H.
  destruct H as [[F T]|[(F & M & T)|[(F & M & E & T)|(F & M & E & T)]]];
    rewrite T, F; (split; [eexists; reflexivity|]); split; split;
    try discriminate; try (intros _; auto; fail);
    try (intros [_ ?]; contradiction); try (intros [? _]; discriminate).
Qed.

(** C1, as stated, fails on both classifiers: in [src/unnamed/part_002]
    a failed run whose standard error carries the marker is a query
    error, not NxDomain; in [src/main.go] a successful run that prints
    the text NXDOMAIN yields the same result as a non-existent domain. *)
Lemma C1_nxdomain_counterexample :
  ~ (StatusGo.outcomeTag (StatusGo.getCNAMERecordOf "gone.example.com" failedWithNxdomain)
       = Some NxDomain <->
     IsSubstring "status: NXDOMAIN" (Stderr failedWithNxdomain)
       /\ processFailed failedWithNxdomain = true)
  /\ ~ (MainGo.outcomeTag (MainGo.getCNAMERecordOf "gone.example.com" answeredNxdomainText)
          = NxDomain <->
        IsSubstring "status: NXDOMAIN" (Stderr answeredNxdomainText)
          /\ processFailed answeredNxdomainText = true).
Proof.
  split.
  - intros [_ H].
    assert (IsSubstring "status: NXDOMAIN" (Stderr failedWithNxdomain)) as M
      by (apply Contains_spec; vm_compute; reflexivity).
    specialize (H (conj M eq_refl)). vm_compute in H. discriminate H.
  - intros [H _].
    assert (MainGo.outcomeTag (MainGo.getCNAMERecordOf "gone.example.com" answeredNxdomainText)
            = NxDomain) as T by (vm_compute; reflexivity).
    destruct (H T) as [_ F]. vm_compute in F. discriminate F.
Qed.

(** C3 (amended).  For every resolver outcome where the query did not
    fail: in [src/main.go], if the standard output trimmed of
    surrounding white space is empty the classifier returns the
    no-record result, and otherwise it returns the trimmed standard
    output as the CNAME target; in [src/unnamed/part_002] the same holds
    provided the standard error does not contain "status: NXDOMAIN"
    (with the marker the result is NxDomain even though the query
    succeeded). *)
Theorem C3_successful_lookup (subdomain : string) (run : CmdResult)
    (Hok : processFailed run = false) :
  ((TrimSpace (Stdout run) = "" ->
      MainGo.getCNAMERecordOf subdomain run = ("No CNAME record", None)) /\
   (TrimSpace (Stdout run) <> "" ->
      MainGo.getCNAMERecordOf subdomain run = (TrimSpace (Stdout run), None)))
  /\ (~ IsSubstring "status: NXDOMAIN" (Stderr run) ->
      (TrimSpace (Stdout run) = "" ->
         StatusGo.getCNAMERecordOf subdomain run
           = (StatusGo.mkRecord "" "NO CNAME" "Status: noerror", None)
         /\ StatusGo.outcomeTag (StatusGo.getCNAMERecordOf subdomain run) = Some NoCname) /\
      (TrimSpace (Stdout run) <> "" ->
         StatusGo.getCNAMERecordOf subdomain run
           = (StatusGo.mkRecord (TrimSpace (Stdout run)) "CNAME FOUND" "Status: noerror", None)
         /\ StatusGo.outcomeTag (StatusGo.getCNAMERecordOf subdomain run) = Some CnameFound)).
Proof.
  unfold processFailed in Hok.
  unfold MainGo.getCNAMERecordOf, StatusGo.getCNAMERecordOf.
  destruct (RunErr run); [discriminate|].
  split.
  - destruct (String.eqb_spec (TrimSpace (Stdout run)) ""); split; intros; congruence.
  - intros M. apply Contains_false in M. rewrite M.
    destruct (String.eqb_spec (TrimSpace (Stdout run)) ""); split; intros; try contradiction;
      split; reflexivity.
Qed.

Lemma C3_successful_lookup_witness :
  processFailed (answered "target.example.net.") = false /\
  MainGo.getCNAMERecordOf "a.example.com" (answered "target.example.net.")
    = ("target.example.net.", None) /\
  StatusGo.getCNAMERecordOf "a.example.com" (answered "target.example.net.")
    = (StatusGo.mkRecord "target.example.net." "CNAME FOUND" "Status: noerror", None).
Proof.
  pose proof (C3_successful_lookup "a.example.com" (answered "target.example.net.") eq_refl)
    as [[_ HM] HS].
  split; [reflexivity|]. split.
  - apply HM. vm_compute. discriminate.
  - apply HS.
    + apply Contains_false. vm_compute. reflexivity.
    + vm_compute. discriminate.
Defined.

(** C3, as stated, fails in [src/unnamed/part_002]: the run succeeded and
    printed a target, yet the marker on the standard error makes the
    result NxDomain with an empty CNAME. *)
Lemma C3_successful_lookup_counterexample :
  processFailed answeredWithNxdomain = false /\
  TrimSpace (Stdout answeredWithNxdomain) = "target.example.net." /\
  StatusGo.getCNAMERecordOf "a.example.com" answeredWithNxdomain
    = (StatusGo.mkRecord "" "NXDOMAIN" "Status: NXDOMAIN", None) /\
  StatusGo.outcomeTag (StatusGo.getCNAMERecordOf "a.example.com" answeredWithNxdomain)
    <> Some CnameFound.
Proof.
  repeat split; try (vm_compute; reflexivity). vm_compute. discriminate.
Qed.

(** ** The scan *)

(** C2.  If the lookups of the subdomains before [sub] succeed and the
    lookup of [sub] is a query error, the scan of the whole list returns
    the nil map together with that error: nothing of what was collected
    for the earlier subdomains is returned, and the subdomains after
    [sub] are not looked up.  A scan has no other outcome: it returns a
    result set and no error, or it returns the nil map and the error of
    the first lookup that failed.  This holds for the scan of
    [src/main.go] and for the scan of [src/unnamed/part_001]. *)
Theorem C2_scan_all_or_nothing {World : Type} (dig : Resolver World)
    (pre post patterns : list string) (sub : string) (w : World) :
  (forall mPre wPre cname err wPost,
      MainGo.checkCNAMERecords dig pre w = ((Some mPre, None), wPre) ->
      MainGo.getCNAMERecord dig wPre sub = ((cname, Some err), wPost) ->
      MainGo.checkCNAMERecords dig (pre ++ sub :: post) w = ((None, Some err), wPost))
  /\
  (forall mPre wPre cname err wPost,
      WildcardGo.checkCNAMERecords dig pre patterns w = ((Some mPre, None), wPre) ->
      WildcardGo.getCNAMERecord dig wPre sub = ((cname, Some err), wPost) ->
      WildcardGo.checkCNAMERecords dig (pre ++ sub :: post) patterns w
        = ((None, Some err), wPost))
  /\
  (forall subdomains,
      (exists results wEnd,
         MainGo.checkCNAMERecords dig subdomains w = ((Some results, None), wEnd)) \/
      (exists pre' sub' post' mPre wPre cname err wPost,
         subdomains = pre' ++ sub' :: post' /\
         MainGo.checkCNAMERecords dig pre' w = ((Some mPre, None), wPre) /\
         MainGo.getCNAMERecord dig wPre sub' = ((cname, Some err), wPost) /\
         MainGo.checkCNAMERecords dig subdomains w = ((None, Some err), wPost)))
  /\
  (forall subdomains,
      (exists results wEnd,
         WildcardGo.checkCNAMERecords dig subdomains patterns w
           = ((Some results, None), wEnd)) \/
      (exists pre' sub' post' mPre wPre cname err wPost,
         subdomains = pre' ++ sub' :: post' /\
         WildcardGo.checkCNAMERecords dig pre' patterns w = ((Some mPre, None), wPre) /\
         WildcardGo.getCNAMERecord dig wPre sub' = ((cname, Some err), wPost) /\
         WildcardGo.checkCNAMERecords dig subdomains patterns w
           = ((None, Some err), wPost))).
Proof.
  unfold MainGo.checkCNAMERecords, WildcardGo.checkCNAMERecords.
  repeat split.
  - intros mPre wPre cname err wPost Hpre Hq. rewrite MainGo_scan in *.
    eapply scanLoop_abort; eassumption.
  - intros mPre wPre cname err wPost Hpre Hq. rewrite WildcardGo_scan in *.
    eapply scanLoop_abort; eassumption.
  - intros subdomains.
    destruct (scanLoop_cases (MainGo.getCNAMERecord dig) (fun cname => cname) subdomains ∅ w)
      as [(results & wEnd & H)|(p & s & q & mPre & wPre & c & e & wPost & -> & H1 & H2 & H3)].
    + left. exists results, wEnd. rewrite MainGo_scan. exact H.
    + right. exists p, s, q, mPre, wPre, c, e, wPost. rewrite !MainGo_scan. auto.
  - intros subdomains.
    destruct (scanLoop_cases (WildcardGo.getCNAMERecord dig)
                (fun cname => WildcardGo.mkRecord cname
                   (WildcardGo.matchesAnyPattern (WildcardGo.extractWildcardDomain cname)
                      patterns)) subdomains ∅ w)
      as [(results & wEnd & H)|(p & s & q & mPre & wPre & c & e & wPost & -> & H1 & H2 & H3)].
    + left. exists results, wEnd. rewrite WildcardGo_scan. exact H.
    + right. exists p, s, q, mPre, wPre, c, e, wPost. rewrite !WildcardGo_scan. auto.
Qed.

Lemma C2_scan_all_or_nothing_witness :
  MainGo.checkCNAMERecords movingZone ["shop.example.com"] 0
    = ((Some {[ "shop.example.com" := "shop.s3.amazonaws.com." ]}, None), 1) /\
  MainGo.getCNAMERecord movingZone 1 "down.example.com"
    = (("", Some "error executing dig command for down.example.com: exit status 9"), 2) /\
  MainGo.checkCNAMERecords movingZone
    (["shop.example.com"] ++ "down.example.com" :: ["www.example.com"]) 0
    = ((None, Some "error executing dig command for down.example.com: exit status 9"), 2).
Proof.
  assert (MainGo.checkCNAMERecords movingZone ["shop.example.com"] 0
    = ((Some {[ "shop.example.com" := "shop.s3.amazonaws.com." ]}, None), 1)) as Hpre
    by reflexivity.
  assert (MainGo.getCNAMERecord movingZone 1 "down.example.com"
    = (("", Some "error executing dig command for down.example.com: exit status 9"), 2)) as Hq
    by reflexivity.
  split; [exact Hpre|]. split; [exact Hq|].
  exact (proj1 (C2_scan_all_or_nothing movingZone ["shop.example.com"] ["www.example.com"] []
                  "down.example.com" 0) _ _ _ _ _ Hpre Hq).
Defined.

(** C7.  When a subdomain occurs several times in the input, a
    successful scan maps it to the value built from the lookup made at
    its last occurrence: with [sub] not occurring in [post], the result
    set of the scan of [pre ++ sub :: post] holds for [sub] the answer
    that the resolver gave after the lookups of [pre].  And the map is
    returned: when the lookups of [pre], the lookup of [sub] after them
    and the lookups of [post] after that succeed, the scan of
    [pre ++ sub :: post] returns, without error, the map of [post] laid
    over the map of [pre] with [sub] set to that answer, which holds for
    [sub] that answer and nothing an earlier occurrence gave.  This
    holds for the scan of [src/main.go] (the value is the answer) and
    for the scan of [src/unnamed/part_001] (the value is the record of
    the answer). *)
Theorem C7_last_write_wins {World : Type} (dig : Resolver World)
    (pre post patterns : list string) (sub : string) (w : World)
    (Hlast : ~ In sub post) :
  (forall results wEnd,
      MainGo.checkCNAMERecords dig (pre ++ sub :: post) w = ((Some results, None), wEnd) ->
      exists mPre wPre cname wPost,
        MainGo.checkCNAMERecords dig pre w = ((Some mPre, None), wPre) /\
        MainGo.getCNAMERecord dig wPre sub = ((cname, None), wPost) /\
        results !! sub = Some cname)
  /\
  (forall results wEnd,
      WildcardGo.checkCNAMERecords dig (pre ++ sub :: post) patterns w
        = ((Some results, None), wEnd) ->
      exists mPre wPre cname wPost,
        WildcardGo.checkCNAMERecords dig pre patterns w = ((Some mPre, None), wPre) /\
        WildcardGo.getCNAMERecord dig wPre sub = ((cname, None), wPost) /\
        results !! sub = Some (WildcardGo.mkRecord cname
          (WildcardGo.matchesAnyPattern (WildcardGo.extractWildcardDomain cname) patterns)))
  /\
  (forall mPre wPre cname wPost mPost wEnd,
      MainGo.checkCNAMERecords dig pre w = ((Some mPre, None), wPre) ->
      MainGo.getCNAMERecord dig wPre sub = ((cname, None), wPost) ->
      MainGo.checkCNAMERecords dig post wPost = ((Some mPost, None), wEnd) ->
      MainGo.checkCNAMERecords dig (pre ++ sub :: post) w
        = ((Some (mPost ∪ <[sub := cname]> mPre), None), wEnd) /\
      (mPost ∪ <[sub := cname]> mPre) !! sub = Some cname)
  /\
  (forall mPre wPre cname wPost mPost wEnd,
      WildcardGo.checkCNAMERecords dig pre patterns w = ((Some mPre, None), wPre) ->
      WildcardGo.getCNAMERecord dig wPre sub = ((cname, None), wPost) ->
      WildcardGo.checkCNAMERecords dig post patterns wPost = ((Some mPost, None), wEnd) ->
      let record :=
        WildcardGo.mkRecord cname
          (WildcardGo.matchesAnyPattern (WildcardGo.extractWildcardDomain cname) patterns) in
      WildcardGo.checkCNAMERecords dig (pre ++ sub :: post) patterns w
        = ((Some (mPost ∪ <[sub := record]> mPre), None), wEnd) /\
      (mPost ∪ <[sub := record]> mPre) !! sub = Some record).
Proof.
  split; [|split; [|split]].
  - intros results wEnd H.
    unfold MainGo.checkCNAMERecords in *. rewrite MainGo_scan in H.
    destruct (scanLoop_last _ _ _ _ _ _ _ _ _ Hlast H) as (mPre & wPre & cname & wPost & H1 & H2 & H3).
    exists mPre, wPre, cname, wPost. rewrite MainGo_scan. auto.
  - intros results wEnd H.
    unfold WildcardGo.checkCNAMERecords in *. rewrite WildcardGo_scan in H.
    destruct (scanLoop_last _ _ _ _ _ _ _ _ _ Hlast H) as (mPre & wPre & cname & wPost & H1 & H2 & H3).
    exists mPre, wPre, cname, wPost. rewrite WildcardGo_scan. auto.
  - intros mPre wPre cname wPost mPost wEnd Hpre Hq Hpost.
    unfold MainGo.checkCNAMERecords in *. rewrite MainGo_scan in *.
    exact (scanLoop_last_returned (MainGo.getCNAMERecord dig) (fun c => c) pre post sub cname
             mPre mPost w wPre wPost wEnd Hlast Hpre Hq Hpost).
  - intros mPre wPre cname wPost mPost wEnd Hpre Hq Hpost record.
    unfold WildcardGo.checkCNAMERecords in *. rewrite WildcardGo_scan in *.
    exact (scanLoop_last_returned (WildcardGo.getCNAMERecord dig) _ pre post sub cname
             mPre mPost w wPre wPost wEnd Hlast Hpre Hq Hpost).
Qed.

(** In both programs [shop.example.com] is listed twice: its first
    answer is an S3 bucket, its second the company's own host, and the
    second is what the returned map holds. *)
Lemma C7_last_write_wins_witness :
  ~ In "shop.example.com" ["blog.example.com"] /\
  (MainGo.checkCNAMERecords movingZone
     (["shop.example.com"; "www.example.com"] ++ "shop.example.com" :: ["blog.example.com"]) 0
   = ((Some (({[ "blog.example.com" := "No CNAME record" ]} : gmap string string)
             ∪ <[ "shop.example.com" := "www.example.com." ]>
                 {[ "shop.example.com" := "shop.s3.amazonaws.com.";
                    "www.example.com" := "No CNAME record" ]}), None), 4)
   /\ ((({[ "blog.example.com" := "No CNAME record" ]} : gmap string string)
        ∪ <[ "shop.example.com" := "www.example.com." ]>
            {[ "shop.example.com" := "shop.s3.amazonaws.com.";
               "www.example.com" := "No CNAME record" ]}) !! "shop.example.com"
       = Some "www.example.com.")) /\
  (exists mPre wPre cname wPost,
    MainGo.checkCNAMERecords movingZone ["shop.example.com"; "www.example.com"] 0
      = ((Some mPre, None), wPre) /\
    MainGo.getCNAMERecord movingZone wPre "shop.example.com" = ((cname, None), wPost) /\
    ({[ "shop.example.com" := "www.example.com.";
        "www.example.com" := "No CNAME record";
        "blog.example.com" := "No CNAME record" ]} : gmap string string) !! "shop.example.com"
      = Some cname) /\
  (exists mPre wPre cname wPost,
    WildcardGo.checkCNAMERecords movingZone ["shop.example.com"; "www.example.com"]
      ["amazonaws.com"] 0 = ((Some mPre, None), wPre) /\
    WildcardGo.getCNAMERecord movingZone wPre "shop.example.com" = ((cname, None), wPost) /\
    ({[ "shop.example.com" := WildcardGo.mkRecord "www.example.com." false;
        "www.example.com" := WildcardGo.mkRecord "No CNAME record" false;
        "blog.example.com" := WildcardGo.mkRecord "No CNAME record" false ]}
       : gmap string WildcardGo.RecordT) !! "shop.example.com"
      = Some (WildcardGo.mkRecord cname
          (WildcardGo.matchesAnyPattern (WildcardGo.extractWildcardDomain cname)
             ["amazonaws.com"]))).
Proof.
  assert (~ In "shop.example.com" ["blog.example.com"]) as Hlast
    by (intros [H|[]]; discriminate H).
  destruct (C7_last_write_wins movingZone ["shop.example.com"; "www.example.com"]
              ["blog.example.com"] ["amazonaws.com"] "shop.example.com" 0 Hlast)
    as (Hmain & Hwild & Hmap & _).
  split; [exact Hlast|]. split; [|split].
  - apply (Hmap {[ "shop.example.com" := "shop.s3.amazonaws.com.";
                   "www.example.com" := "No CNAME record" ]} 2 "www.example.com." 3
             {[ "blog.example.com" := "No CNAME record" ]} 4);
      vm_compute; reflexivity.
  - apply (Hmain _ 4). vm_compute. reflexivity.
  - apply (Hwild _ 4). vm_compute. reflexivity.
Defined.

(** The first answer for the repeated name was a vulnerable one; the
    stored record is the one of the second answer. *)
Example duplicate_subdomain_keeps_last :
  WildcardGo.getCNAMERecord movingZone 0 "shop.example.com"
    = (("shop.s3.amazonaws.com.", None), 1) /\
  WildcardGo.checkCNAMERecords movingZone ["shop.example.com"; "shop.example.com"]
    ["amazonaws.com"] 0
    = ((Some {[ "shop.example.com" := WildcardGo.mkRecord "www.example.com." false ]}, None), 2).
Proof. split; vm_compute; reflexivity. Qed.

Lemma getCNAMERecord_answers {World : Type} (dig : Resolver World) :
  (forall u1 u2 host, fst (dig u1 host) = fst (dig u2 host)) ->
  (forall u1 u2 host,
     fst (WildcardGo.getCNAMERecord dig u1 host) = fst (WildcardGo.getCNAMERecord dig u2 host)) /\
  (forall u1 u2 host,
     fst (PatternGo.getCNAMERecord dig u1 host) = fst (PatternGo.getCNAMERecord dig u2 host)).
Proof.
  intros Hdig. split; intros u1 u2 host; specialize (Hdig u1 u2 host);
    unfold WildcardGo.getCNAMERecord, PatternGo.getCNAMERecord;
    destruct (dig u1 host), (dig u2 host); simpl in *; congruence.
Qed.

(** C9.  With a resolver that gives identical answers for identical
    hostnames, whatever state it is in, two runs of the scan over the
    same subdomains and fingerprints return the same map and the same
    error, from whatever states the two runs start (in particular when
    the second run starts where the first one ended).  This holds for
    the scan of [src/unnamed/part_001] and of [src/unnamed/part_000]. *)
Theorem C9_scan_deterministic {World : Type} (dig : Resolver World)
    (Hdig : forall u1 u2 host, fst (dig u1 host) = fst (dig u2 host))
    (subdomains patterns : list string) (w1 w2 : World) :
  fst (WildcardGo.checkCNAMERecords dig subdomains patterns w1)
    = fst (WildcardGo.checkCNAMERecords dig subdomains patterns w2)
  /\ fst (PatternGo.checkCNAMERecords dig subdomains patterns w1)
    = fst (PatternGo.checkCNAMERecords dig subdomains patterns w2).
Proof.
  destruct (getCNAMERecord_answers dig Hdig) as [HW HP].
  unfold WildcardGo.checkCNAMERecords, PatternGo.checkCNAMERecords.
  rewrite !WildcardGo_scan, !PatternGo_scan.
  split; apply scanLoop_deterministic; assumption.
Qed.

Lemma C9_scan_deterministic_witness :
  (forall u1 u2 host, fst (loggingZone u1 host) = fst (loggingZone u2 host)) /\
  fst (WildcardGo.checkCNAMERecords loggingZone ["shop.example.com"; "www.example.com"]
         ["amazonaws.com"] [])
  = fst (WildcardGo.checkCNAMERecords loggingZone ["shop.example.com"; "www.example.com"]
           ["amazonaws.com"]
           (snd (WildcardGo.checkCNAMERecords loggingZone
                   ["shop.example.com"; "www.example.com"] ["amazonaws.com"] []))).
Proof.
  assert (forall u1 u2 host, fst (loggingZone u1 host) = fst (loggingZone u2 host)) as Hdig
    by (intros u1 u2 host; reflexivity).
  split; [exact Hdig|].
  exact (proj1 (C9_scan_deterministic loggingZone Hdig
                  ["shop.example.com"; "www.example.com"] ["amazonaws.com"] [] _)).
Defined.

Lemma WildcardGo_scan_records {World : Type} (dig : Resolver World)
    (subdomains patterns : list string) (w wEnd : World)
    (results : gmap string WildcardGo.RecordT) (sub : string) (record : WildcardGo.RecordT) :
  WildcardGo.checkCNAMERecords dig subdomains patterns w = ((Some results, None), wEnd) ->
  results !! sub = Some record ->
  WildcardGo.IsVulnerable record =
    WildcardGo.matchesAnyPattern
      (WildcardGo.extractWildcardDomain (WildcardGo.CNAME record)) patterns.
Proof.
  unfold WildcardGo.checkCNAMERecords. rewrite WildcardGo_scan. intros H Hrec.
  destruct (scanLoop_values _ _ _ _ _ _ _ H sub record Hrec) as [He|[cname ->]].
  - rewrite lookup_empty in He. discriminate.
  - reflexivity.
Qed.

Lemma extractWildcardDomain_sentinel :
  WildcardGo.extractWildcardDomain "No CNAME record" = "".
Proof. reflexivity. Qed.

Lemma PatternGo_scan_records {World : Type} (dig : Resolver World)
    (subdomains patterns : list string) (w wEnd : World)
    (results : gmap string PatternGo.RecordT) (sub : string) (record : PatternGo.RecordT) :
  PatternGo.checkCNAMERecords dig subdomains patterns w = ((Some results, None), wEnd) ->
  results !! sub = Some record ->
  PatternGo.IsVulnerable record =
    PatternGo.matchesAnyPattern (PatternGo.CNAME record) patterns.
Proof.
  unfold PatternGo.checkCNAMERecords. rewrite PatternGo_scan. intros H Hrec.
  destruct (scanLoop_values _ _ _ _ _ _ _ H sub record Hrec) as [He|[cname ->]].
  - rewrite lookup_empty in He. discriminate.
  - reflexivity.
Qed.

(** C6.  In the result set of a successful scan of
    [src/unnamed/part_001], a record is flagged vulnerable only if its
    state is CnameFound and some fingerprint is a substring of its
    normalised CNAME target; a record in any other state carries
    [IsVulnerable = false], whatever the fingerprints.  (A failed lookup,
    also one reporting NXDOMAIN, leaves no record in that program.)  With
    the matcher of [src/unnamed/part_000], which answers false on the
    no-record text for every fingerprint set, a record of a successful
    scan of that program is flagged only if its CNAME is not the
    no-record text and some fingerprint is a substring of it. *)
Theorem C6_vulnerable_only_if_cname {World : Type} (dig : Resolver World)
    (subdomains patterns : list string) (w wEnd : World)
    (results : gmap string WildcardGo.RecordT) (sub : string) (record : WildcardGo.RecordT)
    (Hscan : WildcardGo.checkCNAMERecords dig subdomains patterns w
               = ((Some results, None), wEnd))
    (Hrec : results !! sub = Some record) :
  (WildcardGo.IsVulnerable record = true ->
     WildcardGo.recordState record = CnameFound /\
     exists pattern, In pattern patterns /\
       IsSubstring pattern (WildcardGo.extractWildcardDomain (WildcardGo.CNAME record)))
  /\ (WildcardGo.recordState record <> CnameFound -> WildcardGo.IsVulnerable record = false)
  /\ PatternGo.matchesAnyPattern "No CNAME record" patterns = false
  /\ (forall results0 wEnd0 record0,
        PatternGo.checkCNAMERecords dig subdomains patterns w
          = ((Some results0, None), wEnd0) ->
        results0 !! sub = Some record0 ->
        PatternGo.IsVulnerable record0 = true ->
        PatternGo.CNAME record0 <> "No CNAME record" /\
        exists pattern, In pattern patterns /\ IsSubstring pattern (PatternGo.CNAME record0)).
Proof.
  pose proof (WildcardGo_scan_records dig _ _ _ _ _ _ _ Hscan Hrec) as HV.
  assert (WildcardGo.recordState record <> CnameFound -> WildcardGo.IsVulnerable record = false)
    as Hneg.
  { unfold WildcardGo.recordState. rewrite HV.
    destruct (String.eqb_spec (WildcardGo.CNAME record) "No CNAME record") as [->|_];
      [reflexivity|congruence]. }
  split; [|split; [exact Hneg|split; [reflexivity|]]].
  - intros Hv. split.
    + destruct (WildcardGo.recordState record) eqn:E; trivial;
        rewrite Hneg in Hv by discriminate; discriminate.
    + rewrite HV in Hv.
      assert (WildcardGo.extractWildcardDomain (WildcardGo.CNAME record) <> "") as Hne.
      { intros E. rewrite E in Hv. discriminate. }
      apply (WildcardGo_matches_spec _ _ Hne). exact Hv.
  - intros results0 wEnd0 record0 Hscan0 Hrec0 Hv.
    rewrite (PatternGo_scan_records dig _ _ _ _ _ _ _ Hscan0 Hrec0) in Hv.
    assert (PatternGo.CNAME record0 <> "No CNAME record") as Hne.
    { intros E. rewrite E in Hv. discriminate. }
    split; [exact Hne|]. apply (PatternGo_matches_spec _ _ Hne). exact Hv.
Qed.

Lemma C6_vulnerable_only_if_cname_witness :
  WildcardGo.checkCNAMERecords movingZone ["shop.example.com"; "www.example.com"]
    ["amazonaws.com"] 0
    = ((Some {[ "shop.example.com" := WildcardGo.mkRecord "shop.s3.amazonaws.com." true;
                "www.example.com" := WildcardGo.mkRecord "No CNAME record" false ]}, None), 2)
  /\ WildcardGo.recordState (WildcardGo.mkRecord "shop.s3.amazonaws.com." true) = CnameFound
  /\ exists pattern, In pattern ["amazonaws.com"] /\
       IsSubstring pattern (WildcardGo.extractWildcardDomain "shop.s3.amazonaws.com.").
Proof.
  assert (WildcardGo.checkCNAMERecords movingZone ["shop.example.com"; "www.example.com"]
    ["amazonaws.com"] 0
    = ((Some {[ "shop.example.com" := WildcardGo.mkRecord "shop.s3.amazonaws.com." true;
                "www.example.com" := WildcardGo.mkRecord "No CNAME record" false ]}, None), 2))
    as Hscan by (vm_compute; reflexivity).
  split; [exact Hscan|].
  exact (proj1 (C6_vulnerable_only_if_cname movingZone _ _ _ _ _ "shop.example.com"
                  (WildcardGo.mkRecord "shop.s3.amazonaws.com." true) Hscan eq_refl) eq_refl).
Defined.

(** C10.  A CNAME target whose normalised form is empty is never
    matched: the matcher of [src/unnamed/part_001] answers false on it
    for every fingerprint set, also one that holds the empty
    fingerprint, and a record of a successful scan whose target
    normalises to the empty string carries [IsVulnerable = false].  The
    target consisting of the wildcard prefix alone is such a target. *)
Theorem C10_empty_normal_form_never_matches {World : Type} (dig : Resolver World)
    (target : string) (subdomains patterns : list string) (w wEnd : World)
    (results : gmap string WildcardGo.RecordT) (sub : string) (record : WildcardGo.RecordT)
    (Hempty : WildcardGo.extractWildcardDomain target = "") :
  WildcardGo.matchesAnyPattern (WildcardGo.extractWildcardDomain target) patterns = false
  /\ WildcardGo.extractWildcardDomain "*." = ""
  /\ WildcardGo.matchesAnyPattern (WildcardGo.extractWildcardDomain "*.") ("" :: patterns) = false
  /\ (WildcardGo.checkCNAMERecords dig subdomains patterns w = ((Some results, None), wEnd) ->
      results !! sub = Some record ->
      WildcardGo.CNAME record = target ->
      WildcardGo.IsVulnerable record = false).
Proof.
  split; [rewrite Hempty; reflexivity|].
  split; [reflexivity|]. split; [reflexivity|].
  intros Hscan Hrec <-.
  rewrite (WildcardGo_scan_records dig _ _ _ _ _ _ _ Hscan Hrec), Hempty. reflexivity.
Qed.

(** A zone that answers every lookup with the bare wildcard prefix. *)
Lemma C10_empty_normal_form_never_matches_witness :
  WildcardGo.extractWildcardDomain "*." = "" /\
  WildcardGo.matchesAnyPattern (WildcardGo.extractWildcardDomain "*.") [""; "amazonaws.com"]
    = false /\
  WildcardGo.IsVulnerable (WildcardGo.mkRecord "*." false) = false.
Proof.
  pose proof (C10_empty_normal_form_never_matches
                (fun (w : unit) (_ : string) => (answered "*.", w))
                "*." ["any.example.com"] [""; "amazonaws.com"] tt tt
                {[ "any.example.com" := WildcardGo.mkRecord "*." false ]}
                "any.example.com" (WildcardGo.mkRecord "*." false) eq_refl)
    as (H1 & _ & _ & H4).
  split; [reflexivity|]. split; [exact H1|].
  apply H4; vm_compute; reflexivity.
Defined.

(** ** The filtered report *)




Lemma sliceFrom_length (p : string) : sliceFrom (String.length p) p = "".
Proof. induction p as [|c p IH]; [reflexivity|exact IH]. Qed.



Lemma writeMore_stop (rounds : nat) (b : Writer) (p : string) :
  writeMore b p = false -> writeLoop rounds b p = (b, p).
Proof.
  intros H. destruct rounds as [|rounds]; [reflexivity|].
  simpl. unfold writeMore in H. rewrite H. reflexivity.
Qed.

Lemma writeMore_error (b : Writer) (p : string) (err : string) :
  werr b = Some err -> writeMore b p = false.
Proof. intros H. unfold writeMore. rewrite H. apply andb_false_r. Qed.

Lemma writeMore_nothing (b : Writer) : writeMore b "" = false.
Proof. reflexivity. Qed.

Lemma fileWrite_cases (f : OsFile) (p : string) :
  (exists n err file, fileWrite f p = ((n, Some err), file)) \/
  (exists file, fileWrite f p = ((String.length p, None), file)).
Proof.
  unfold fileWrite. destruct (fileFaults f) as [|[[n err]|] later]; eauto.
Qed.

(** The loop of [b.Write(p)] has ended after two rounds, whatever the
    file does: the writer and the rest of [p] it returns no longer
    satisfy the loop condition. *)
Lemma writeLoop_ends (b : Writer) (p : string) :
  writeMore (fst (writeLoop 2 b p)) (snd (writeLoop 2 b p)) = false.
Proof.
  assert (forall b1 p1, String.length (wbuf b1) = 0 ->
            writeMore (fst (writeLoop 1 b1 p1)) (snd (writeLoop 1 b1 p1)) = false) as Hdirect.
  { intros b1 p1 Hempty. simpl. fold (writeMore b1 p1).
    destruct (writeMore b1 p1) eqn:C; [|exact C].
    rewrite Hempty. simpl.
    destruct (fileWrite_cases (wfile b1) p1) as [(n & err & file & E)|(file & E)];
      rewrite E; simpl.
    - apply writeMore_error with (err := err). reflexivity.
    - rewrite sliceFrom_length. apply writeMore_nothing. }
  change (writeLoop 2 b p) with
    (if writeMore b p then
       if Nat.eqb (String.length (wbuf b)) 0 then
         let '((n, err), file) := fileWrite (wfile b) p in
         writeLoop 1 (mkWriter (wbuf b) err file) (sliceFrom n p)
       else
         let n := Nat.min (Available b) (String.length p) in
         let (_, b') := Flush (mkWriter (wbuf b ++ sliceTo n p) (werr b) (wfile b)) in
         writeLoop 1 b' (sliceFrom n p)
     else (b, p)).
  destruct (writeMore b p) eqn:C; [|exact C].
  destruct (Nat.eqb (String.length (wbuf b)) 0) eqn:Z.
  - destruct (fileWrite_cases (wfile b) p) as [(n & err & file & E)|(file & E)]; rewrite E.
    + rewrite writeMore_stop by (apply writeMore_error with (err := err); reflexivity).
      apply writeMore_error with (err := err). reflexivity.
    + rewrite sliceFrom_length. rewrite writeMore_stop by apply writeMore_nothing.
      apply writeMore_nothing.
  - cbv zeta.
    destruct (Flush (mkWriter (wbuf b ++ sliceTo (Nat.min (Available b) (String.length p)) p)
                       (werr b) (wfile b))) as [e b'] eqn:F.
    unfold Flush in F. simpl in F.
    unfold writeMore in C. destruct (werr b) as [err|]; [rewrite andb_false_r in C; discriminate|].
    destruct (Nat.eqb (String.length
               (wbuf b ++ sliceTo (Nat.min (Available b) (String.length p)) p)) 0) eqn:Z'.
    { apply Nat.eqb_eq in Z'. rewrite length_append in Z'.
      apply Nat.eqb_neq in Z. lia. }
    destruct (fileWrite (wfile b)
                (wbuf b ++ sliceTo (Nat.min (Available b) (String.length p)) p))
      as [[n [err|]] file].
    + injection F as _ <-.
      rewrite writeMore_stop by (apply writeMore_error with (err := err); reflexivity).
      apply writeMore_error with (err := err). reflexivity.
    + destruct (Nat.ltb n (String.length
                 (wbuf b ++ sliceTo (Nat.min (Available b) (String.length p)) p))).
      * injection F as _ <-.
        rewrite writeMore_stop by (apply writeMore_error with (err := "short write"); reflexivity).
        apply writeMore_error with (err := "short write"). reflexivity.
      * injection F as _ <-. apply Hdirect. reflexivity.
Qed.

(** More rounds change nothing. *)
Lemma writeLoop_enough (more : nat) (b : Writer) (p : string) :
  writeLoop (2 + more) b p = writeLoop 2 b p.
Proof.
  assert (forall n k b0 p0,
            writeLoop (n + k) b0 p0
            = writeLoop k (fst (writeLoop n b0 p0)) (snd (writeLoop n b0 p0))) as Hsplit.
  { induction n as [|n IH]; intros k b0 p0; [reflexivity|].
    change (S n + k) with (S (n + k)). simpl. fold (writeMore b0 p0).
    destruct (writeMore b0 p0) eqn:C.
    - destruct (Nat.eqb (String.length (wbuf b0)) 0).
      + destruct (fileWrite (wfile b0) p0) as [[m e] file]. apply IH.
      + destruct (Flush _) as [e b']. apply IH.
    - simpl. symmetry. apply writeMore_stop, C. }
  rewrite Hsplit. rewrite writeMore_stop by apply writeLoop_ends.
  destruct (writeLoop 2 b p). reflexivity.
Qed.







Lemma lineFeeds_append (s t : string) : lineFeeds (s ++ t) = lineFeeds s + lineFeeds t.
Proof.
  induction s as [|c s IH]; [reflexivity|].
  change (lineFeeds (String c (s ++ t)) = lineFeeds (String c s) + lineFeeds t).
  simpl. rewrite IH. lia.
Qed.




Lemma forwardOrder_valid : WildcardGo.validOrder forwardOrder.
Proof. intros results. reflexivity. Qed.




(** Both iteration orders give the same one-text report. *)
Example report_two_subdomains :
  WildcardGo.main pairFiles goodDisk movingZone forwardOrder
    ["digcname"; "pair.txt"; "patterns.txt"; "report.txt"] 0
  = WildcardGo.main pairFiles goodDisk movingZone backwardOrder
      ["digcname"; "pair.txt"; "patterns.txt"; "report.txt"] 0.
Proof. vm_compute. reflexivity. Qed.

(** What the disk does to the end of [main]: a file that cannot be
    created and a scan that fails end it before anything is written; a
    write that fails while the report still fits the buffer is met only
    by [writer.Flush()], whose error is discarded, so [main] ends
    normally and the file is empty. *)
Example report_disk_failures :
  WildcardGo.main pairFiles readOnlyDisk movingZone forwardOrder
    ["digcname"; "pair.txt"; "patterns.txt"; "report.txt"] 0
  = (Fatal "Failed to create result file: open report.txt: read-only file system", None)
  /\ WildcardGo.main pairFiles fullDisk movingZone forwardOrder
       ["digcname"; "pair.txt"; "patterns.txt"; "report.txt"] 0
     = (Finished [], Some "")
  /\ WildcardGo.main pairFiles goodDisk movingZone forwardOrder
       ["digcname"; "pair.txt"; "patterns.txt"] 0
     = (Fatal "Usage: digcname <subdomains-file> <patterns-file> <result-file>", None).
Proof. repeat split; vm_compute; reflexivity. Qed.

(** ** The matcher and the normaliser *)

(** C5 (amended).  The matcher of [src/unnamed/part_001] returns false
    when the domain is empty, and otherwise returns true if and only if
    at least one fingerprint is a literal (byte for byte, hence
    case-sensitive) substring of the domain.  The matcher of
    [src/unnamed/part_000], which is given the raw answer, returns false
    when its argument is the no-record text "No CNAME record", and
    otherwise (also on the empty string) returns true if and only if at
    least one fingerprint is a literal substring of its argument.  In
    both, the order of the fingerprints does not affect the result. *)
Theorem C5_matcher (domain : string) (patterns patterns' : list string) :
  WildcardGo.matchesAnyPattern "" patterns = false
  /\ (domain <> "" ->
      (WildcardGo.matchesAnyPattern domain patterns = true <->
       exists pattern, In pattern patterns /\ IsSubstring pattern domain))
  /\ (Permutation patterns patterns' ->
      WildcardGo.matchesAnyPattern domain patterns
        = WildcardGo.matchesAnyPattern domain patterns')
  /\ PatternGo.matchesAnyPattern "No CNAME record" patterns = false
  /\ (domain <> "No CNAME record" ->
      (PatternGo.matchesAnyPattern domain patterns = true <->
       exists pattern, In pattern patterns /\ IsSubstring pattern domain))
  /\ (Permutation patterns patterns' ->
      PatternGo.matchesAnyPattern domain patterns
        = PatternGo.matchesAnyPattern domain patterns').
Proof.
  split; [apply WildcardGo_matches_empty|].
  split; [apply WildcardGo_matches_spec|].
  split; [apply WildcardGo_matches_Permutation|].
  split; [apply PatternGo_matches_sentinel|].
  split; [apply PatternGo_matches_spec|apply PatternGo_matches_Permutation].
Qed.

Lemma C5_matcher_witness :
  "cdn.vulnerable-host.io" <> "" /\
  Permutation ["safe-host.io"; "vulnerable-host.io"] ["vulnerable-host.io"; "safe-host.io"] /\
  (exists pattern, In pattern ["safe-host.io"; "vulnerable-host.io"] /\
     IsSubstring pattern "cdn.vulnerable-host.io") /\
  WildcardGo.matchesAnyPattern "cdn.vulnerable-host.io" ["safe-host.io"; "vulnerable-host.io"]
    = WildcardGo.matchesAnyPattern "cdn.vulnerable-host.io"
        ["vulnerable-host.io"; "safe-host.io"].
Proof.
  assert ("cdn.vulnerable-host.io" <> "") as Hne by discriminate.
  assert (Permutation ["safe-host.io"; "vulnerable-host.io"]
            ["vulnerable-host.io"; "safe-host.io"]) as HP by constructor.
  destruct (C5_matcher "cdn.vulnerable-host.io" ["safe-host.io"; "vulnerable-host.io"]
              ["vulnerable-host.io"; "safe-host.io"]) as (_ & Hiff & Hperm & _).
  split; [exact Hne|]. split; [exact HP|]. split.
  - apply (proj1 (Hiff Hne)). vm_compute. reflexivity.
  - exact (Hperm HP).
Defined.

(** C5, as stated, fails for the matcher of [src/unnamed/part_000]: the
    no-record text is not empty and contains the fingerprint "CNAME",
    yet the matcher answers false; and on the empty string with an empty
    fingerprint it answers true. *)
Lemma C5_matcher_counterexample :
  "No CNAME record" <> ""
  /\ ~ (PatternGo.matchesAnyPattern "No CNAME record" ["CNAME"] = true <->
        exists pattern, In pattern ["CNAME"] /\ IsSubstring pattern "No CNAME record")
  /\ PatternGo.matchesAnyPattern "" [""] = true.
Proof.
  split; [discriminate|]. split; [|reflexivity].
  intros [_ H].
  assert (PatternGo.matchesAnyPattern "No CNAME record" ["CNAME"] = true) as E.
  { apply H. exists "CNAME". split; [left; reflexivity|].
    apply Contains_spec. vm_compute. reflexivity. }
  vm_compute in E. discriminate E.
Qed.

(** Matching is case-sensitive, and it is containment, not suffix
    matching. *)
Example matcher_examples :
  WildcardGo.matchesAnyPattern "cdn.vulnerable-host.io" ["vulnerable-host.io"] = true
  /\ WildcardGo.matchesAnyPattern "cdn.safe-host.io" ["vulnerable-host.io"] = false
  /\ WildcardGo.matchesAnyPattern "CDN.VULNERABLE-HOST.IO" ["vulnerable-host.io"] = false
  /\ WildcardGo.matchesAnyPattern "notamazonaws.com" ["amazonaws.com"] = true.
Proof. repeat split; vm_compute; reflexivity. Qed.

(** C4 (amended).  The normaliser of [src/unnamed/part_001] maps the
    empty string and the no-record text to the empty string.  Every
    other target is first trimmed of surrounding white space; if the
    trimmed target begins with the two characters "*." exactly that
    prefix is removed, once, and otherwise (also when it begins with a
    star that is not followed by a dot) the trimmed target is returned
    unchanged.  A dot at the end of the trimmed target stays, unless the
    trimmed target is "*." itself. *)
Theorem C4_normalize (cname : string) :
  WildcardGo.extractWildcardDomain "" = ""
  /\ WildcardGo.extractWildcardDomain "No CNAME record" = ""
  /\ (cname <> "No CNAME record" ->
      (forall rest, TrimSpace cname = ("*." ++ rest)%string ->
         WildcardGo.extractWildcardDomain cname = rest)
      /\ (HasPrefix (TrimSpace cname) "*." = false ->
          WildcardGo.extractWildcardDomain cname = TrimSpace cname)
      /\ (forall rest, TrimSpace cname = String "*" rest -> HasPrefix rest "." = false ->
          WildcardGo.extractWildcardDomain cname = TrimSpace cname)
      /\ (forall body, TrimSpace cname = (body ++ ".")%string -> body <> "*" ->
          exists body', WildcardGo.extractWildcardDomain cname = (body' ++ ".")%string)).
Proof.
  split; [reflexivity|]. split; [reflexivity|].
  intros Hne. rewrite (extractWildcardDomain_unfold cname Hne).
  split; [|split; [|split]].
  - intros rest E. rewrite E, HasPrefix_app. reflexivity.
  - intros E. rewrite E. reflexivity.
  - intros rest E Hdot. rewrite E. simpl.
    destruct rest as [|c rest]; [reflexivity|]. simpl in *.
    destruct (Ascii.eqb c "."); [discriminate|reflexivity].
  - intros body E Hb.
    destruct (HasPrefix (TrimSpace cname) "*.") eqn:P.
    + apply HasPrefix_inv in P as [rest P]. rewrite P.
      change (sliceFrom 2 ("*." ++ rest)) with rest.
      apply (append_dot_inv rest body); congruence.
    + exists body. exact E.
Qed.

Lemma C4_normalize_witness :
  "*.cdn.vulnerable-host.io." <> "No CNAME record" /\
  TrimSpace "*.cdn.vulnerable-host.io." = ("*." ++ "cdn.vulnerable-host.io.")%string /\
  WildcardGo.extractWildcardDomain "*.cdn.vulnerable-host.io." = "cdn.vulnerable-host.io." /\
  exists body',
    WildcardGo.extractWildcardDomain "*.cdn.vulnerable-host.io." = (body' ++ ".")%string.
Proof.
  assert ("*.cdn.vulnerable-host.io." <> "No CNAME record") as Hne by discriminate.
  assert (TrimSpace "*.cdn.vulnerable-host.io." = ("*." ++ "cdn.vulnerable-host.io.")%string)
    as Htrim by (vm_compute; reflexivity).
  destruct (C4_normalize "*.cdn.vulnerable-host.io.") as (_ & _ & H).
  destruct (H Hne) as (Hstrip & _ & _ & Hdot).
  split; [exact Hne|]. split; [exact Htrim|]. split.
  - exact (Hstrip _ Htrim).
  - apply (Hdot "*.cdn.vulnerable-host.io"); [vm_compute; reflexivity|discriminate].
Defined.

(** C4, as stated, fails on a target with white space before the
    wildcard prefix: the target does not begin with "*.", so the claim
    has it returned trimmed, but the program trims first and then
    removes the prefix. *)
Lemma C4_normalize_counterexample :
  HasPrefix " *.cdn.vulnerable-host.io" "*." = false
  /\ TrimSpace " *.cdn.vulnerable-host.io" = "*.cdn.vulnerable-host.io"
  /\ WildcardGo.extractWildcardDomain " *.cdn.vulnerable-host.io" = "cdn.vulnerable-host.io"
  /\ WildcardGo.extractWildcardDomain " *.cdn.vulnerable-host.io"
       <> TrimSpace " *.cdn.vulnerable-host.io".
Proof.
  repeat split; try (vm_compute; reflexivity). vm_compute. discriminate.
Qed.

Example normalize_examples :
  WildcardGo.extractWildcardDomain "*.cdn.vulnerable-host.io" = "cdn.vulnerable-host.io"
  /\ WildcardGo.extractWildcardDomain "cdn.vulnerable-host.io" = "cdn.vulnerable-host.io"
  /\ WildcardGo.extractWildcardDomain "*cdn.vulnerable-host.io" = "*cdn.vulnerable-host.io"
  /\ WildcardGo.extractWildcardDomain "*.*.vulnerable-host.io" = "*.vulnerable-host.io"
  /\ WildcardGo.extractWildcardDomain "a.example.com.s3.amazonaws.com."
       = "a.example.com.s3.amazonaws.com.".
Proof. repeat split; vm_compute; reflexivity. Qed.

(** Every target that the lookup of [src/unnamed/part_001] hands to the
    normaliser is the no-record text or is already trimmed; on such a
    target the normaliser removes the prefix "*." when the target begins
    with it and returns the target as it is otherwise. *)
Lemma classified_target_trimmed (subdomain : string) (run : CmdResult) (cname : string) :
  WildcardGo.getCNAMERecordOf subdomain run = (cname, None) ->
  cname = "No CNAME record" \/ TrimSpace cname = cname.
Proof.
  unfold WildcardGo.getCNAMERecordOf. destruct (RunErr run); [discriminate|].
  destruct (String.eqb (TrimSpace (Stdout run)) ""); intros H; injection H as <-.
  - left. reflexivity.
  - right. apply TrimSpace_idempotent.
Qed.

Lemma normalize_trimmed_target (cname : string) :
  cname <> "No CNAME record" -> TrimSpace cname = cname ->
  (forall rest, cname = ("*." ++ rest)%string ->
     WildcardGo.extractWildcardDomain cname = rest)
  /\ (HasPrefix cname "*." = false -> WildcardGo.extractWildcardDomain cname = cname).
Proof.
  intros Hne Htrim. rewrite (extractWildcardDomain_unfold cname Hne), Htrim. split.
  - intros rest ->. rewrite HasPrefix_app. reflexivity.
  - intros ->. reflexivity.
Qed.

(** ** The scenarios of the specification on [src/unnamed/part_001] *)

Example scenario_vulnerable_bucket :
  fst (WildcardGo.checkCNAMERecords (oneAnswer (answered "a.example.com.s3.amazonaws.com."))
         ["a.example.com"] ["amazonaws.com"] tt)
  = (Some {[ "a.example.com" :=
               WildcardGo.mkRecord "a.example.com.s3.amazonaws.com." true ]}, None).
Proof. vm_compute. reflexivity. Qed.

Example scenario_no_cname :
  fst (WildcardGo.checkCNAMERecords (oneAnswer (mkCmdResult "" "" None))
         ["a.example.com"] ["amazonaws.com"] tt)
  = (Some {[ "a.example.com" := WildcardGo.mkRecord "No CNAME record" false ]}, None).
Proof. vm_compute. reflexivity. Qed.

(** A failed run that reports NXDOMAIN ends the scan of
    [src/unnamed/part_001] with an error; [src/main.go] stores the text
    NXDOMAIN for the name. *)
Example scenario_nxdomain :
  fst (WildcardGo.checkCNAMERecords (oneAnswer failedWithNxdomain)
         ["gone.example.com"] ["amazonaws.com"] tt)
  = (None, Some "error executing dig command for gone.example.com: exit status 1")
  /\ fst (MainGo.checkCNAMERecords (oneAnswer failedWithNxdomain) ["gone.example.com"] tt)
     = (Some {[ "gone.example.com" := "NXDOMAIN" ]}, None).
Proof. split; vm_compute; reflexivity. Qed.

(** * Further properties of the programs *)

(** ** The scan loop, for any kind of answer *)

Lemma scanLoop_scanLoopG {World V : Type}
    (query : World -> string -> (string * option string) * World) (store : string -> V)
    (l : list string) (m : gmap string V) (w : World) :
  scanLoop query store l m w = scanLoopG query store l m w.
Proof.
  revert m w. induction l as [|s l IH]; intros m w; simpl; [reflexivity|].
  destruct (query w s) as [[a [err|]] w']; [reflexivity|]. apply IH.
Qed.

Lemma StatusGo_scan {World} (dig : Resolver World) (l : list string)
    (m : gmap string StatusGo.RecordT) (w : World) :
  StatusGo.rangeSubdomains dig l m w
  = scanLoopG (StatusGo.getCNAMERecord dig) (fun record => record) l m w.
Proof.
  revert m w. induction l as [|s l IH]; intros m w; simpl; [reflexivity|].
  destruct (StatusGo.getCNAMERecord dig w s) as [[a [err|]] w']; [reflexivity|]. apply IH.
Qed.

Section ScanLoopGFacts.
Context {World A V : Type}.
Variable query : World -> string -> (A * option string) * World.
Variable store : A -> V.

Lemma scanLoopG_app (l1 l2 : list string) (m : gmap string V) (w : World) :
  scanLoopG query store (l1 ++ l2) m w =
  match scanLoopG query store l1 m w with
  | ((Some m', _), w') => scanLoopG query store l2 m' w'
  | ((None, err), w') => ((None, err), w')
  end.
Proof.
  revert m w. induction l1 as [|s l1 IH]; intros m w; simpl; [reflexivity|].
  destruct (query w s) as [[a [err|]] w']; [reflexivity|]. apply IH.
Qed.

Lemma scanLoopG_shape (l : list string) (m : gmap string V) (w : World) :
  (exists m' w', scanLoopG query store l m w = ((Some m', None), w')) \/
  (exists err w', scanLoopG query store l m w = ((None, Some err), w')).
Proof.
  revert m w. induction l as [|s l IH]; intros m w; simpl.
  - left. exists m, w. reflexivity.
  - destruct (query w s) as [[a [err|]] w']; [|apply IH].
    right. exists err, w'. reflexivity.
Qed.

(** The keys of a returned map are the keys of the map the loop started
    with and the names of the list. *)
Lemma scanLoopG_keys (l : list string) (m results : gmap string V) (w wEnd : World) :
  scanLoopG query store l m w = ((Some results, None), wEnd) ->
  forall name, is_Some (results !! name) <-> In name l \/ is_Some (m !! name).
Proof.
  revert m w. induction l as [|s l IH]; intros m w H name; simpl in H.
  - injection H as <- _. simpl. tauto.
  - destruct (query w s) as [[a [err|]] w1]; [discriminate|].
    rewrite (IH _ _ H name). simpl.
    destruct (decide (s = name)) as [->|Hne].
    + rewrite lookup_insert_eq. split; [auto|]. intros _. right. eauto.
    + rewrite lookup_insert_ne by exact Hne. tauto.
Qed.

(** Starting from a map [m] gives what starting from the empty map
    gives, laid over [m]. *)
Lemma scanLoopG_union (l : list string) (m : gmap string V) (w : World) :
  scanLoopG query store l m w =
  match scanLoopG query store l ∅ w with
  | ((Some r, err), w') => ((Some (r ∪ m), err), w')
  | ((None, err), w') => ((None, err), w')
  end.
Proof.
  revert m w. induction l as [|s l IH]; intros m w; simpl.
  - rewrite (left_id_L ∅ (∪)). reflexivity.
  - destruct (query w s) as [[a [err|]] w1]; [reflexivity|].
    rewrite (IH (<[s := store a]> m)), (IH (<[s := store a]> ∅)).
    destruct (scanLoopG query store l ∅ w1) as [[[r|] e] w2]; [|reflexivity].
    rewrite insert_empty, <- (assoc_L (∪)), <- insert_union_singleton_l. reflexivity.
Qed.

(** Every value of a returned map was in the map the loop started with
    or was stored for an answer that a lookup of that very name gave
    without error. *)
Lemma scanLoopG_answers (l : list string) (m results : gmap string V) (w wEnd : World) :
  scanLoopG query store l m w = ((Some results, None), wEnd) ->
  forall name v, results !! name = Some v ->
    m !! name = Some v \/
    exists w0 answer w1, query w0 name = ((answer, None), w1) /\ v = store answer.
Proof.
  revert m w. induction l as [|s l IH]; intros m w H name v Hv; simpl in H.
  - left. congruence.
  - destruct (query w s) as [[a [err|]] w1] eqn:Q; [discriminate|].
    destruct (IH _ _ H name v Hv) as [Hm|Hs]; [|right; exact Hs].
    destruct (decide (s = name)) as [->|Hne].
    + rewrite lookup_insert_eq in Hm. right. exists w, a, w1. split; [exact Q|congruence].
    + rewrite lookup_insert_ne in Hm by exact Hne. left. exact Hm.
Qed.

End ScanLoopGFacts.

(** ** Reading the input files *)

Lemma forScan_spec (tokens lines : list string) :
  forScan tokens lines
  = lines ++ List.filter (fun line => negb (String.eqb line ""))
               (List.map TrimSpace tokens).
Proof.
  revert lines. induction tokens as [|text tokens IH]; intros lines; simpl.
  - rewrite app_nil_r. reflexivity.
  - destruct (String.eqb (TrimSpace text) ""); simpl; rewrite IH; [reflexivity|].
    rewrite <- app_assoc. reflexivity.
Qed.

Lemma readLinesFromFile_success (fs : FileSystem) (filename : string) (lines : list string) :
  readLinesFromFile fs filename = (lines, None) ->
  exists tokens,
    fs filename = Opened tokens None /\
    lines = List.filter (fun line => negb (String.eqb line "")) (List.map TrimSpace tokens) /\
    forall line, In line lines -> line <> "" /\ TrimSpace line = line.
Proof.
  intros Hread. unfold readLinesFromFile in Hread.
  destruct (fs filename) as [err|tokens [err|]]; try discriminate.
  injection Hread as <-. exists tokens. split; [reflexivity|].
  rewrite forScan_spec. simpl. split; [reflexivity|].
  intros line Hin. apply filter_In in Hin as [Hin Hne].
  apply in_map_iff in Hin as (text & <- & _). split.
  - intros E. rewrite E in Hne. discriminate.
  - apply TrimSpace_idempotent.
Qed.

(** X1.  When [readLinesFromFile] returns without error, the file was
    opened and scanned to its end without error, and the returned lines
    are the scanned lines trimmed of surrounding white space, in the
    order of the file, with the lines that are empty after trimming left
    out: no returned line is empty and none has white space around it. *)
Theorem X1_readLinesFromFile_lines (fs : FileSystem) (filename : string)
    (lines : list string)
    (Hread : readLinesFromFile fs filename = (lines, None)) :
  exists tokens,
    fs filename = Opened tokens None /\
    lines = List.filter (fun line => negb (String.eqb line "")) (List.map TrimSpace tokens) /\
    forall line, In line lines -> line <> "" /\ TrimSpace line = line.
Proof.
  unfold readLinesFromFile in Hread.
  destruct (fs filename) as [err|tokens [err|]]; try discriminate.
  injection Hread as <-. exists tokens. split; [reflexivity|].
  rewrite forScan_spec. simpl. split; [reflexivity|].
  intros line Hin. apply filter_In in Hin as [Hin Hne].
  apply in_map_iff in Hin as (text & <- & _). split.
  - intros E. rewrite E in Hne. discriminate.
  - apply TrimSpace_idempotent.
Qed.

(** X2.  When [readLinesFromFile] returns an error it returns no lines,
    also when lines had been read before the scanner failed, and the
    error names the file and says whether opening or reading failed; it
    returns an error exactly when opening or scanning failed. *)
Theorem X2_readLinesFromFile_error (fs : FileSystem) (filename : string) :
  (forall lines message, readLinesFromFile fs filename = (lines, Some message) ->
     lines = [] /\
     ((exists err, fs filename = OpenError err /\
                   message = ("error opening file " ++ filename ++ ": " ++ err)%string) \/
      (exists tokens err, fs filename = Opened tokens (Some err) /\
                   message = ("error reading file " ++ filename ++ ": " ++ err)%string)))
  /\ (snd (readLinesFromFile fs filename) = None <->
      exists tokens, fs filename = Opened tokens None).
Proof.
  unfold readLinesFromFile.
  destruct (fs filename) as [err|tokens [err|]]; simpl; split.
  - intros lines message H. injection H as <- <-. split; [reflexivity|]. left. eauto.
  - split; [discriminate|]. intros [tokens H]. discriminate.
  - intros lines message H. injection H as <- <-. split; [reflexivity|]. right. eauto.
  - split; [discriminate|]. intros [tokens' H]. discriminate.
  - intros lines message H. discriminate.
  - split; [eauto|reflexivity].
Qed.

(** ** Trimming and normalising keep to the text they are given *)

Lemma IsSubstring_trans (a b c : string) :
  IsSubstring a b -> IsSubstring b c -> IsSubstring a c.
Proof.
  intros (l & r & ->) (l' & r' & ->).
  exists (l' ++ l)%string, (r ++ r')%string.
  rewrite !append_assoc. reflexivity.
Qed.

Lemma IsSubstring_refl (a : string) : IsSubstring a a.
Proof. exists "", "". rewrite append_nil_r. reflexivity. Qed.

Lemma TrimSpace_substring (s : string) : IsSubstring (TrimSpace s) s.
Proof.
  unfold TrimSpace, trimRightSpace, trimLeftSpace, trimLeftSpaceRev.
  destruct (dropRunes_spec asciiSpace space2 space3 s) as [[front Hf] _].
  set (t := dropRunes asciiSpace space2 space3 s) in *.
  destruct (dropRunes_spec asciiSpace (fun b1 b2 => space2 b2 b1)
              (fun b1 b2 b3 => space3 b3 b2 b1) (rev t)) as [[back Hb] _].
  set (u := dropRunes asciiSpace (fun b1 b2 => space2 b2 b1)
              (fun b1 b2 b3 => space3 b3 b2 b1) (rev t)) in *.
  exists front, (rev back).
  rewrite <- rev_append, <- Hb, rev_involutive. exact Hf.
Qed.

Lemma IsSubstring_length (a b : string) :
  IsSubstring a b -> String.length a <= String.length b.
Proof. intros (l & r & ->). rewrite !length_append. lia. Qed.

Lemma X1_readLinesFromFile_lines_witness :
  readLinesFromFile demoFiles "subdomains.txt"
    = (["shop.example.com"; "www.example.com"; "shop.example.com"], None) /\
  exists tokens,
    demoFiles "subdomains.txt" = Opened tokens None /\
    ["shop.example.com"; "www.example.com"; "shop.example.com"]
      = List.filter (fun line => negb (String.eqb line "")) (List.map TrimSpace tokens) /\
    forall line, In line ["shop.example.com"; "www.example.com"; "shop.example.com"] ->
      line <> "" /\ TrimSpace line = line.
Proof.
  assert (readLinesFromFile demoFiles "subdomains.txt"
    = (["shop.example.com"; "www.example.com"; "shop.example.com"], None)) as Hread
    by (vm_compute; reflexivity).
  split; [exact Hread|].
  exact (X1_readLinesFromFile_lines demoFiles "subdomains.txt" _ Hread).
Defined.

Lemma X2_readLinesFromFile_error_witness :
  readLinesFromFile demoFiles "broken.txt"
    = ([], Some "error reading file broken.txt: read broken.txt: input/output error") /\
  ([] : list string) = [] /\
  ((exists err, demoFiles "broken.txt" = OpenError err /\
      "error reading file broken.txt: read broken.txt: input/output error"
        = ("error opening file " ++ "broken.txt" ++ ": " ++ err)%string) \/
   (exists tokens err, demoFiles "broken.txt" = Opened tokens (Some err) /\
      "error reading file broken.txt: read broken.txt: input/output error"
        = ("error reading file " ++ "broken.txt" ++ ": " ++ err)%string)).
Proof.
  assert (readLinesFromFile demoFiles "broken.txt"
    = ([], Some "error reading file broken.txt: read broken.txt: input/output error"))
    as Hread by (vm_compute; reflexivity).
  split; [exact Hread|].
  exact (proj1 (X2_readLinesFromFile_error demoFiles "broken.txt") _ _ Hread).
Defined.

(** ** The normaliser and the matchers, further *)

Lemma extractWildcardDomain_empty_iff (cname : string) :
  WildcardGo.extractWildcardDomain cname = "" <->
  cname = "No CNAME record" \/ TrimSpace cname = "" \/ TrimSpace cname = "*.".
Proof.
  destruct (String.eqb_spec cname "No CNAME record") as [->|Hne].
  - split; [auto|reflexivity].
  - rewrite (extractWildcardDomain_unfold cname Hne).
    destruct (HasPrefix (TrimSpace cname) "*.") eqn:P.
    + apply HasPrefix_inv in P as [rest P]. rewrite P.
      change (sliceFrom 2 ("*." ++ rest)) with rest. split.
      * intros ->. right. right. reflexivity.
      * intros [H|[H|H]]; [contradiction|discriminate H|].
        change (String "*" (String "." rest) = String "*" (String "." "")) in H.
        congruence.
    + split.
      * intros H. right. left. exact H.
      * intros [H|[H|H]]; [contradiction|exact H|].
        rewrite H in P. discriminate P.
Qed.

(** X3.  The normaliser of [src/unnamed/part_001] returns the empty
    string exactly for the no-record text, for a target that is empty or
    all white space, and for a target that is "*." once trimmed. *)
Theorem X3_normalize_empty_iff (cname : string) :
  WildcardGo.extractWildcardDomain cname = "" <->
  cname = "No CNAME record" \/ TrimSpace cname = "" \/ TrimSpace cname = "*.".
Proof.
  destruct (String.eqb_spec cname "No CNAME record") as [->|Hne].
  - split; [auto|reflexivity].
  - rewrite (extractWildcardDomain_unfold cname Hne).
    destruct (HasPrefix (TrimSpace cname) "*.") eqn:P.
    + apply HasPrefix_inv in P as [rest P]. rewrite P.
      change (sliceFrom 2 ("*." ++ rest)) with rest. split.
      * intros ->. right. right. reflexivity.
      * intros [H|[H|H]]; [contradiction|discriminate H|].
        change (String "*" (String "." rest) = String "*" (String "." "")) in H.
        congruence.
    + split.
      * intros H. right. left. exact H.
      * intros [H|[H|H]]; [contradiction|exact H|].
        rewrite H in P. discriminate P.
Qed.

Lemma extractWildcardDomain_substring (cname : string) :
  IsSubstring (WildcardGo.extractWildcardDomain cname) cname.
Proof.
  destruct (String.eqb_spec cname "No CNAME record") as [->|Hne].
  - exists "", "No CNAME record". reflexivity.
  - rewrite (extractWildcardDomain_unfold cname Hne).
    destruct (HasPrefix (TrimSpace cname) "*.") eqn:P.
    + apply HasPrefix_inv in P as [rest P].
      apply IsSubstring_trans with (b := TrimSpace cname); [|apply TrimSpace_substring].
      rewrite P. change (sliceFrom 2 ("*." ++ rest)) with rest.
      exists "*.", "". rewrite append_nil_r. reflexivity.
    + apply TrimSpace_substring.
Qed.

(** X4.  The normaliser of [src/unnamed/part_001] only removes text: what
    it returns is a literal substring of the target it was given, and so
    is never longer than the target. *)
Theorem X4_normalize_substring (cname : string) :
  IsSubstring (WildcardGo.extractWildcardDomain cname) cname
  /\ String.length (WildcardGo.extractWildcardDomain cname) <= String.length cname.
Proof.
  split; [|apply IsSubstring_length]; apply extractWildcardDomain_substring.
Qed.

Lemma normalized_match_is_raw_match (cname : string) (patterns : list string) :
  WildcardGo.matchesAnyPattern (WildcardGo.extractWildcardDomain cname) patterns = true ->
  PatternGo.matchesAnyPattern cname patterns = true.
Proof.
  intros H.
  assert (WildcardGo.extractWildcardDomain cname <> "") as Hne.
  { intros E. rewrite E in H. discriminate. }
  assert (cname <> "No CNAME record") as Hs.
  { intros ->. apply Hne. reflexivity. }
  apply (WildcardGo_matches_spec _ _ Hne) in H as (pattern & Hin & Hsub).
  apply (PatternGo_matches_spec _ _ Hs). exists pattern. split; [exact Hin|].
  apply IsSubstring_trans with (b := WildcardGo.extractWildcardDomain cname);
    [exact Hsub|apply extractWildcardDomain_substring].
Qed.

(** X5.  Normalising never adds a finding: whenever the matcher of
    [src/unnamed/part_001] accepts the normalised form of an answer, the
    matcher of [src/unnamed/part_000] accepts the answer itself, for the
    same fingerprints.  The converse fails for a fingerprint that
    reaches into the wildcard prefix. *)
Theorem X5_normalizing_adds_no_match (cname : string) (patterns : list string) :
  (WildcardGo.matchesAnyPattern (WildcardGo.extractWildcardDomain cname) patterns = true ->
   PatternGo.matchesAnyPattern cname patterns = true)
  /\ PatternGo.matchesAnyPattern "*.cdn.example.net" ["*.cdn"] = true
  /\ WildcardGo.matchesAnyPattern (WildcardGo.extractWildcardDomain "*.cdn.example.net")
       ["*.cdn"] = false.
Proof.
  split; [apply normalized_match_is_raw_match|split; vm_compute; reflexivity].
Qed.

Lemma X5_normalizing_adds_no_match_witness :
  WildcardGo.matchesAnyPattern
    (WildcardGo.extractWildcardDomain "*.shop.s3.amazonaws.com.") ["amazonaws.com"] = true
  /\ PatternGo.matchesAnyPattern "*.shop.s3.amazonaws.com." ["amazonaws.com"] = true.
Proof.
  assert (WildcardGo.matchesAnyPattern
            (WildcardGo.extractWildcardDomain "*.shop.s3.amazonaws.com.") ["amazonaws.com"]
          = true) as H by (vm_compute; reflexivity).
  split; [exact H|].
  exact (proj1 (X5_normalizing_adds_no_match "*.shop.s3.amazonaws.com." ["amazonaws.com"]) H).
Defined.

(** X6.  For both matchers the verdict on two fingerprint lists joined is
    the disjunction of the verdicts on each: adding fingerprints never
    loses a match, and no fingerprints means no match. *)
Theorem X6_matcher_append (domain : string) (patterns patterns' : list string) :
  WildcardGo.matchesAnyPattern domain (patterns ++ patterns')
    = WildcardGo.matchesAnyPattern domain patterns
      || WildcardGo.matchesAnyPattern domain patterns'
  /\ PatternGo.matchesAnyPattern domain (patterns ++ patterns')
     = PatternGo.matchesAnyPattern domain patterns
       || PatternGo.matchesAnyPattern domain patterns'
  /\ WildcardGo.matchesAnyPattern domain [] = false
  /\ PatternGo.matchesAnyPattern domain [] = false.
Proof.
  unfold WildcardGo.matchesAnyPattern, PatternGo.matchesAnyPattern.
  rewrite ?WildcardGo_rangePatterns_existsb, ?PatternGo_rangePatterns_existsb, !existsb_app.
  simpl.
  destruct (String.eqb domain ""), (String.eqb domain "No CNAME record"); auto.
Qed.

Lemma Contains_empty (s : string) : Contains s "" = true.
Proof. destruct s; reflexivity. Qed.

(** X7.  An empty fingerprint would match every non-empty domain, but a
    fingerprint list read by [readLinesFromFile] holds none: with
    fingerprints read from a file, a positive verdict of the matcher of
    [src/unnamed/part_001] always comes from a fingerprint that is not
    empty, has no white space around it and is a substring of the
    domain. *)
Theorem X7_file_patterns_never_match_all (fs : FileSystem) (patternsFile domain : string)
    (patterns : list string)
    (Hread : readLinesFromFile fs patternsFile = (patterns, None)) :
  (WildcardGo.matchesAnyPattern domain patterns = true ->
   exists pattern, In pattern patterns /\ pattern <> "" /\ TrimSpace pattern = pattern /\
                   IsSubstring pattern domain)
  /\ (forall others, domain <> "" -> In "" others ->
        WildcardGo.matchesAnyPattern domain others = true)
  /\ ~ In "" patterns.
Proof.
  destruct (readLinesFromFile_success fs patternsFile patterns Hread) as (tokens & _ & _ & Hl).
  split; [|split].
  - intros H.
    assert (domain <> "") as Hne by (intros ->; discriminate H).
    apply (WildcardGo_matches_spec _ _ Hne) in H as (pattern & Hin & Hsub).
    exists pattern. destruct (Hl pattern Hin). auto.
  - intros others Hne Hin. apply (WildcardGo_matches_spec _ _ Hne).
    exists "". split; [exact Hin|]. exists "", domain. reflexivity.
  - intros Hin. destruct (Hl "" Hin) as [H _]. apply H. reflexivity.
Qed.

Lemma X7_file_patterns_never_match_all_witness :
  readLinesFromFile demoFiles "patterns.txt" = (["amazonaws.com"; "herokuapp.com"], None) /\
  WildcardGo.matchesAnyPattern "shop.s3.amazonaws.com." ["amazonaws.com"; "herokuapp.com"]
    = true /\
  exists pattern, In pattern ["amazonaws.com"; "herokuapp.com"] /\ pattern <> "" /\
    TrimSpace pattern = pattern /\ IsSubstring pattern "shop.s3.amazonaws.com.".
Proof.
  assert (readLinesFromFile demoFiles "patterns.txt"
          = (["amazonaws.com"; "herokuapp.com"], None)) as Hread by (vm_compute; reflexivity).
  assert (WildcardGo.matchesAnyPattern "shop.s3.amazonaws.com."
            ["amazonaws.com"; "herokuapp.com"] = true) as Hm by (vm_compute; reflexivity).
  split; [exact Hread|]. split; [exact Hm|].
  exact (proj1 (X7_file_patterns_never_match_all demoFiles "patterns.txt"
                  "shop.s3.amazonaws.com." _ Hread) Hm).
Defined.

(** ** The scans, further *)

Section ScanLoopGSchemas.
Context {World A V : Type}.
Variable query : World -> string -> (A * option string) * World.
Variable store : A -> V.

Lemma scanLoopG_keysAreInput :
  keysAreInput (fun l w => scanLoopG query store l ∅ w).
Proof.
  intros l w results wEnd H name.
  rewrite (scanLoopG_keys query store l ∅ results w wEnd H name).
  rewrite lookup_empty. split; [intros [H1|[x H1]]; [exact H1|discriminate]|auto].
Qed.

Lemma scanLoopG_scansCompose :
  scansCompose (fun l w => scanLoopG query store l ∅ w).
Proof.
  intros l1 l2 w. rewrite scanLoopG_app.
  destruct (scanLoopG_shape query store l1 ∅ w) as [(m1 & w1 & E)|(e & w1 & E)];
    rewrite E; [|reflexivity].
  rewrite scanLoopG_union.
  destruct (scanLoopG_shape query store l2 ∅ w1) as [(m2 & w2 & E2)|(e & w2 & E2)];
    rewrite E2; reflexivity.
Qed.

End ScanLoopGSchemas.

Lemma MainGo_check_G {World} (dig : Resolver World) (l : list string) (w : World) :
  MainGo.checkCNAMERecords dig l w
  = scanLoopG (MainGo.getCNAMERecord dig) (fun cname => cname) l ∅ w.
Proof. unfold MainGo.checkCNAMERecords. rewrite MainGo_scan. apply scanLoop_scanLoopG. Qed.

Lemma StatusGo_check_G {World} (dig : Resolver World) (l : list string) (w : World) :
  StatusGo.checkCNAMERecords dig l w
  = scanLoopG (StatusGo.getCNAMERecord dig) (fun record => record) l ∅ w.
Proof. unfold StatusGo.checkCNAMERecords. apply StatusGo_scan. Qed.

Lemma PatternGo_check_G {World} (dig : Resolver World) (l patterns : list string) (w : World) :
  PatternGo.checkCNAMERecords dig l patterns w
  = scanLoopG (PatternGo.getCNAMERecord dig)
      (fun cname => PatternGo.mkRecord cname (PatternGo.matchesAnyPattern cname patterns))
      l ∅ w.
Proof. unfold PatternGo.checkCNAMERecords. rewrite PatternGo_scan. apply scanLoop_scanLoopG. Qed.

Lemma WildcardGo_check_G {World} (dig : Resolver World) (l patterns : list string) (w : World) :
  WildcardGo.checkCNAMERecords dig l patterns w
  = scanLoopG (WildcardGo.getCNAMERecord dig)
      (fun cname => WildcardGo.mkRecord cname
         (WildcardGo.matchesAnyPattern (WildcardGo.extractWildcardDomain cname) patterns))
      l ∅ w.
Proof. unfold WildcardGo.checkCNAMERecords. rewrite WildcardGo_scan. apply scanLoop_scanLoopG. Qed.

Lemma keysAreInput_ext {World R : Type}
    (check check' : list string -> World -> (option (gmap string R) * option string) * World) :
  (forall l w, check l w = check' l w) -> keysAreInput check' -> keysAreInput check.
Proof. intros E H l w results wEnd Hc. apply (H l w results wEnd). rewrite <- E. exact Hc. Qed.

Lemma scansCompose_ext {World R : Type}
    (check check' : list string -> World -> (option (gmap string R) * option string) * World) :
  (forall l w, check l w = check' l w) -> scansCompose check' -> scansCompose check.
Proof. intros E H l1 l2 w. rewrite !E. rewrite (H l1 l2 w). destruct (check' l1 w) as [[[m1|] [e|]] w1]; try reflexivity. rewrite E. reflexivity. Qed.

(** X8.  A scan that succeeds returns a record for every subdomain of
    the input and for no other name, in each of the four programs. *)
Theorem X8_scan_keys {World : Type} (dig : Resolver World) (patterns : list string) :
  keysAreInput (MainGo.checkCNAMERecords dig)
  /\ keysAreInput (StatusGo.checkCNAMERecords dig)
  /\ keysAreInput (fun subdomains => PatternGo.checkCNAMERecords dig subdomains patterns)
  /\ keysAreInput (fun subdomains => WildcardGo.checkCNAMERecords dig subdomains patterns).
Proof.
  split; [|split; [|split]].
  - eapply keysAreInput_ext; [apply MainGo_check_G|apply scanLoopG_keysAreInput].
  - eapply keysAreInput_ext; [apply StatusGo_check_G|apply scanLoopG_keysAreInput].
  - eapply keysAreInput_ext; [intros; apply PatternGo_check_G|apply scanLoopG_keysAreInput].
  - eapply keysAreInput_ext; [intros; apply WildcardGo_check_G|apply scanLoopG_keysAreInput].
Qed.

(** X9.  Scanning a list in two parts gives what scanning it at once
    gives: the scan of [l1 ++ l2] is the scan of [l1] followed, from the
    resolver state that scan left, by the scan of [l2], the entries of
    [l2] replacing those of [l1] for the same name; when either part
    fails the whole fails with that error.  In each of the four
    programs. *)
Theorem X9_scan_in_parts {World : Type} (dig : Resolver World) (patterns : list string) :
  scansCompose (MainGo.checkCNAMERecords dig)
  /\ scansCompose (StatusGo.checkCNAMERecords dig)
  /\ scansCompose (fun subdomains => PatternGo.checkCNAMERecords dig subdomains patterns)
  /\ scansCompose (fun subdomains => WildcardGo.checkCNAMERecords dig subdomains patterns).
Proof.
  split; [|split; [|split]].
  - eapply scansCompose_ext; [apply MainGo_check_G|apply scanLoopG_scansCompose].
  - eapply scansCompose_ext; [apply StatusGo_check_G|apply scanLoopG_scansCompose].
  - eapply scansCompose_ext; [intros; apply PatternGo_check_G|apply scanLoopG_scansCompose].
  - eapply scansCompose_ext; [intros; apply WildcardGo_check_G|apply scanLoopG_scansCompose].
Qed.

Lemma X8_scan_keys_witness :
  WildcardGo.checkCNAMERecords movingZone ["shop.example.com"; "www.example.com"]
    ["amazonaws.com"] 0
    = ((Some {[ "shop.example.com" := WildcardGo.mkRecord "shop.s3.amazonaws.com." true;
                "www.example.com" := WildcardGo.mkRecord "No CNAME record" false ]}, None), 2)
  /\ (is_Some (({[ "shop.example.com" := WildcardGo.mkRecord "shop.s3.amazonaws.com." true;
                   "www.example.com" := WildcardGo.mkRecord "No CNAME record" false ]}
                 : gmap string WildcardGo.RecordT) !! "blog.example.com")
      <-> In "blog.example.com" ["shop.example.com"; "www.example.com"]).
Proof.
  assert (WildcardGo.checkCNAMERecords movingZone ["shop.example.com"; "www.example.com"]
    ["amazonaws.com"] 0
    = ((Some {[ "shop.example.com" := WildcardGo.mkRecord "shop.s3.amazonaws.com." true;
                "www.example.com" := WildcardGo.mkRecord "No CNAME record" false ]}, None), 2))
    as Hscan by (vm_compute; reflexivity).
  split; [exact Hscan|].
  exact (proj2 (proj2 (proj2 (X8_scan_keys movingZone ["amazonaws.com"])))
           _ _ _ _ Hscan "blog.example.com").
Defined.

Section LoggedLoop.
Context {World A V : Type}.
Variable query : World -> string -> (A * option string) * World.
Variable queryL : World * list string -> string -> (A * option string) * (World * list string).
Variable store : A -> V.
Hypothesis queryL_spec : forall state name,
  queryL state name
  = (fst (query (fst state) name), (snd (query (fst state) name), snd state ++ [name])).

(** The logged loop returns what the plain loop returns and has asked,
    in the order of the list, for the names up to the end of the list or
    up to the first one whose lookup fails. *)
Lemma scanLoopG_logged (l : list string) (m : gmap string V) (w : World) (asked : list string) :
  exists performed rest,
    l = performed ++ rest /\
    scanLoopG queryL store l m (w, asked)
      = (fst (scanLoopG query store l m w),
         (snd (scanLoopG query store l m w), asked ++ performed)) /\
    (snd (fst (scanLoopG query store l m w)) = None -> rest = []) /\
    (forall err, snd (fst (scanLoopG query store l m w)) = Some err ->
       exists pre name w0,
         performed = pre ++ [name] /\ snd (fst (query w0 name)) = Some err).
Proof.
  revert m w asked. induction l as [|s l IH]; intros m w asked.
  - exists [], []. simpl. rewrite app_nil_r.
    split; [reflexivity|]. split; [reflexivity|]. split; [reflexivity|discriminate].
  - simpl. rewrite queryL_spec. simpl.
    destruct (query w s) as [[a [err|]] w1] eqn:Q; simpl.
    + exists [s], l.
      split; [reflexivity|]. split; [reflexivity|]. split; [discriminate|].
      intros err' E. injection E as <-. exists [], s, w. rewrite Q. split; reflexivity.
    + destruct (IH (<[s := store a]> m) w1 (asked ++ [s]))
        as (performed & rest & -> & Hrun & Hok & Herr).
      exists (s :: performed), rest. split; [reflexivity|]. split.
      * rewrite Hrun, <- app_assoc. reflexivity.
      * split; [exact Hok|]. intros err E.
        destruct (Herr err E) as (pre & name & w0 & -> & Hq).
        exists (s :: pre), name, w0. split; [reflexivity|exact Hq].
Qed.

End LoggedLoop.

Lemma WildcardGo_logged_lookup {World} (dig : Resolver World) (state : World * list string)
    (name : string) :
  WildcardGo.getCNAMERecord (logged dig) state name
  = (fst (WildcardGo.getCNAMERecord dig (fst state) name),
     (snd (WildcardGo.getCNAMERecord dig (fst state) name), snd state ++ [name])).
Proof.
  unfold WildcardGo.getCNAMERecord, logged. destruct (dig (fst state) name). reflexivity.
Qed.

Lemma StatusGo_logged_lookup {World} (dig : Resolver World) (state : World * list string)
    (name : string) :
  StatusGo.getCNAMERecord (logged dig) state name
  = (fst (StatusGo.getCNAMERecord dig (fst state) name),
     (snd (StatusGo.getCNAMERecord dig (fst state) name), snd state ++ [name])).
Proof.
  unfold StatusGo.getCNAMERecord, logged. destruct (dig (fst state) name). reflexivity.
Qed.

(** X10.  [checkCNAMERecords] runs [dig] for the subdomains one at a
    time in the order of the list, once per occurrence, and for nothing
    else: with a resolver that logs the names it is asked for, the scan
    returns what it returns without the log, and the log is the whole
    list when the scan succeeds and, when it fails, the part of the list
    up to and including the name whose lookup gave the returned error;
    no name after it is looked up.  For [src/unnamed/part_001] and
    [src/unnamed/part_002]. *)
Theorem X10_lookups_follow_input {World : Type} (dig : Resolver World)
    (subdomains patterns : list string) (w : World) :
  (exists performed rest,
     subdomains = performed ++ rest /\
     WildcardGo.checkCNAMERecords (logged dig) subdomains patterns (w, [])
       = (fst (WildcardGo.checkCNAMERecords dig subdomains patterns w),
          (snd (WildcardGo.checkCNAMERecords dig subdomains patterns w), performed)) /\
     (snd (fst (WildcardGo.checkCNAMERecords dig subdomains patterns w)) = None -> rest = []) /\
     (forall err,
        snd (fst (WildcardGo.checkCNAMERecords dig subdomains patterns w)) = Some err ->
        exists pre name w0,
          performed = pre ++ [name] /\
          snd (fst (WildcardGo.getCNAMERecord dig w0 name)) = Some err))
  /\
  (exists performed rest,
     subdomains = performed ++ rest /\
     StatusGo.checkCNAMERecords (logged dig) subdomains (w, [])
       = (fst (StatusGo.checkCNAMERecords dig subdomains w),
          (snd (StatusGo.checkCNAMERecords dig subdomains w), performed)) /\
     (snd (fst (StatusGo.checkCNAMERecords dig subdomains w)) = None -> rest = []) /\
     (forall err,
        snd (fst (StatusGo.checkCNAMERecords dig subdomains w)) = Some err ->
        exists pre name w0,
          performed = pre ++ [name] /\
          snd (fst (StatusGo.getCNAMERecord dig w0 name)) = Some err)).
Proof.
  split.
  - rewrite !WildcardGo_check_G.
    exact (scanLoopG_logged (WildcardGo.getCNAMERecord dig)
             (WildcardGo.getCNAMERecord (logged dig)) _
             (WildcardGo_logged_lookup dig) subdomains ∅ w []).
  - rewrite !StatusGo_check_G.
    exact (scanLoopG_logged (StatusGo.getCNAMERecord dig)
             (StatusGo.getCNAMERecord (logged dig)) _
             (StatusGo_logged_lookup dig) subdomains ∅ w []).
Qed.

Lemma X10_lookups_follow_input_witness :
  exists performed rest,
    ["shop.example.com"; "down.example.com"; "www.example.com"] = performed ++ rest /\
    WildcardGo.checkCNAMERecords (logged movingZone)
      ["shop.example.com"; "down.example.com"; "www.example.com"] ["amazonaws.com"] (0, [])
      = (fst (WildcardGo.checkCNAMERecords movingZone
                ["shop.example.com"; "down.example.com"; "www.example.com"]
                ["amazonaws.com"] 0),
         (snd (WildcardGo.checkCNAMERecords movingZone
                 ["shop.example.com"; "down.example.com"; "www.example.com"]
                 ["amazonaws.com"] 0), performed)) /\
    (snd (fst (WildcardGo.checkCNAMERecords movingZone
                 ["shop.example.com"; "down.example.com"; "www.example.com"]
                 ["amazonaws.com"] 0)) = None -> rest = []) /\
    (forall err,
       snd (fst (WildcardGo.checkCNAMERecords movingZone
                   ["shop.example.com"; "down.example.com"; "www.example.com"]
                   ["amazonaws.com"] 0)) = Some err ->
       exists pre name w0,
         performed = pre ++ [name] /\
         snd (fst (WildcardGo.getCNAMERecord movingZone w0 name)) = Some err).
Proof.
  exact (proj1 (X10_lookups_follow_input movingZone
                  ["shop.example.com"; "down.example.com"; "www.example.com"]
                  ["amazonaws.com"] 0)).
Defined.

(** The name after the one that cannot be resolved is never asked for. *)
Example lookups_stop_at_failure :
  snd (snd (WildcardGo.checkCNAMERecords (logged movingZone)
              ["shop.example.com"; "down.example.com"; "www.example.com"]
              ["amazonaws.com"] (0, [])))
  = ["shop.example.com"; "down.example.com"].
Proof. vm_compute. reflexivity. Qed.

Lemma StatusGo_record_shape (subdomain : string) (run : CmdResult) (record : StatusGo.RecordT) :
  StatusGo.getCNAMERecordOf subdomain run = (record, None) ->
  (StatusGo.Status record = "NXDOMAIN" /\ StatusGo.CNAME record = "" /\
   StatusGo.Detail record = "Status: NXDOMAIN") \/
  (StatusGo.Status record = "NO CNAME" /\ StatusGo.CNAME record = "" /\
   StatusGo.Detail record = "Status: noerror") \/
  (StatusGo.Status record = "CNAME FOUND" /\ StatusGo.CNAME record <> "" /\
   TrimSpace (StatusGo.CNAME record) = StatusGo.CNAME record /\
   StatusGo.Detail record = "Status: noerror").
Proof.
  unfold StatusGo.getCNAMERecordOf. destruct (RunErr run); [discriminate|].
  destruct (Contains (Stderr run) "status: NXDOMAIN").
  - intros H. injection H as <-. left. auto.
  - destruct (String.eqb_spec (TrimSpace (Stdout run)) "") as [E|E];
      intros H; injection H as <-; right; [left; auto|right].
    simpl. repeat split; [exact E|apply TrimSpace_idempotent].
Qed.

(** X11.  Every record in the result set of a successful scan of
    [src/unnamed/part_002] belongs to a subdomain of the input and has
    one of three shapes: status NXDOMAIN with an empty CNAME and detail
    "Status: NXDOMAIN"; status NO CNAME with an empty CNAME and detail
    "Status: noerror"; or status CNAME FOUND with a CNAME that is not
    empty and has no white space around it, and detail "Status:
    noerror".  So the CNAME is non-empty exactly when the status is
    CNAME FOUND. *)
Theorem X11_status_records_well_formed {World : Type} (dig : Resolver World)
    (subdomains : list string) (w wEnd : World)
    (results : gmap string StatusGo.RecordT) (name : string) (record : StatusGo.RecordT)
    (Hscan : StatusGo.checkCNAMERecords dig subdomains w = ((Some results, None), wEnd))
    (Hrec : results !! name = Some record) :
  In name subdomains /\
  ((StatusGo.Status record = "NXDOMAIN" /\ StatusGo.CNAME record = "" /\
    StatusGo.Detail record = "Status: NXDOMAIN") \/
   (StatusGo.Status record = "NO CNAME" /\ StatusGo.CNAME record = "" /\
    StatusGo.Detail record = "Status: noerror") \/
   (StatusGo.Status record = "CNAME FOUND" /\ StatusGo.CNAME record <> "" /\
    TrimSpace (StatusGo.CNAME record) = StatusGo.CNAME record /\
    StatusGo.Detail record = "Status: noerror"))
  /\ (StatusGo.CNAME record <> "" <-> StatusGo.Status record = "CNAME FOUND").
Proof.
  rewrite StatusGo_check_G in Hscan.
  assert (In name subdomains) as Hin.
  { apply (scanLoopG_keysAreInput _ _ _ _ _ _ Hscan name). eauto. }
  split; [exact Hin|].
  destruct (scanLoopG_answers _ _ _ _ _ _ _ Hscan name record Hrec)
    as [He|(w0 & answer & w1 & Hq & ->)].
  { rewrite lookup_empty in He. discriminate. }
  unfold StatusGo.getCNAMERecord in Hq. destruct (dig w0 name) as [run w']. 
  injection Hq as Hq _.
  pose proof (StatusGo_record_shape name run answer Hq) as Hshape.
  split; [exact Hshape|].
  destruct Hshape as [(S & C & _)|[(S & C & _)|(S & C & _)]]; rewrite S, ?C;
    split; try congruence; try discriminate.
Qed.

Lemma X11_status_records_well_formed_witness :
  StatusGo.checkCNAMERecords movingZone ["shop.example.com"; "www.example.com"] 0
    = ((Some {[ "shop.example.com" :=
                  StatusGo.mkRecord "shop.s3.amazonaws.com." "CNAME FOUND" "Status: noerror";
                "www.example.com" := StatusGo.mkRecord "" "NO CNAME" "Status: noerror" ]},
        None), 2)
  /\ In "www.example.com" ["shop.example.com"; "www.example.com"]
  /\ ("" <> "" <-> "NO CNAME" = "CNAME FOUND").
Proof.
  assert (StatusGo.checkCNAMERecords movingZone ["shop.example.com"; "www.example.com"] 0
    = ((Some {[ "shop.example.com" :=
                  StatusGo.mkRecord "shop.s3.amazonaws.com." "CNAME FOUND" "Status: noerror";
                "www.example.com" := StatusGo.mkRecord "" "NO CNAME" "Status: noerror" ]},
        None), 2)) as Hscan by (vm_compute; reflexivity).
  split; [exact Hscan|].
  destruct (X11_status_records_well_formed movingZone _ _ _ _ "www.example.com"
              (StatusGo.mkRecord "" "NO CNAME" "Status: noerror") Hscan eq_refl)
    as (Hin & _ & Hiff).
  split; [exact Hin|exact Hiff].
Defined.

Lemma WildcardGo_answer_shape (subdomain : string) (run : CmdResult) (cname : string) :
  WildcardGo.getCNAMERecordOf subdomain run = (cname, None) ->
  cname <> "" /\ TrimSpace cname = cname.
Proof.
  unfold WildcardGo.getCNAMERecordOf. destruct (RunErr run); [discriminate|].
  destruct (String.eqb_spec (TrimSpace (Stdout run)) "") as [E|E];
    intros H; injection H as <-.
  - split; [discriminate|vm_compute; reflexivity].
  - split; [exact E|apply TrimSpace_idempotent].
Qed.

Lemma MainGo_answer_shape (subdomain : string) (run : CmdResult) (cname : string) :
  MainGo.getCNAMERecordOf subdomain run = (cname, None) ->
  cname <> "" /\ TrimSpace cname = cname.
Proof.
  unfold MainGo.getCNAMERecordOf. destruct (RunErr run).
  - destruct (Contains (Stderr run) "status: NXDOMAIN"); [|discriminate].
    intros H; injection H as <-. split; [discriminate|vm_compute; reflexivity].
  - destruct (String.eqb_spec (TrimSpace (Stdout run)) "") as [E|E];
      intros H; injection H as <-.
    + split; [discriminate|vm_compute; reflexivity].
    + split; [exact E|apply TrimSpace_idempotent].
Qed.

(** X12.  In the result set of a successful scan the stored CNAME text
    is never empty and never has white space around it: in
    [src/main.go] the value stored for a name, in
    [src/unnamed/part_001] the [CNAME] of its record.  In
    [src/unnamed/part_001] the normalised form of a stored CNAME is
    therefore empty only for the no-record text and for the bare
    wildcard prefix "*.". *)
Theorem X12_stored_cname_not_blank {World : Type} (dig : Resolver World)
    (subdomains patterns : list string) (w : World) (name : string) :
  (forall results wEnd cname,
     MainGo.checkCNAMERecords dig subdomains w = ((Some results, None), wEnd) ->
     results !! name = Some cname ->
     cname <> "" /\ TrimSpace cname = cname)
  /\
  (forall results wEnd record,
     WildcardGo.checkCNAMERecords dig subdomains patterns w = ((Some results, None), wEnd) ->
     results !! name = Some record ->
     WildcardGo.CNAME record <> "" /\
     TrimSpace (WildcardGo.CNAME record) = WildcardGo.CNAME record /\
     (WildcardGo.extractWildcardDomain (WildcardGo.CNAME record) = "" <->
      WildcardGo.CNAME record = "No CNAME record" \/ WildcardGo.CNAME record = "*.")).
Proof.
  split.
  - intros results wEnd cname Hscan Hrec. rewrite MainGo_check_G in Hscan.
    destruct (scanLoopG_answers _ _ _ _ _ _ _ Hscan name cname Hrec)
      as [He|(w0 & answer & w1 & Hq & ->)].
    { rewrite lookup_empty in He. discriminate. }
    unfold MainGo.getCNAMERecord in Hq. destruct (dig w0 name) as [run w'].
    injection Hq as Hq _. exact (MainGo_answer_shape name run answer Hq).
  - intros results wEnd record Hscan Hrec. rewrite WildcardGo_check_G in Hscan.
    destruct (scanLoopG_answers _ _ _ _ _ _ _ Hscan name record Hrec)
      as [He|(w0 & answer & w1 & Hq & ->)].
    { rewrite lookup_empty in He. discriminate. }
    unfold WildcardGo.getCNAMERecord in Hq. destruct (dig w0 name) as [run w'].
    injection Hq as Hq _. simpl.
    destruct (WildcardGo_answer_shape name run answer Hq) as [Hne Htrim].
    split; [exact Hne|]. split; [exact Htrim|].
    rewrite extractWildcardDomain_empty_iff, Htrim. tauto.
Qed.

Lemma X12_stored_cname_not_blank_witness :
  WildcardGo.checkCNAMERecords (oneAnswer (answered "*.")) ["any.example.com"]
    ["amazonaws.com"] tt
    = ((Some {[ "any.example.com" := WildcardGo.mkRecord "*." false ]}, None), tt)
  /\ "*." <> ""
  /\ TrimSpace "*." = "*."
  /\ (WildcardGo.extractWildcardDomain "*." = "" <-> "*." = "No CNAME record" \/ "*." = "*.").
Proof.
  assert (WildcardGo.checkCNAMERecords (oneAnswer (answered "*.")) ["any.example.com"]
    ["amazonaws.com"] tt
    = ((Some {[ "any.example.com" := WildcardGo.mkRecord "*." false ]}, None), tt)) as Hscan
    by (vm_compute; reflexivity).
  split; [exact Hscan|].
  exact (proj2 (X12_stored_cname_not_blank (oneAnswer (answered "*.")) ["any.example.com"]
                  ["amazonaws.com"] tt "any.example.com")
           _ _ (WildcardGo.mkRecord "*." false) Hscan eq_refl).
Defined.

Section TwoStores.
Context {World A V1 V2 : Type}.
Variable query : World -> string -> (A * option string) * World.
Variable store1 : A -> V1.
Variable store2 : A -> V2.
Variable related : V1 -> V2 -> Prop.
Hypothesis stores_related : forall answer, related (store1 answer) (store2 answer).

(** Two loops that make the same lookups and differ in what they store
    for an answer end alike, with related values under the same keys. *)
Lemma scanLoopG_two_stores (l : list string) (m1 : gmap string V1) (m2 : gmap string V2)
    (w : World) :
  (forall name v1, m1 !! name = Some v1 -> exists v2, m2 !! name = Some v2 /\ related v1 v2) ->
  snd (fst (scanLoopG query store1 l m1 w)) = snd (fst (scanLoopG query store2 l m2 w)) /\
  snd (scanLoopG query store1 l m1 w) = snd (scanLoopG query store2 l m2 w) /\
  forall r1, fst (fst (scanLoopG query store1 l m1 w)) = Some r1 ->
    exists r2, fst (fst (scanLoopG query store2 l m2 w)) = Some r2 /\
      forall name v1, r1 !! name = Some v1 ->
        exists v2, r2 !! name = Some v2 /\ related v1 v2.
Proof.
  revert m1 m2 w. induction l as [|s l IH]; intros m1 m2 w Hm; simpl.
  - split; [reflexivity|]. split; [reflexivity|].
    intros r1 E. injection E as <-. exists m2. split; [reflexivity|exact Hm].
  - destruct (query w s) as [[a [err|]] w1]; simpl.
    + split; [reflexivity|]. split; [reflexivity|]. intros r1 E. discriminate.
    + apply IH. intros name v1 Hv.
      destruct (decide (s = name)) as [->|Hne].
      * rewrite lookup_insert_eq in Hv. injection Hv as <-.
        exists (store2 a). rewrite lookup_insert_eq. split; [reflexivity|apply stores_related].
      * rewrite lookup_insert_ne in Hv by exact Hne.
        rewrite lookup_insert_ne by exact Hne. apply Hm, Hv.
Qed.

End TwoStores.

(** X13.  On the same input, fingerprints and resolver, started from the
    same state, the scans of [src/unnamed/part_000] and
    [src/unnamed/part_001] make the same lookups: they end in the same
    resolver state with the same error, and when they succeed every
    subdomain has in both result sets a record with the same CNAME; a
    subdomain flagged vulnerable by [src/unnamed/part_001] is flagged
    vulnerable by [src/unnamed/part_000] too. *)
Theorem X13_wildcard_scan_refines_pattern_scan {World : Type} (dig : Resolver World)
    (subdomains patterns : list string) (w : World) :
  snd (fst (WildcardGo.checkCNAMERecords dig subdomains patterns w))
    = snd (fst (PatternGo.checkCNAMERecords dig subdomains patterns w))
  /\ snd (WildcardGo.checkCNAMERecords dig subdomains patterns w)
     = snd (PatternGo.checkCNAMERecords dig subdomains patterns w)
  /\ forall results,
       fst (fst (WildcardGo.checkCNAMERecords dig subdomains patterns w)) = Some results ->
       exists results0,
         fst (fst (PatternGo.checkCNAMERecords dig subdomains patterns w)) = Some results0 /\
         forall name record, results !! name = Some record ->
           exists record0,
             results0 !! name = Some record0 /\
             PatternGo.CNAME record0 = WildcardGo.CNAME record /\
             (WildcardGo.IsVulnerable record = true -> PatternGo.IsVulnerable record0 = true).
Proof.
  rewrite WildcardGo_check_G, PatternGo_check_G.
  change (PatternGo.getCNAMERecord dig) with (WildcardGo.getCNAMERecord dig).
  apply (scanLoopG_two_stores (WildcardGo.getCNAMERecord dig) _ _
           (fun (r : WildcardGo.RecordT) (r0 : PatternGo.RecordT) =>
              PatternGo.CNAME r0 = WildcardGo.CNAME r /\
              (WildcardGo.IsVulnerable r = true -> PatternGo.IsVulnerable r0 = true))).
  - intros cname. simpl. split; [reflexivity|apply normalized_match_is_raw_match].
  - intros name v1 H. rewrite lookup_empty in H. discriminate.
Qed.

(** ** The programs from their arguments to their output *)

Lemma keys_size {V : Type} (results : gmap string V) (subdomains : list string) :
  (forall name, is_Some (results !! name) <-> In name subdomains) ->
  size results = size (list_to_set subdomains : gset string).
Proof.
  intros H. rewrite <- (size_dom (D := gset string)). f_equal.
  apply set_eq. intros name.
  rewrite elem_of_dom, elem_of_list_to_set, list_elem_of_In. apply H.
Qed.

Lemma MainGo_rangePrint_spec (entries : list (string * string)) (printed : list string) :
  MainGo.rangePrint entries printed
  = printed ++ List.map (fun e => ("Subdomain: " ++ fst e ++ ", CNAME: " ++ snd e
                                     ++ lineFeed)%string) entries.
Proof.
  revert printed. induction entries as [|[name cname] entries IH]; intros printed; simpl.
  - rewrite app_nil_r. reflexivity.
  - rewrite IH, <- app_assoc. reflexivity.
Qed.

Lemma StatusGo_rangePrint_spec (entries : list (string * StatusGo.RecordT))
    (printed : list string) :
  StatusGo.rangePrint entries printed
  = printed ++ List.map (fun e => ("Subdomain: " ++ fst e ++ ", CNAME: "
                                     ++ StatusGo.CNAME (snd e)
                                     ++ ", STATUS: " ++ StatusGo.Status (snd e)
                                     ++ ", Detail: " ++ StatusGo.Detail (snd e)
                                     ++ lineFeed)%string) entries.
Proof.
  revert printed. induction entries as [|[name record] entries IH]; intros printed; simpl.
  - rewrite app_nil_r. reflexivity.
  - rewrite IH, <- app_assoc. reflexivity.
Qed.

Lemma PatternGo_rangePrint_spec (entries : list (string * PatternGo.RecordT))
    (printed : list string) :
  PatternGo.rangePrint entries printed
  = printed ++ List.map (fun e => ("Subdomain: " ++ fst e ++ ", CNAME: "
                                     ++ PatternGo.CNAME (snd e) ++ ", Vulnerable: "
                                     ++ (if PatternGo.IsVulnerable (snd e) then "Yes" else "No")
                                     ++ lineFeed)%string) entries.
Proof.
  revert printed. induction entries as [|[name record] entries IH]; intros printed; simpl.
  - rewrite app_nil_r. reflexivity.
  - rewrite IH, <- app_assoc. reflexivity.
Qed.

Lemma printed_once_each {V : Type} (order : RangeOrder V) (line : string * V -> string)
    (results : gmap string V) (subdomains : list string) :
  validRange order ->
  (forall name, is_Some (results !! name) <-> In name subdomains) ->
  Permutation (List.map line (order results)) (List.map line (map_to_list results)) /\
  length (List.map line (order results)) = size (list_to_set subdomains : gset string).
Proof.
  intros Hord Hkeys. split; [apply Permutation_map, Hord|].
  rewrite length_map, (Permutation_length (Hord results)), length_map_to_list.
  apply keys_size, Hkeys.
Qed.

Lemma lineFeeds_joinAll_ones (texts : list string) :
  (forall text, In text texts -> lineFeeds text = 1) ->
  lineFeeds (joinAll texts) = length texts.
Proof.
  induction texts as [|text texts IH]; intros H; [reflexivity|].
  simpl. rewrite lineFeeds_append, (H text (or_introl eq_refl)), IH; [reflexivity|].
  intros t Hin. apply H. right. exact Hin.
Qed.

(** What was printed for a map: every text is the text of an entry of
    the map, with the line feeds of the entry's strings and one more;
    when no string of the map holds a line feed, the texts are as many
    lines as the file lists distinct subdomains. *)
Lemma printed_texts {V : Type} (order : RangeOrder V) (line : string * V -> string)
    (inner : string * V -> nat) (results : gmap string V) (subdomains : list string) :
  validRange order ->
  (forall name, is_Some (results !! name) <-> In name subdomains) ->
  (forall e, lineFeeds (line e) = inner e + 1) ->
  (forall text, In text (List.map line (order results)) ->
     exists name v, results !! name = Some v /\ text = line (name, v) /\
                    lineFeeds text = inner (name, v) + 1) /\
  ((forall name v, results !! name = Some v -> inner (name, v) = 0) ->
   lineFeeds (joinAll (List.map line (order results)))
   = size (list_to_set subdomains : gset string)).
Proof.
  intros Hord Hkeys Hline.
  assert (forall text, In text (List.map line (order results)) ->
            exists name v, results !! name = Some v /\ text = line (name, v)) as Hin.
  { intros text H. apply in_map_iff in H as ([name v] & <- & H).
    apply (Permutation_in _ (Hord results)) in H.
    apply list_elem_of_In, elem_of_map_to_list in H. eauto. }
  split.
  - intros text H. destruct (Hin text H) as (name & v & Hv & ->).
    exists name, v. split; [exact Hv|]. split; [reflexivity|apply Hline].
  - intros Hnone. rewrite lineFeeds_joinAll_ones.
    + apply (printed_once_each order line results subdomains Hord Hkeys).
    + intros text H. destruct (Hin text H) as (name & v & Hv & ->).
      rewrite Hline, (Hnone name v Hv). reflexivity.
Qed.

(** X14.  Given at least two arguments after the program name, two
    readable files and a scan that succeeds, [main] of
    [src/unnamed/part_000] ends normally and prints, in some order, one
    text for every record of the result set, ending in "Vulnerable: Yes"
    for a vulnerable record and in "Vulnerable: No" otherwise: as many
    texts as there are distinct subdomains in the file, a subdomain
    listed twice being reported once.  A text ends in a line feed and
    holds besides the line feeds of the name and of the CNAME value,
    which [getCNAMERecord] does not remove from inside an answer: when
    no name and no value of the result set holds a line feed, the
    output is as many lines as there are distinct subdomains. *)
Theorem X14_pattern_main_output {World : Type} (fs : FileSystem) (dig : Resolver World)
    (order : RangeOrder PatternGo.RecordT) (Hord : validRange order)
    (program subdomainsFile patternsFile : string) (extra subdomains patterns : list string)
    (w wEnd : World) (results : gmap string PatternGo.RecordT)
    (Hsub : readLinesFromFile fs subdomainsFile = (subdomains, None))
    (Hpat : readLinesFromFile fs patternsFile = (patterns, None))
    (Hscan : PatternGo.checkCNAMERecords dig subdomains patterns w
               = ((Some results, None), wEnd)) :
  exists output,
    PatternGo.main fs dig order (program :: subdomainsFile :: patternsFile :: extra) w
      = Finished output /\
    Permutation output
      (List.map (fun e => ("Subdomain: " ++ fst e ++ ", CNAME: " ++ PatternGo.CNAME (snd e)
                             ++ ", Vulnerable: "
                             ++ (if PatternGo.IsVulnerable (snd e) then "Yes" else "No")
                             ++ lineFeed)%string) (map_to_list results)) /\
    length output = size (list_to_set subdomains : gset string) /\
    (forall text, In text output ->
       exists name record,
         results !! name = Some record /\
         text = ("Subdomain: " ++ name ++ ", CNAME: " ++ PatternGo.CNAME record
                   ++ ", Vulnerable: "
                   ++ (if PatternGo.IsVulnerable record then "Yes" else "No")
                   ++ lineFeed)%string /\
         lineFeeds text = lineFeeds name + lineFeeds (PatternGo.CNAME record) + 1) /\
    ((forall name record, results !! name = Some record ->
        lineFeeds name = 0 /\ lineFeeds (PatternGo.CNAME record) = 0) ->
     lineFeeds (joinAll output) = size (list_to_set subdomains : gset string)).
Proof.
  unfold PatternGo.main. rewrite Hsub, Hpat, Hscan.
  eexists. split; [reflexivity|].
  rewrite PatternGo_rangePrint_spec. simpl.
  rewrite PatternGo_check_G in Hscan.
  pose proof (scanLoopG_keysAreInput _ _ _ _ _ _ Hscan) as Hkeys.
  pose (line := fun e : string * PatternGo.RecordT =>
                  ("Subdomain: " ++ fst e ++ ", CNAME: " ++ PatternGo.CNAME (snd e)
                     ++ ", Vulnerable: "
                     ++ (if PatternGo.IsVulnerable (snd e) then "Yes" else "No")
                     ++ lineFeed)%string).
  destruct (printed_once_each order line results subdomains Hord Hkeys) as [HP HL].
  split; [exact HP|]. split; [exact HL|].
  destruct (printed_texts order line
              (fun e => lineFeeds (fst e) + lineFeeds (PatternGo.CNAME (snd e)))
              results subdomains Hord Hkeys) as [HT HN].
  { intros [name record]. simpl. destruct (PatternGo.IsVulnerable record); unfold lineFeed; rewrite !lineFeeds_append; simpl; lia. }
  split; [exact HT|].
  intros Hnone. apply HN. intros name record Hrec.
  destruct (Hnone name record Hrec) as [H1 H2]. simpl. lia.
Qed.

(** X15.  Given an argument after the program name, a readable file and
    a scan that succeeds, [main] of [src/main.go] and [main] of
    [src/unnamed/part_002] end normally and print, in some order, one
    text for every entry of the result set: as many texts as there are
    distinct subdomains in the file.  A text ends in a line feed and
    holds besides the line feeds of the strings it is made of (the name
    and the CNAME value; in [part_002] also the status and the detail):
    when none of these holds a line feed, the output is as many lines
    as there are distinct subdomains. *)
Theorem X15_plain_mains_output {World : Type} (fs : FileSystem) (dig : Resolver World)
    (program filename : string) (extra subdomains : list string) (w : World)
    (Hsub : readLinesFromFile fs filename = (subdomains, None)) :
  (forall (order : RangeOrder string) results wEnd,
     validRange order ->
     MainGo.checkCNAMERecords dig subdomains w = ((Some results, None), wEnd) ->
     exists output,
       MainGo.main fs dig order (program :: filename :: extra) w = Finished output /\
       Permutation output
         (List.map (fun e => ("Subdomain: " ++ fst e ++ ", CNAME: " ++ snd e
                                ++ lineFeed)%string) (map_to_list results)) /\
       length output = size (list_to_set subdomains : gset string) /\
       (forall text, In text output ->
          exists name cname,
            results !! name = Some cname /\
            text = ("Subdomain: " ++ name ++ ", CNAME: " ++ cname ++ lineFeed)%string /\
            lineFeeds text = lineFeeds name + lineFeeds cname + 1) /\
       ((forall name cname, results !! name = Some cname ->
           lineFeeds name = 0 /\ lineFeeds cname = 0) ->
        lineFeeds (joinAll output) = size (list_to_set subdomains : gset string)))
  /\
  (forall (order : RangeOrder StatusGo.RecordT) results wEnd,
     validRange order ->
     StatusGo.checkCNAMERecords dig subdomains w = ((Some results, None), wEnd) ->
     exists output,
       StatusGo.main fs dig order (program :: filename :: extra) w = Finished output /\
       Permutation output
         (List.map (fun e => ("Subdomain: " ++ fst e ++ ", CNAME: "
                                ++ StatusGo.CNAME (snd e)
                                ++ ", STATUS: " ++ StatusGo.Status (snd e)
                                ++ ", Detail: " ++ StatusGo.Detail (snd e)
                                ++ lineFeed)%string) (map_to_list results)) /\
       length output = size (list_to_set subdomains : gset string) /\
       (forall text, In text output ->
          exists name record,
            results !! name = Some record /\
            text = ("Subdomain: " ++ name ++ ", CNAME: " ++ StatusGo.CNAME record
                      ++ ", STATUS: " ++ StatusGo.Status record
                      ++ ", Detail: " ++ StatusGo.Detail record ++ lineFeed)%string /\
            lineFeeds text
            = lineFeeds name + lineFeeds (StatusGo.CNAME record)
              + lineFeeds (StatusGo.Status record) + lineFeeds (StatusGo.Detail record) + 1) /\
       ((forall name record, results !! name = Some record ->
           lineFeeds name = 0 /\ lineFeeds (StatusGo.CNAME record) = 0 /\
           lineFeeds (StatusGo.Status record) = 0 /\ lineFeeds (StatusGo.Detail record) = 0) ->
        lineFeeds (joinAll output) = size (list_to_set subdomains : gset string))).
Proof.
  split; intros order results wEnd Hord Hscan.
  - unfold MainGo.main. rewrite Hsub, Hscan.
    eexists. split; [reflexivity|].
    rewrite MainGo_rangePrint_spec. simpl.
    rewrite MainGo_check_G in Hscan.
    pose proof (scanLoopG_keysAreInput _ _ _ _ _ _ Hscan) as Hkeys.
    pose (line := fun e : string * string =>
                    ("Subdomain: " ++ fst e ++ ", CNAME: " ++ snd e ++ lineFeed)%string).
    destruct (printed_once_each order line results subdomains Hord Hkeys) as [HP HL].
    split; [exact HP|]. split; [exact HL|].
    destruct (printed_texts order line
                (fun e => lineFeeds (fst e) + lineFeeds (snd e))
                results subdomains Hord Hkeys) as [HT HN].
    { intros [name cname]. simpl. unfold lineFeed; rewrite !lineFeeds_append; simpl; lia. }
    split; [exact HT|].
    intros Hnone. apply HN. intros name cname Hrec.
    destruct (Hnone name cname Hrec) as [H1 H2]. simpl. lia.
  - unfold StatusGo.main. rewrite Hsub, Hscan.
    eexists. split; [reflexivity|].
    rewrite StatusGo_rangePrint_spec. simpl.
    rewrite StatusGo_check_G in Hscan.
    pose proof (scanLoopG_keysAreInput _ _ _ _ _ _ Hscan) as Hkeys.
    pose (line := fun e : string * StatusGo.RecordT =>
                    ("Subdomain: " ++ fst e ++ ", CNAME: " ++ StatusGo.CNAME (snd e)
                             ++ ", STATUS: " ++ StatusGo.Status (snd e)
                             ++ ", Detail: " ++ StatusGo.Detail (snd e) ++ lineFeed)%string).
    destruct (printed_once_each order line results subdomains Hord Hkeys) as [HP HL].
    split; [exact HP|]. split; [exact HL|].
    destruct (printed_texts order line
                (fun e => lineFeeds (fst e) + lineFeeds (StatusGo.CNAME (snd e))
                          + lineFeeds (StatusGo.Status (snd e))
                          + lineFeeds (StatusGo.Detail (snd e)))
                results subdomains Hord Hkeys) as [HT HN].
    { intros [name record]. simpl. unfold lineFeed; rewrite !lineFeeds_append; simpl; lia. }
    split; [exact HT|].
    intros Hnone. apply HN. intros name record Hrec.
    destruct (Hnone name record Hrec) as (H1 & H2 & H3 & H4). simpl. lia.
Qed.

Lemma X14_pattern_main_output_witness :
  validRange (fun results : gmap string PatternGo.RecordT => map_to_list results) /\
  readLinesFromFile demoFiles "subdomains.txt"
    = (["shop.example.com"; "www.example.com"; "shop.example.com"], None) /\
  readLinesFromFile demoFiles "patterns.txt" = (["amazonaws.com"; "herokuapp.com"], None) /\
  PatternGo.checkCNAMERecords movingZone
    ["shop.example.com"; "www.example.com"; "shop.example.com"]
    ["amazonaws.com"; "herokuapp.com"] 0
  = ((Some {[ "shop.example.com" := PatternGo.mkRecord "www.example.com." false;
              "www.example.com" := PatternGo.mkRecord "No CNAME record" false ]}, None), 3) /\
  exists output,
    PatternGo.main demoFiles movingZone (fun results => map_to_list results)
      ["digcname"; "subdomains.txt"; "patterns.txt"] 0 = Finished output /\
    length output = 2 /\ lineFeeds (joinAll output) = 2.
Proof.
  assert (validRange (fun results : gmap string PatternGo.RecordT => map_to_list results))
    as Hord by (intros results; reflexivity).
  assert (readLinesFromFile demoFiles "subdomains.txt"
    = (["shop.example.com"; "www.example.com"; "shop.example.com"], None)) as Hsub
    by (vm_compute; reflexivity).
  assert (readLinesFromFile demoFiles "patterns.txt"
    = (["amazonaws.com"; "herokuapp.com"], None)) as Hpat by (vm_compute; reflexivity).
  assert (PatternGo.checkCNAMERecords movingZone
            ["shop.example.com"; "www.example.com"; "shop.example.com"]
            ["amazonaws.com"; "herokuapp.com"] 0
          = ((Some {[ "shop.example.com" := PatternGo.mkRecord "www.example.com." false;
                      "www.example.com" := PatternGo.mkRecord "No CNAME record" false ]},
              None), 3)) as Hscan by (vm_compute; reflexivity).
  split; [exact Hord|]. split; [exact Hsub|]. split; [exact Hpat|]. split; [exact Hscan|].
  destruct (X14_pattern_main_output demoFiles movingZone _ Hord "digcname" "subdomains.txt"
              "patterns.txt" [] _ _ 0 3 _ Hsub Hpat Hscan)
    as (output & Hmain & _ & Hlen & _ & Hlines).
  exists output. split; [exact Hmain|]. split; [exact Hlen|].
  rewrite Hlines; [vm_compute; reflexivity|].
  intros name record Hrec.
  destruct (decide (name = "shop.example.com")) as [->|H1].
  { vm_compute in Hrec. injection Hrec as <-. split; reflexivity. }
  destruct (decide (name = "www.example.com")) as [->|H2].
  { vm_compute in Hrec. injection Hrec as <-. split; reflexivity. }
  rewrite lookup_insert_ne, lookup_singleton_ne in Hrec by congruence. discriminate.
Defined.

Lemma X15_plain_mains_output_witness :
  readLinesFromFile demoFiles "subdomains.txt"
    = (["shop.example.com"; "www.example.com"; "shop.example.com"], None) /\
  (exists output,
     MainGo.main demoFiles movingZone (fun results => map_to_list results)
       ["digcname"; "subdomains.txt"] 0 = Finished output /\
     Permutation output
       (List.map (fun e => ("Subdomain: " ++ fst e ++ ", CNAME: " ++ snd e
                              ++ lineFeed)%string)
          (map_to_list ({[ "shop.example.com" := "www.example.com.";
                           "www.example.com" := "No CNAME record" ]}
                         : gmap string string))) /\
     length output = 2) /\
  (exists output,
     StatusGo.main demoFiles movingZone (fun results => map_to_list results)
       ["digcname"; "subdomains.txt"] 0 = Finished output /\
     Permutation output
       (List.map (fun e => ("Subdomain: " ++ fst e ++ ", CNAME: "
                              ++ StatusGo.CNAME (snd e)
                              ++ ", STATUS: " ++ StatusGo.Status (snd e)
                              ++ ", Detail: " ++ StatusGo.Detail (snd e)
                              ++ lineFeed)%string)
          (map_to_list ({[ "shop.example.com" :=
                             StatusGo.mkRecord "www.example.com." "CNAME FOUND" "Status: noerror";
                           "www.example.com" :=
                             StatusGo.mkRecord "" "NO CNAME" "Status: noerror" ]}
                         : gmap string StatusGo.RecordT))) /\
     length output = 2).
Proof.
  assert (readLinesFromFile demoFiles "subdomains.txt"
    = (["shop.example.com"; "www.example.com"; "shop.example.com"], None)) as Hsub
    by (vm_compute; reflexivity).
  destruct (X15_plain_mains_output demoFiles movingZone "digcname" "subdomains.txt" []
              _ 0 Hsub) as [Hplain Hstatus].
  split; [exact Hsub|]. split.
  - destruct (Hplain (fun results => map_to_list results)
                {[ "shop.example.com" := "www.example.com.";
                   "www.example.com" := "No CNAME record" ]} 3)
      as (output & Hmain & HP & Hlen & _); [intros results; reflexivity|vm_compute; reflexivity|].
    exists output. split; [exact Hmain|]. split; [exact HP|]. rewrite Hlen.
    vm_compute. reflexivity.
  - destruct (Hstatus (fun results => map_to_list results)
                {[ "shop.example.com" :=
                     StatusGo.mkRecord "www.example.com." "CNAME FOUND" "Status: noerror";
                   "www.example.com" := StatusGo.mkRecord "" "NO CNAME" "Status: noerror" ]} 3)
      as (output & Hmain & HP & Hlen & _); [intros results; reflexivity|vm_compute; reflexivity|].
    exists output. split; [exact Hmain|]. split; [exact HP|]. rewrite Hlen.
    vm_compute. reflexivity.
Defined.

(** A [dig] answer of two lines is printed as one text of two lines:
    [main] of [src/main.go] prints two texts and three lines for the two
    subdomains. *)
Example two_line_answer_printed :
  MainGo.main pairFiles twoLineZone (fun results => map_to_list results)
    ["digcname"; "pair.txt"] tt
  = Finished
      [("Subdomain: www.example.com, CNAME: No CNAME record" ++ lineFeed)%string;
       ("Subdomain: shop.example.com, CNAME: one.s3.amazonaws.com." ++ lineFeed
          ++ "two.s3.amazonaws.com." ++ lineFeed)%string]
  \/
  MainGo.main pairFiles twoLineZone (fun results => map_to_list results)
    ["digcname"; "pair.txt"] tt
  = Finished
      [("Subdomain: shop.example.com, CNAME: one.s3.amazonaws.com." ++ lineFeed
          ++ "two.s3.amazonaws.com." ++ lineFeed)%string;
       ("Subdomain: www.example.com, CNAME: No CNAME record" ++ lineFeed)%string].
Proof. first [left; vm_compute; reflexivity | right; vm_compute; reflexivity]. Qed.

(** The duplicate line of the file costs a lookup and leaves one text. *)
Example pattern_main_demo :
  PatternGo.main demoFiles movingZone (fun results => map_to_list results)
    ["digcname"; "subdomains.txt"; "patterns.txt"] 0
  = Finished
      [("Subdomain: shop.example.com, CNAME: www.example.com., Vulnerable: No" ++ lineFeed)%string;
       ("Subdomain: www.example.com, CNAME: No CNAME record, Vulnerable: No" ++ lineFeed)%string]
  \/
  PatternGo.main demoFiles movingZone (fun results => map_to_list results)
    ["digcname"; "subdomains.txt"; "patterns.txt"] 0
  = Finished
      [("Subdomain: www.example.com, CNAME: No CNAME record, Vulnerable: No" ++ lineFeed)%string;
       ("Subdomain: shop.example.com, CNAME: www.example.com., Vulnerable: No" ++ lineFeed)%string].
Proof. first [left; vm_compute; reflexivity | right; vm_compute; reflexivity]. Qed.

(** *** The result file, whatever the disk does *)














(** A text that does not fit the buffer is written to the file at once:
    on a full disk that [Fprintf] fails and [main] ends with the error,
    the file empty.  On a disk that takes every write the file holds the
    two texts. *)
Example report_write_fails :
  WildcardGo.main pairFiles fullDisk longZone forwardOrder
    ["digcname"; "pair.txt"; "patterns.txt"; "report.txt"] tt
  = (Fatal "Failed to write to result file: write report.txt: no space left on device",
     Some "")
  /\ (exists content,
        WildcardGo.main pairFiles goodDisk longZone forwardOrder
          ["digcname"; "pair.txt"; "patterns.txt"; "report.txt"] tt
        = (Finished [], Some content) /\
        lineFeeds content = 2).
Proof.
  split; [vm_compute; reflexivity|].
  eexists. split; vm_compute; reflexivity.
Qed.

(** X17.  When a scan returns an error, the error names the subdomain at
    fault: the input splits into subdomains whose lookups succeeded, the
    subdomain whose [dig] run failed, and the rest, and the message is
    "error executing dig command for <subdomain>: <error of the run>".
    In [src/main.go] that run's standard error moreover does not contain
    "status: NXDOMAIN".  For [src/unnamed/part_001] and [src/main.go]. *)
Theorem X17_scan_error_names_subdomain {World : Type} (dig : Resolver World)
    (subdomains patterns : list string) (w : World) :
  (forall message wEnd,
     WildcardGo.checkCNAMERecords dig subdomains patterns w = ((None, Some message), wEnd) ->
     exists pre sub post mPre wPre run err,
       subdomains = pre ++ sub :: post /\
       WildcardGo.checkCNAMERecords dig pre patterns w = ((Some mPre, None), wPre) /\
       dig wPre sub = (run, wEnd) /\
       RunErr run = Some err /\
       message = ("error executing dig command for " ++ sub ++ ": " ++ err)%string)
  /\
  (forall message wEnd,
     MainGo.checkCNAMERecords dig subdomains w = ((None, Some message), wEnd) ->
     exists pre sub post mPre wPre run err,
       subdomains = pre ++ sub :: post /\
       MainGo.checkCNAMERecords dig pre w = ((Some mPre, None), wPre) /\
       dig wPre sub = (run, wEnd) /\
       RunErr run = Some err /\
       ~ IsSubstring "status: NXDOMAIN" (Stderr run) /\
       message = ("error executing dig command for " ++ sub ++ ": " ++ err)%string).
Proof.
  split; intros message wEnd Hfail.
  - unfold WildcardGo.checkCNAMERecords in *. rewrite WildcardGo_scan in Hfail.
    destruct (scanLoop_cases (WildcardGo.getCNAMERecord dig)
                (fun cname => WildcardGo.mkRecord cname
                   (WildcardGo.matchesAnyPattern (WildcardGo.extractWildcardDomain cname)
                      patterns)) subdomains ∅ w)
      as [(r & w' & E)|(pre & sub & post & mPre & wPre & c & e & wPost & -> & Hpre & Hq & Hall)].
    { rewrite E in Hfail. discriminate. }
    rewrite Hall in Hfail. injection Hfail as -> ->.
    unfold WildcardGo.getCNAMERecord in Hq. destruct (dig wPre sub) as [run w'] eqn:D.
    injection Hq as Hq ->. unfold WildcardGo.getCNAMERecordOf in Hq.
    destruct (RunErr run) as [err|] eqn:R.
    + injection Hq as _ <-. exists pre, sub, post, mPre, wPre, run, err.
      rewrite WildcardGo_scan. auto.
    + destruct (String.eqb (TrimSpace (Stdout run)) ""); discriminate.
  - unfold MainGo.checkCNAMERecords in *. rewrite MainGo_scan in Hfail.
    destruct (scanLoop_cases (MainGo.getCNAMERecord dig) (fun cname => cname) subdomains ∅ w)
      as [(r & w' & E)|(pre & sub & post & mPre & wPre & c & e & wPost & -> & Hpre & Hq & Hall)].
    { rewrite E in Hfail. discriminate. }
    rewrite Hall in Hfail. injection Hfail as -> ->.
    unfold MainGo.getCNAMERecord in Hq. destruct (dig wPre sub) as [run w'] eqn:D.
    injection Hq as Hq ->. unfold MainGo.getCNAMERecordOf in Hq.
    destruct (RunErr run) as [err|] eqn:R.
    + destruct (Contains (Stderr run) "status: NXDOMAIN") eqn:M; [discriminate|].
      injection Hq as _ <-. exists pre, sub, post, mPre, wPre, run, err.
      rewrite MainGo_scan. apply Contains_false in M. auto 10.
    + destruct (String.eqb (TrimSpace (Stdout run)) ""); discriminate.
Qed.

Lemma X17_scan_error_names_subdomain_witness :
  WildcardGo.checkCNAMERecords movingZone
    ["shop.example.com"; "down.example.com"; "www.example.com"] ["amazonaws.com"] 0
    = ((None, Some "error executing dig command for down.example.com: exit status 9"), 2)
  /\ exists pre sub post mPre wPre run err,
       ["shop.example.com"; "down.example.com"; "www.example.com"] = pre ++ sub :: post /\
       WildcardGo.checkCNAMERecords movingZone pre ["amazonaws.com"] 0
         = ((Some mPre, None), wPre) /\
       movingZone wPre sub = (run, 2) /\
       RunErr run = Some err /\
       "error executing dig command for down.example.com: exit status 9"
         = ("error executing dig command for " ++ sub ++ ": " ++ err)%string.
Proof.
  assert (WildcardGo.checkCNAMERecords movingZone
    ["shop.example.com"; "down.example.com"; "www.example.com"] ["amazonaws.com"] 0
    = ((None, Some "error executing dig command for down.example.com: exit status 9"), 2))
    as Hfail by (vm_compute; reflexivity).
  split; [exact Hfail|].
  exact (proj1 (X17_scan_error_names_subdomain movingZone
                  ["shop.example.com"; "down.example.com"; "www.example.com"]
                  ["amazonaws.com"] 0) _ _ Hfail).
Defined.

(** X18.  The lookups of the programs differ only in what they make of
    the marker "status: NXDOMAIN" on the standard error: on every run
    whose standard error does not contain it, the lookups of
    [src/main.go], [src/unnamed/part_000] and [src/unnamed/part_001]
    return the same text and the same error, and the lookup of
    [src/unnamed/part_002] returns that same error and a record whose
    CNAME is that text, except that it leaves the CNAME empty where the
    others return the no-record text. *)
Theorem X18_lookups_agree_without_marker (subdomain : string) (run : CmdResult)
    (Hmark : ~ IsSubstring "status: NXDOMAIN" (Stderr run)) :
  MainGo.getCNAMERecordOf subdomain run = WildcardGo.getCNAMERecordOf subdomain run
  /\ PatternGo.getCNAMERecordOf subdomain run = WildcardGo.getCNAMERecordOf subdomain run
  /\ snd (StatusGo.getCNAMERecordOf subdomain run)
     = snd (WildcardGo.getCNAMERecordOf subdomain run)
  /\ (snd (WildcardGo.getCNAMERecordOf subdomain run) = None ->
      StatusGo.CNAME (fst (StatusGo.getCNAMERecordOf subdomain run))
      = if String.eqb (TrimSpace (Stdout run)) "" then ""
        else fst (WildcardGo.getCNAMERecordOf subdomain run)).
Proof.
  apply Contains_false in Hmark.
  unfold MainGo.getCNAMERecordOf, PatternGo.getCNAMERecordOf, WildcardGo.getCNAMERecordOf,
    StatusGo.getCNAMERecordOf.
  rewrite Hmark. destruct (RunErr run).
  - repeat split. discriminate.
  - destruct (String.eqb (TrimSpace (Stdout run)) ""); repeat split.
Qed.

Lemma X18_lookups_agree_without_marker_witness :
  ~ IsSubstring "status: NXDOMAIN" (Stderr (answered "target.example.net."))
  /\ MainGo.getCNAMERecordOf "a.example.com" (answered "target.example.net.")
     = WildcardGo.getCNAMERecordOf "a.example.com" (answered "target.example.net.").
Proof.
  assert (~ IsSubstring "status: NXDOMAIN" (Stderr (answered "target.example.net.")))
    as Hmark by (apply Contains_false; vm_compute; reflexivity).
  split; [exact Hmark|].
  exact (proj1 (X18_lookups_agree_without_marker "a.example.com"
                  (answered "target.example.net.") Hmark)).
Defined.

Lemma FixedFileGo_scan {World} (dig : Resolver World) (l : list string)
    (m : gmap string string) (w : World) :
  FixedFileGo.rangeSubdomains dig l m w
  = scanLoopG (FixedFileGo.getCNAMERecord dig) (fun cname => cname) l m w.
Proof.
  revert m w. induction l as [|s l IH]; intros m w; simpl; [reflexivity|].
  destruct (FixedFileGo.getCNAMERecord dig w s) as [[a [err|]] w']; [reflexivity|]. apply IH.
Qed.

Lemma FixedFileGo_rangePrint_spec (entries : list (string * string)) (printed : list string) :
  FixedFileGo.rangePrint entries printed
  = printed ++ List.map (fun e => ("Subdomain: " ++ fst e ++ ", CNAME: " ++ snd e
                                     ++ lineFeed)%string) entries.
Proof.
  revert printed. induction entries as [|[name cname] entries IH]; intros printed; simpl.
  - rewrite app_nil_r. reflexivity.
  - rewrite IH, <- app_assoc. reflexivity.
Qed.

Lemma FixedFileGo_success_in_MainGo {World} (dig : Resolver World) (l : list string)
    (m results : gmap string string) (w wEnd : World) :
  FixedFileGo.rangeSubdomains dig l m w = ((Some results, None), wEnd) ->
  MainGo.rangeSubdomains dig l m w = ((Some results, None), wEnd).
Proof.
  revert m w. induction l as [|s l IH]; intros m w H; simpl in *; [exact H|].
  unfold FixedFileGo.getCNAMERecord, MainGo.getCNAMERecord in *.
  destruct (dig w s) as [run w1].
  unfold FixedFileGo.getCNAMERecordOf, MainGo.getCNAMERecordOf in *.
  destruct (RunErr run); [discriminate|].
  destruct (String.eqb (TrimSpace (Stdout run)) ""); apply IH, H.
Qed.

(** X19.  The second program of [src/main.go] takes no argument and
    reads [subdomains.txt].  When that file is readable and its scan
    succeeds, the scan of the first program of [src/main.go] on the same
    input succeeds with the same map and resolver state (the first
    program differs only on failed runs), and [main] ends normally
    having printed, in some order, one text "Subdomain: <name>, CNAME:
    <cname>" and a line feed per entry of the map: as many texts as
    there are distinct subdomains in the file.  A text holds besides its
    last line feed those of the name and of the CNAME value: when no
    name and no value of the map holds a line feed, the output is as
    many lines as there are distinct subdomains. *)
Theorem X19_second_program_output {World : Type} (fs : FileSystem) (dig : Resolver World)
    (order : RangeOrder string) (Hord : validRange order)
    (subdomains : list string) (w wEnd : World) (results : gmap string string)
    (Hsub : readLinesFromFile fs "subdomains.txt" = (subdomains, None))
    (Hscan : FixedFileGo.checkCNAMERecords dig subdomains w = ((Some results, None), wEnd)) :
  MainGo.checkCNAMERecords dig subdomains w = ((Some results, None), wEnd)
  /\ exists output,
       FixedFileGo.main fs dig order w = Finished output /\
       Permutation output
         (List.map (fun e => ("Subdomain: " ++ fst e ++ ", CNAME: " ++ snd e
                                ++ lineFeed)%string) (map_to_list results)) /\
       length output = size (list_to_set subdomains : gset string) /\
       (forall text, In text output ->
          exists name cname,
            results !! name = Some cname /\
            text = ("Subdomain: " ++ name ++ ", CNAME: " ++ cname ++ lineFeed)%string /\
            lineFeeds text = lineFeeds name + lineFeeds cname + 1) /\
       ((forall name cname, results !! name = Some cname ->
           lineFeeds name = 0 /\ lineFeeds cname = 0) ->
        lineFeeds (joinAll output) = size (list_to_set subdomains : gset string)).
Proof.
  split; [exact (FixedFileGo_success_in_MainGo dig _ _ _ _ _ Hscan)|].
  unfold FixedFileGo.main. rewrite Hsub, Hscan.
  eexists. split; [reflexivity|].
  rewrite FixedFileGo_rangePrint_spec. simpl.
  unfold FixedFileGo.checkCNAMERecords in Hscan. rewrite FixedFileGo_scan in Hscan.
  pose proof (scanLoopG_keysAreInput _ _ _ _ _ _ Hscan) as Hkeys.
  pose (line := fun e : string * string =>
                  ("Subdomain: " ++ fst e ++ ", CNAME: " ++ snd e ++ lineFeed)%string).
  destruct (printed_once_each order line results subdomains Hord Hkeys) as [HP HL].
  split; [exact HP|]. split; [exact HL|].
  destruct (printed_texts order line (fun e => lineFeeds (fst e) + lineFeeds (snd e))
              results subdomains Hord Hkeys) as [HT HN].
  { intros [name cname]. simpl. unfold lineFeed; rewrite !lineFeeds_append; simpl; lia. }
  split; [exact HT|].
  intros Hnone. apply HN. intros name cname Hrec.
  destruct (Hnone name cname Hrec) as [H1 H2]. simpl. lia.
Qed.

Lemma X19_second_program_output_witness :
  readLinesFromFile demoFiles "subdomains.txt"
    = (["shop.example.com"; "www.example.com"; "shop.example.com"], None) /\
  FixedFileGo.checkCNAMERecords movingZone
    ["shop.example.com"; "www.example.com"; "shop.example.com"] 0
    = ((Some {[ "shop.example.com" := "www.example.com.";
                "www.example.com" := "No CNAME record" ]}, None), 3) /\
  MainGo.checkCNAMERecords movingZone
    ["shop.example.com"; "www.example.com"; "shop.example.com"] 0
    = ((Some {[ "shop.example.com" := "www.example.com.";
                "www.example.com" := "No CNAME record" ]}, None), 3) /\
  exists output,
    FixedFileGo.main demoFiles movingZone (fun results => map_to_list results) 0
      = Finished output /\
    Permutation output
      (List.map (fun e => ("Subdomain: " ++ fst e ++ ", CNAME: " ++ snd e
                             ++ lineFeed)%string)
         (map_to_list ({[ "shop.example.com" := "www.example.com.";
                          "www.example.com" := "No CNAME record" ]}
                        : gmap string string))) /\
    length output = 2.
Proof.
  assert (readLinesFromFile demoFiles "subdomains.txt"
    = (["shop.example.com"; "www.example.com"; "shop.example.com"], None)) as Hsub
    by (vm_compute; reflexivity).
  assert (FixedFileGo.checkCNAMERecords movingZone
            ["shop.example.com"; "www.example.com"; "shop.example.com"] 0
          = ((Some {[ "shop.example.com" := "www.example.com.";
                      "www.example.com" := "No CNAME record" ]}, None), 3)) as Hscan
    by (vm_compute; reflexivity).
  assert (validRange (fun results : gmap string string => map_to_list results)) as Hord
    by (intros results; reflexivity).
  destruct (X19_second_program_output demoFiles movingZone _ Hord _ 0 3 _ Hsub Hscan)
    as (Hfirst & output & Hmain & HP & Hlen & _).
  split; [exact Hsub|]. split; [exact Hscan|]. split; [exact Hfirst|].
  exists output. split; [exact Hmain|]. split; [exact HP|]. rewrite Hlen.
  vm_compute. reflexivity.
Defined.

(** ** Scans with a resolver that answers by name only *)

Section StableAnswers.
Context {World A V : Type}.
Variable query : World -> string -> (A * option string) * World.
Variable store : A -> V.
Hypothesis stable : forall u1 u2 host, fst (query u1 host) = fst (query u2 host).

Lemma scanLoopG_stable_value (l : list string) (results : gmap string V) (w wEnd u : World)
    (name : string) (v : V) :
  scanLoopG query store l ∅ w = ((Some results, None), wEnd) ->
  results !! name = Some v ->
  v = store (fst (fst (query u name))).
Proof.
  intros H Hv.
  destruct (scanLoopG_answers query store _ _ _ _ _ H name v Hv)
    as [He|(w0 & answer & w1 & Hq & ->)].
  - rewrite lookup_empty in He. discriminate.
  - rewrite (stable u w0 name), Hq. reflexivity.
Qed.

Lemma scanLoopG_orderIrrelevant :
  orderIrrelevant (fun l w => scanLoopG query store l ∅ w).
Proof.
  intros l l' w w' results results' wEnd wEnd' Hsame H H'.
  apply map_eq. intros name.
  pose proof (scanLoopG_keysAreInput query store _ _ _ _ H name) as K.
  pose proof (scanLoopG_keysAreInput query store _ _ _ _ H' name) as K'.
  destruct (results !! name) as [v|] eqn:E, (results' !! name) as [v'|] eqn:E'.
  - rewrite (scanLoopG_stable_value _ _ _ _ w _ _ H E),
            (scanLoopG_stable_value _ _ _ _ w _ _ H' E'). reflexivity.
  - exfalso. assert (is_Some (@None V)) as [x Hx]; [|discriminate].
    apply K', Hsame, K. eauto.
  - exfalso. assert (is_Some (@None V)) as [x Hx]; [|discriminate].
    apply K, Hsame, K'. eauto.
  - reflexivity.
Qed.

Lemma scanLoopG_stable_success (l : list string) (m : gmap string V) (w u : World) :
  (exists results wEnd, scanLoopG query store l m w = ((Some results, None), wEnd)) <->
  (forall name, In name l -> snd (fst (query u name)) = None).
Proof.
  revert m w. induction l as [|s l IH]; intros m w; simpl.
  - split; [intros _ name []|]. intros _. exists m, w. reflexivity.
  - pose proof (stable u w s) as Hs.
    destruct (query w s) as [[a [err|]] w1]; simpl in Hs.
    + split.
      * intros (r & wEnd & H). discriminate.
      * intros H. specialize (H s (or_introl eq_refl)). rewrite Hs in H. discriminate.
    + rewrite IH. split.
      * intros H name [<-|Hin]; [rewrite Hs; reflexivity|apply H, Hin].
      * intros H name Hin. apply H. right. exact Hin.
Qed.

End StableAnswers.

Lemma orderIrrelevant_ext {World R : Type}
    (check check' : list string -> World -> (option (gmap string R) * option string) * World) :
  (forall l w, check l w = check' l w) -> orderIrrelevant check' -> orderIrrelevant check.
Proof.
  intros E H l l' w w' results results' wEnd wEnd' Hsame H1 H2.
  apply (H l l' w w' results results' wEnd wEnd' Hsame); rewrite <- E; assumption.
Qed.

Lemma stable_lookups {World : Type} (dig : Resolver World) :
  (forall u1 u2 host, fst (dig u1 host) = fst (dig u2 host)) ->
  (forall u1 u2 host,
     fst (MainGo.getCNAMERecord dig u1 host) = fst (MainGo.getCNAMERecord dig u2 host)) /\
  (forall u1 u2 host,
     fst (StatusGo.getCNAMERecord dig u1 host) = fst (StatusGo.getCNAMERecord dig u2 host)) /\
  (forall u1 u2 host,
     fst (PatternGo.getCNAMERecord dig u1 host) = fst (PatternGo.getCNAMERecord dig u2 host)) /\
  (forall u1 u2 host,
     fst (WildcardGo.getCNAMERecord dig u1 host) = fst (WildcardGo.getCNAMERecord dig u2 host)).
Proof.
  intros Hdig. repeat split; intros u1 u2 host; specialize (Hdig u1 u2 host);
    unfold MainGo.getCNAMERecord, StatusGo.getCNAMERecord, PatternGo.getCNAMERecord,
      WildcardGo.getCNAMERecord;
    destruct (dig u1 host), (dig u2 host); simpl in *; congruence.
Qed.

(** X20.  With a resolver whose answers depend on the hostname only, the
    result set of a successful scan depends only on which subdomains are
    listed, not on their order or on repetitions: two successful scans
    of lists holding the same names return the same map.  In each of the
    four programs. *)
Theorem X20_scan_order_irrelevant {World : Type} (dig : Resolver World)
    (Hdig : forall u1 u2 host, fst (dig u1 host) = fst (dig u2 host))
    (patterns : list string) :
  orderIrrelevant (MainGo.checkCNAMERecords dig)
  /\ orderIrrelevant (StatusGo.checkCNAMERecords dig)
  /\ orderIrrelevant (fun subdomains => PatternGo.checkCNAMERecords dig subdomains patterns)
  /\ orderIrrelevant (fun subdomains => WildcardGo.checkCNAMERecords dig subdomains patterns).
Proof.
  destruct (stable_lookups dig Hdig) as (HM & HS & HP & HW).
  split; [|split; [|split]].
  - eapply orderIrrelevant_ext; [apply MainGo_check_G|apply scanLoopG_orderIrrelevant, HM].
  - eapply orderIrrelevant_ext; [apply StatusGo_check_G|apply scanLoopG_orderIrrelevant, HS].
  - eapply orderIrrelevant_ext;
      [intros; apply PatternGo_check_G|apply scanLoopG_orderIrrelevant, HP].
  - eapply orderIrrelevant_ext;
      [intros; apply WildcardGo_check_G|apply scanLoopG_orderIrrelevant, HW].
Qed.

(** X21.  With a resolver whose answers depend on the hostname only, a
    scan succeeds exactly when the lookup of every listed subdomain
    succeeds, whatever the order of the list; for
    [src/unnamed/part_001] that is when no listed subdomain makes [dig]
    fail. *)
Theorem X21_scan_succeeds_iff_all_resolve {World : Type} (dig : Resolver World)
    (Hdig : forall u1 u2 host, fst (dig u1 host) = fst (dig u2 host))
    (subdomains patterns : list string) (w u : World) :
  (exists results wEnd,
     WildcardGo.checkCNAMERecords dig subdomains patterns w = ((Some results, None), wEnd))
  <-> (forall name, In name subdomains -> processFailed (fst (dig u name)) = false).
Proof.
  destruct (stable_lookups dig Hdig) as (_ & _ & _ & HW).
  rewrite WildcardGo_check_G.
  rewrite (scanLoopG_stable_success (WildcardGo.getCNAMERecord dig) _ HW subdomains ∅ w u).
  split; intros H name Hin; specialize (H name Hin);
    unfold WildcardGo.getCNAMERecord, WildcardGo.getCNAMERecordOf, processFailed in *;
    destruct (dig u name) as [run w']; simpl in *; destruct (RunErr run); try discriminate;
    try reflexivity.
  destruct (String.eqb (TrimSpace (Stdout run)) ""); reflexivity.
Qed.

Lemma loggingZone_stable :
  forall u1 u2 host, fst (loggingZone u1 host) = fst (loggingZone u2 host).
Proof. intros u1 u2 host. reflexivity. Qed.

Lemma X20_scan_order_irrelevant_witness :
  (forall name, In name ["shop.example.com"; "www.example.com"]
                <-> In name ["www.example.com"; "shop.example.com"; "www.example.com"])
  /\ ({[ "shop.example.com" := WildcardGo.mkRecord "shop.s3.amazonaws.com." true;
         "www.example.com" := WildcardGo.mkRecord "No CNAME record" false ]}
       : gmap string WildcardGo.RecordT)
     = {[ "www.example.com" := WildcardGo.mkRecord "No CNAME record" false;
          "shop.example.com" := WildcardGo.mkRecord "shop.s3.amazonaws.com." true ]}.
Proof.
  assert (forall name, In name ["shop.example.com"; "www.example.com"]
            <-> In name ["www.example.com"; "shop.example.com"; "www.example.com"]) as Hsame
    by (intros name; simpl; tauto).
  split; [exact Hsame|].
  refine (proj2 (proj2 (proj2 (X20_scan_order_irrelevant loggingZone loggingZone_stable
                                 ["amazonaws.com"])))
            _ _ [] ["earlier.example.com"] _ _
            ["www.example.com"; "shop.example.com"]
            ["www.example.com"; "shop.example.com"; "www.example.com"; "earlier.example.com"]
            Hsame _ _);
    vm_compute; reflexivity.
Defined.

Lemma X21_scan_succeeds_iff_all_resolve_witness :
  (forall name, In name ["shop.example.com"; "www.example.com"] ->
     processFailed (fst (loggingZone [] name)) = false)
  /\ exists results wEnd,
       WildcardGo.checkCNAMERecords loggingZone ["shop.example.com"; "www.example.com"]
         ["amazonaws.com"] [] = ((Some results, None), wEnd).
Proof.
  assert (forall name, In name ["shop.example.com"; "www.example.com"] ->
            processFailed (fst (loggingZone [] name)) = false) as Hall
    by (intros name [<-|[<-|[]]]; reflexivity).
  split; [exact Hall|].
  exact (proj2 (X21_scan_succeeds_iff_all_resolve loggingZone loggingZone_stable
                  ["shop.example.com"; "www.example.com"] ["amazonaws.com"] [] []) Hall).
Defined.
